(** * Snippet synthesis of the PXT TypeScript worker

    A shallow embedding of the completion worker of pxt-monaco-typescript
    and the properties of its default-argument snippet synthesis.  The
    repository holds two revisions of the worker; the embedding follows
    the later one, which carries [ignoredCompletions], emits [${1:name}]
    placeholders and looks the first enum member up in the enum's
    declaration.  The signature driver is the same in both.  [Host]
    embeds the worker as a language service host, and [Legacy] the
    snippet synthesis of the earlier revision, with its own patterns,
    texts and enum lookup.

    Conventions.
    - A JavaScript string is a [string]: a sequence of code units, here
      restricted to the code units below 256.
    - [undefined] where a string is expected is [None : option string].
    - A JavaScript call either completes normally or throws; [outcome] keeps
      the two apart.
    - The TypeScript services library is not part of the worker: its
      enumerations are a record of constants ([TsConstants]), its type
      checker and language service are records of functions. *)

From Stdlib Require Import ZArith List String Ascii Bool Lia DecimalString.

#[local] Set Warnings "-register-all".
Import ListNotations.

Local Open Scope string_scope.

(* ================================================================== *)
(** ** The JavaScript runtime the worker relies on *)
(* ================================================================== *)

Module Js.

(** *** Completions *)

Inductive error : Type :=
| TypeError.

Inductive outcome (A : Type) : Type :=
| Normal (a : A)
| Throw (e : error).

Arguments Normal {A} a.
Arguments Throw {A} e.

Definition bind {A B : Type} (m : outcome A) (f : A -> outcome B) : outcome B :=
  match m with
  | Normal a => f a
  | Throw e => Throw e
  end.

(** [Array.prototype.forEach] with a callback that pushes its result:
    the callbacks run in index order and the first throw aborts. *)
Fixpoint forEachPush {A B : Type} (f : A -> outcome B) (l : list A) : outcome (list B) :=
  match l with
  | [] => Normal []
  | a :: l' =>
      bind (f a) (fun b => bind (forEachPush f l') (fun bs => Normal (b :: bs)))
  end.

(** *** Characters *)

Definition code (c : ascii) : nat := nat_of_ascii c.

Definition dquote : ascii := "034"%char.
Definition squote : ascii := "039"%char.
Definition LF : ascii := "010"%char.
Definition TAB : ascii := "009"%char.
Definition backtick : ascii := "096"%char.

(** WhiteSpace and LineTerminator code units (below 256): TAB, LF, VT,
    FF, CR, SP, NBSP.  This is the set of [\s] and of [trim]. *)
Definition isWhiteSpace (c : ascii) : bool :=
  let n := code c in
  (((9 <=? n) && (n <=? 13)) || (n =? 32) || (n =? 160))%nat.

(** LineTerminator code units (below 256): LF and CR. *)
Definition isLineTerminator (c : ascii) : bool :=
  let n := code c in
  ((n =? 10) || (n =? 13))%nat.

(** The characters of [\w]: [A-Za-z0-9_]. *)
Definition isWordChar (c : ascii) : bool :=
  let n := code c in
  (((65 <=? n) && (n <=? 90)) || ((97 <=? n) && (n <=? 122))
   || ((48 <=? n) && (n <=? 57)) || (n =? 95))%nat.

(** Canonicalize of a case-insensitive regular expression without the
    unicode flag: the upper-case code unit, when it is a single code
    unit below 256 (a-z, and the Latin-1 letters except U+00F7). *)
Definition canonicalize (c : ascii) : ascii :=
  let n := code c in
  if (((97 <=? n) && (n <=? 122))
      || ((224 <=? n) && (n <=? 254) && negb (n =? 247)))%nat
  then ascii_of_nat (n - 32) else c.

(** *** Numbers *)

(** ToInt32 of an integral number. *)
Definition toInt32 (x : Z) : Z :=
  ((x + 2 ^ 31) mod 2 ^ 32 - 2 ^ 31)%Z.

(** [a & b] *)
Definition bitand (a b : Z) : Z := Z.land (toInt32 a) (toInt32 b).

(** ToBoolean of a number (no NaN among integral numbers). *)
Definition truthy (x : Z) : bool := negb (x =? 0)%Z.

(** ToBoolean of a string or undefined. *)
Definition truthyStr (v : option string) : bool :=
  match v with
  | Some s => negb (s =? "")
  | None => false
  end.

(** *** Strings *)

Definition len (s : string) : Z := Z.of_nat (String.length s).

Fixpoint isPrefix (p s : string) : bool :=
  match p, s with
  | EmptyString, _ => true
  | String a p', String b s' => Ascii.eqb a b && isPrefix p' s'
  | String _ _, EmptyString => false
  end.

(** [s.indexOf(pat)] scanning from position [i]; -1 when absent. *)
Fixpoint indexOfFrom (pat s : string) (i : Z) : Z :=
  if isPrefix pat s then i
  else match s with
       | EmptyString => (-1)%Z
       | String _ s' => indexOfFrom pat s' (i + 1)
       end.

Definition indexOf (s pat : string) : Z := indexOfFrom pat s 0.

(** [s.lastIndexOf(pat)]: the greatest position where [pat] occurs. *)
Fixpoint lastIndexOfFrom (pat s : string) (i : Z) : Z :=
  let later :=
    match s with
    | EmptyString => (-1)%Z
    | String _ s' => lastIndexOfFrom pat s' (i + 1)
    end in
  if (0 <=? later)%Z then later
  else if isPrefix pat s then i else (-1)%Z.

Definition lastIndexOf (s pat : string) : Z := lastIndexOfFrom pat s 0.

Fixpoint take (n : nat) (s : string) : string :=
  match n, s with
  | S n', String a s' => String a (take n' s')
  | _, _ => EmptyString
  end.

(** [s.substr(0, n)]: nothing for a negative length, at most the whole
    string. *)
Definition substr0 (s : string) (n : Z) : string :=
  if (n <=? 0)%Z then EmptyString else take (Z.to_nat n) s.

Fixpoint trimStart (s : string) : string :=
  match s with
  | String a s' => if isWhiteSpace a then trimStart s' else s
  | EmptyString => EmptyString
  end.

Fixpoint trimEnd (s : string) : string :=
  match s with
  | String a s' =>
      match trimEnd s' with
      | EmptyString => if isWhiteSpace a then EmptyString else String a EmptyString
      | t => String a t
      end
  | EmptyString => EmptyString
  end.

(** [s.trim()] *)
Definition trim (s : string) : string := trimEnd (trimStart s).

(** *** Arrays *)

(** [a.slice(0, k)]: a negative [k] counts from the end. *)
Definition slice0 {A : Type} (a : list A) (k : Z) : list A :=
  let n := Z.of_nat (List.length a) in
  let final := if (k <? 0)%Z then Z.max (n + k) 0 else Z.min k n in
  firstn (Z.to_nat final) a.

(** The text an array element contributes to [join]: [undefined]
    contributes the empty string. *)
Definition joinText (v : option string) : string :=
  match v with
  | Some s => s
  | None => EmptyString
  end.

(** [a.join(sep)] *)
Fixpoint join (sep : string) (a : list (option string)) : string :=
  match a with
  | [] => EmptyString
  | [v] => joinText v
  | v :: a' => joinText v ++ sep ++ join sep a'
  end.

(** *** More of the string library *)

Fixpoint drop (n : nat) (s : string) : string :=
  match n, s with
  | S n', String _ s' => drop n' s'
  | _, _ => s
  end.

(** [s.substring(start, end)]: both positions are clamped to the
    string, and swapped when [start] is the greater. *)
Definition substring (s : string) (start end_ : Z) : string :=
  let n := len s in
  let finalStart := Z.min (Z.max start 0) n in
  let finalEnd := Z.min (Z.max end_ 0) n in
  let from := Z.min finalStart finalEnd in
  let to := Z.max finalStart finalEnd in
  take (Z.to_nat (to - from)) (drop (Z.to_nat from) s).

(** [s.substr(start)]: to the end of the string; a negative [start]
    counts from the end. *)
Definition substrFrom (s : string) (start : Z) : string :=
  let n := len s in
  let from := if (start <? 0)%Z then Z.max (n + start) 0 else Z.min start n in
  drop (Z.to_nat from) s.

(** [n.toString()] of an integral number (below the magnitude where
    the exponent notation sets in). *)
Definition numberToString (n : Z) : string :=
  NilZero.string_of_int (Z.to_int n).

End Js.

Notation "x <- m ;; k" := (Js.bind m (fun x => k))
  (at level 61, m at next level, right associativity).

(* ================================================================== *)
(** ** Regular expressions: a backtracking matcher *)
(* ================================================================== *)

(** The fragment of ECMAScript patterns the worker's two literals use,
    matched as the language specifies: alternatives left to right, greedy
    quantifiers that give characters back on failure, zero-width
    iterations of a quantifier rejected, the leftmost match returned. *)

Module Regex.

Inductive regex : Type :=
| Empty                              (* the empty pattern *)
| Char (c : ascii)                   (* a pattern character *)
| Class (p : ascii -> bool)          (* a character class or escape *)
| WordBoundary                       (* \b *)
| Seq (a b : regex)                  (* ab *)
| Alt (a b : regex)                  (* a|b *)
| Star (a : regex)                   (* a* *)
| Group (i : nat) (a : regex).       (* the i-th capturing group *)

(** a+ *)
Definition Plus (a : regex) : regex := Seq a (Star a).
(** a? *)
Definition Opt (a : regex) : regex := Alt a Empty.

(** Captured groups, most recent first. *)
Definition captures : Type := list (nat * string).

Fixpoint capture (i : nat) (c : captures) : option string :=
  match c with
  | [] => None
  | (j, s) :: c' => if (i =? j)%nat then Some s else capture i c'
  end.

(** The state of a match: the character before the current position
    (for \b), the input still to read, the groups captured so far. *)
Definition continuation : Type :=
  option ascii -> string -> captures -> option (string * captures).

Definition isWordBefore (prev : option ascii) : bool :=
  match prev with
  | Some c => Js.isWordChar c
  | None => false
  end.

Definition isWordAt (s : string) : bool :=
  match s with
  | String c _ => Js.isWordChar c
  | EmptyString => false
  end.

Definition charMatches (ignoreCase : bool) (c ch : ascii) : bool :=
  if ignoreCase
  then Ascii.eqb (Js.canonicalize c) (Js.canonicalize ch)
  else Ascii.eqb c ch.

Section Matcher.

Variable ignoreCase : bool.

(** The greedy loop of a quantifier [*] over [body]: one more
    iteration first, provided it consumes input, the continuation [k]
    when that fails.  [fuel] bounds the iterations; each consumes a
    character, so the length of the input plus one is never used up. *)
Fixpoint iterate (body : option ascii -> string -> captures -> continuation
                         -> option (string * captures))
         (k : continuation) (fuel : nat)
         (prev : option ascii) (s : string) (c : captures)
         {struct fuel} : option (string * captures) :=
  match fuel with
  | O => k prev s c
  | S fuel' =>
      match body prev s c
              (fun prev' s' c' =>
                 if (String.length s' <? String.length s)%nat
                 then iterate body k fuel' prev' s' c'
                 else None)
      with
      | Some m => Some m
      | None => k prev s c
      end
  end.

(** [matcher r prev s c k]: match [r] at the front of [s], then hand
    the rest to [k]; [None] is failure, which makes the caller try
    its next choice. *)
Fixpoint matcher (r : regex) (prev : option ascii) (s : string) (c : captures)
         (k : continuation) {struct r} : option (string * captures) :=
  match r with
  | Empty => k prev s c
  | Char a =>
      match s with
      | String ch s' => if charMatches ignoreCase a ch then k (Some ch) s' c else None
      | EmptyString => None
      end
  | Class p =>
      match s with
      | String ch s' => if p ch then k (Some ch) s' c else None
      | EmptyString => None
      end
  | WordBoundary =>
      if xorb (isWordBefore prev) (isWordAt s) then k prev s c else None
  | Seq a b =>
      matcher a prev s c (fun prev' s' c' => matcher b prev' s' c' k)
  | Alt a b =>
      match matcher a prev s c k with
      | Some m => Some m
      | None => matcher b prev s c k
      end
  | Star a =>
      iterate (matcher a) k (S (String.length s)) prev s c
  | Group i a =>
      matcher a prev s c
        (fun prev' s' c' =>
           k prev' s' ((i, Js.take (String.length s - String.length s') s) :: c'))
  end.

Definition accept : continuation := fun _ s c => Some (s, c).

(** The leftmost position of [s] where [r] matches. *)
Fixpoint search (r : regex) (prev : option ascii) (s : string)
  : option (string * captures) :=
  match matcher r prev s [] accept with
  | Some (rest, c) => Some (Js.take (String.length s - String.length rest) s, c)
  | None =>
      match s with
      | String ch s' => search r (Some ch) s'
      | EmptyString => None
      end
  end.

End Matcher.

(** [re.exec(s)] of a regular expression whose [lastIndex] is 0: the
    matched text and the captures, or [None] for [null]. *)
Definition exec (ignoreCase : bool) (r : regex) (s : string)
  : option (string * captures) :=
  search ignoreCase r None s.

(** [match[i]] of an exec result. *)
Definition group (m : string * captures) (i : nat) : option string :=
  match i with
  | O => Some (fst m)
  | _ => capture i (snd m)
  end.

End Regex.

(* ================================================================== *)
(** ** The TypeScript services as the worker sees them *)
(* ================================================================== *)

Module Ts.

(** The members of [ts.TypeFlags], [ts.ObjectFlags], [ts.SyntaxKind]
    and [ts.ScriptElementKind] the worker reads.  Their values belong
    to the services library the worker is linked with. *)
Record TsConstants : Type := {
  TypeFlags_EnumLiteral : Z;
  TypeFlags_Object : Z;
  TypeFlags_String : Z;
  TypeFlags_Number : Z;
  TypeFlags_Boolean : Z;
  TypeFlags_Void : Z;
  TypeFlags_NumberLike : Z;
  TypeFlags_StringLike : Z;
  TypeFlags_BooleanLike : Z;
  ObjectFlags_Anonymous : Z;
  ObjectFlags_Tuple : Z;
  SyntaxKind_EnumDeclaration : Z;
  SyntaxKind_Identifier : Z;
  ScriptElementKind_interfaceElement : string;
  ScriptElementKind_typeElement : string;
  ScriptElementKind_keyword : string;
  ScriptElementKind_moduleElement : string
}.

(** [ts.SymbolDisplayPart] *)
Record SymbolDisplayPart : Type := {
  text : string;
  partKind : string
}.

(** [ts.displayPartsToString] *)
Definition displayPartsToString (parts : list SymbolDisplayPart) : string :=
  String.concat "" (map text parts).

(** The name node of an enum member: an identifier, a string literal
    or a computed name, told apart by [kind]. *)
Module PropertyName.
Record t : Type := {
  kind : Z;
  text : string
}.
End PropertyName.

Module EnumMember.
Record t : Type := {
  name : PropertyName.t
}.
End EnumMember.

(** A declaration node; [members] is present on enum declarations. *)
Module Declaration.
Record t : Type := {
  kind : Z;
  members : option (list EnumMember.t)
}.
End Declaration.

(** [ts.Symbol]; [declarations], [valueDeclaration] and [members] are
    optional properties. *)
Module Symbol.
Inductive t : Type :=
| Build (name : string)
        (declarations : option (list Declaration.t))
        (valueDeclaration : option Declaration.t)
        (documentationComment : list SymbolDisplayPart)
        (members : option (list (string * t))).

Definition name (s : t) : string :=
  let 'Build n _ _ _ _ := s in n.
Definition getDeclarations (s : t) : option (list Declaration.t) :=
  let 'Build _ d _ _ _ := s in d.
Definition valueDeclaration (s : t) : option Declaration.t :=
  let 'Build _ _ v _ _ := s in v.
Definition getDocumentationComment (s : t) : list SymbolDisplayPart :=
  let 'Build _ _ _ c _ := s in c.
Definition members (s : t) : option (list (string * t)) :=
  let 'Build _ _ _ _ m := s in m.

(** [table[key]] on a symbol table. *)
Fixpoint lookup (table : list (string * t)) (key : string) : option t :=
  match table with
  | [] => None
  | (k, v) :: table' => if (k =? key)%string then Some v else lookup table' key
  end.
End Symbol.

(** [ts.Signature] *)
Module Signature.
Record t : Type := {
  parameters : list Symbol.t;
  minArgumentCount : Z
}.
End Signature.

(** [ts.Type]; [objectFlags] is read on object types only, and
    [intrinsicName] is absent on types that are not intrinsic. *)
Module Type_.
Record t : Type := {
  flags : Z;
  symbol : option Symbol.t;
  objectFlags : Z;
  getCallSignatures : list Signature.t;
  intrinsicName : option string
}.
End Type_.

(** [ts.TypeChecker], with the display builder's signature printer. *)
Record TypeChecker : Type := {
  getTypeOfSymbolAtLocation : Symbol.t -> option Declaration.t -> Type_.t;
  typeToString : Type_.t -> string;
  getReturnTypeOfSignature : Signature.t -> Type_.t;
  buildSignatureDisplay : Signature.t -> list SymbolDisplayPart
}.

(** [ts.CompletionEntry] and [ts.CompletionInfo] *)
Record CompletionEntry : Type := {
  entryName : string;
  entryKind : string;
  entryKindModifiers : string;
  entrySortText : string
}.

Record CompletionInfo : Type := {
  isGlobalCompletion : bool;
  isMemberCompletion : bool;
  isNewIdentifierLocation : bool;
  entries : list CompletionEntry
}.

(** [ts.CompletionEntryDetails] ([tags] is always [undefined]). *)
Record CompletionEntryDetails : Type := {
  name : string;
  kindModifiers : string;
  kind : string;
  displayParts : list SymbolDisplayPart;
  documentation : list SymbolDisplayPart
}.

(** What [SymbolDisplay.getSymbolDisplayPartsDocumentationAndSymbolKind]
    returns. *)
Record SymbolDisplayInfo : Type := {
  infoDisplayParts : list SymbolDisplayPart;
  infoDocumentation : list SymbolDisplayPart;
  infoSymbolKind : string
}.

(** [ts.LanguageService], with the symbol display helpers. *)
Record LanguageService : Type := {
  getTypeChecker : TypeChecker;
  getCompletionsAtPosition : string -> Z -> option CompletionInfo;
  getCompletionEntrySymbol : string -> Z -> string -> option Symbol.t;
  getSymbolDisplayPartsDocumentationAndSymbolKind : Symbol.t -> string -> SymbolDisplayInfo;
  getSymbolModifiers : Symbol.t -> string
}.

End Ts.

(* ================================================================== *)
(** ** The worker *)
(* ================================================================== *)

Module Worker.

Import Js Ts.

Section TypeScriptWorker.

(** The services library the worker is linked with. *)
Variable ts : TsConstants.

(** [this._languageService] *)
Variable languageService : LanguageService.

(** *** Ignored completions *)

(** The object literal [ignoredCompletions], in source order.  Its keys
    are distinct; an own key is read back with its value, any other key
    reads back [undefined] or a member of [Object.prototype], neither of
    which is a string. *)
Definition ignoredCompletions : list (string * string) :=
  [ (* Boxed types *)
    ("Boolean", ScriptElementKind_interfaceElement ts);
    ("Number", ScriptElementKind_interfaceElement ts);
    ("String", ScriptElementKind_interfaceElement ts);
    ("Function", ScriptElementKind_interfaceElement ts);
    ("Object", ScriptElementKind_interfaceElement ts);
    (* Unsupported types *)
    ("RegExp", ScriptElementKind_interfaceElement ts);
    ("IArguments", ScriptElementKind_interfaceElement ts);
    (* C++ types *)
    ("int16", ScriptElementKind_typeElement ts);
    ("int32", ScriptElementKind_typeElement ts);
    ("int8", ScriptElementKind_typeElement ts);
    ("uint16", ScriptElementKind_typeElement ts);
    ("uint32", ScriptElementKind_typeElement ts);
    ("uint8", ScriptElementKind_typeElement ts);
    (* Unsupported keywords *)
    ("instanceof", ScriptElementKind_keyword ts);
    ("typeof", ScriptElementKind_keyword ts);
    ("never", ScriptElementKind_keyword ts);
    ("debugger", ScriptElementKind_keyword ts);
    ("declare", ScriptElementKind_keyword ts);
    ("export", ScriptElementKind_keyword ts);
    ("global", ScriptElementKind_keyword ts);
    ("keyof", ScriptElementKind_keyword ts);
    ("module", ScriptElementKind_keyword ts);
    ("var", ScriptElementKind_keyword ts);
    ("in", ScriptElementKind_keyword ts);
    ("from", ScriptElementKind_keyword ts);
    ("import", ScriptElementKind_keyword ts);
    ("delete", ScriptElementKind_keyword ts);
    ("with", ScriptElementKind_keyword ts);
    ("await", ScriptElementKind_keyword ts);
    ("try", ScriptElementKind_keyword ts);
    ("catch", ScriptElementKind_keyword ts);
    ("finally", ScriptElementKind_keyword ts);
    ("yield", ScriptElementKind_keyword ts);
    ("as", ScriptElementKind_keyword ts);
    ("async", ScriptElementKind_keyword ts);
    ("abstract", ScriptElementKind_keyword ts);
    ("any", ScriptElementKind_keyword ts);
    ("undefined", ScriptElementKind_keyword ts);
    ("throw", ScriptElementKind_keyword ts);
    ("symbol", ScriptElementKind_keyword ts);
    ("super", ScriptElementKind_keyword ts);
    ("require", ScriptElementKind_keyword ts);
    ("readonly", ScriptElementKind_keyword ts);
    (* Internal namespace *)
    ("helpers", ScriptElementKind_moduleElement ts) ].

(** [ignoredCompletions[name]], when it is a string. *)
Fixpoint lookupIgnored (table : list (string * string)) (name : string) : option string :=
  match table with
  | [] => None
  | (k, v) :: table' => if (k =? name)%string then Some v else lookupIgnored table' name
  end.

(** [ignoredCompletions[e.name] !== e.kind] *)
Definition notIgnored (e : CompletionEntry) : bool :=
  match lookupIgnored ignoredCompletions (entryName e) with
  | Some k => negb (k =? entryKind e)%string
  | None => true
  end.

(** [e.name.indexOf('_') != 0] *)
Definition notUnderscored (e : CompletionEntry) : bool :=
  negb (indexOf (entryName e) "_" =? 0)%Z.

Definition getCompletionsAtPosition (fileName : string) (position : Z)
  : option CompletionInfo :=
  let completions := Ts.getCompletionsAtPosition languageService fileName position in
  match completions with
  | Some completions =>
      Some {| isGlobalCompletion := isGlobalCompletion completions;
              isMemberCompletion := isMemberCompletion completions;
              isNewIdentifierLocation := isNewIdentifierLocation completions;
              entries := filter (fun e => notIgnored e && notUnderscored e)
                                (entries completions) |}
  | None => None
  end.

(** *** Snippets *)

Let typeChecker : TypeChecker := getTypeChecker languageService.

Definition defaultImgLit : string :=
  String LF (String TAB ". . . . .")
  ++ String LF (String TAB ". . . . .")
  ++ String LF (String TAB ". . # . .")
  ++ String LF (String TAB ". . . . .")
  ++ String LF (String TAB ". . . . .")
  ++ String LF (String TAB "").

Definition quoted (val : string) : string :=
  String dquote (val ++ String dquote "").

(** The template [${1:name}]. *)
Definition placeholder (name : string) : string :=
  "${1:" ++ name ++ "}".

Definition renderDefaultVal (name : string) (type : option string) : string :=
  match type with
  | Some "number" => "0"
  | Some "boolean" => "false"
  | Some "string" =>
      if (name =? "leds")%string
      then String backtick (defaultImgLit ++ String backtick "")
      else quoted ""
  | _ => placeholder name
  end.

(** [/\beg\.?:\s*(.+)/i] *)
Definition paramExamplesRegExp : Regex.regex :=
  Regex.Seq Regex.WordBoundary
    (Regex.Seq (Regex.Char "e")
      (Regex.Seq (Regex.Char "g")
        (Regex.Seq (Regex.Opt (Regex.Char "."))
          (Regex.Seq (Regex.Char ":")
            (Regex.Seq (Regex.Star (Regex.Class isWhiteSpace))
              (Regex.Group 1
                 (Regex.Plus (Regex.Class (fun c => negb (isLineTerminator c)))))))))).

(** The global pattern of three alternatives: a double-quoted run whose
    inside (any characters but the double quote, possibly none) is
    group 1; a single-quoted run whose inside is group 2; a non-empty run
    of characters other than white space and comma, group 3. *)
Definition reg : Regex.regex :=
  Regex.Alt
    (Regex.Seq (Regex.Char dquote)
       (Regex.Seq
          (Regex.Group 1 (Regex.Star (Regex.Class (fun c => negb (Ascii.eqb c dquote)))))
          (Regex.Char dquote)))
    (Regex.Alt
       (Regex.Seq (Regex.Char squote)
          (Regex.Seq
             (Regex.Group 2 (Regex.Star (Regex.Class (fun c => negb (Ascii.eqb c squote)))))
             (Regex.Char squote)))
       (Regex.Group 3
          (Regex.Plus
             (Regex.Class (fun c => negb (isWhiteSpace c || Ascii.eqb c ",")))))).

(** [a || b] on strings that may be [undefined]. *)
Definition orElse (a b : option string) : option string :=
  if truthyStr a then a else b.

(** The parameter default taken from the documentation: the block
    guarded by [if (paramExamples)].  [Some v] is [return v] ([v] may be
    [undefined]); [None] is falling out of the block. *)
Definition paramExample (parameterDoc : string) : option (option string) :=
  let paramExamples := Regex.exec true paramExamplesRegExp parameterDoc in
  match paramExamples with
  | Some paramExamples =>
      let match_ := Regex.exec false reg (trim (joinText (Regex.group paramExamples 1))) in
      match match_ with
      | Some match_ =>
          if truthyStr (orElse (Regex.group match_ 1) (Regex.group match_ 2))
          then
            let val := orElse (Regex.group match_ 1) (Regex.group match_ 2) in
            Some (Some (quoted (joinText val)))
          else Some (Regex.group match_ 3)
      | None => None
      end
  | None => None
  end.

(** The first enum declaration among the declarations: the [for] loop
    with its [break]. *)
Definition firstEnumDeclaration (enumDeclarations : list Declaration.t)
  : option Declaration.t :=
  find (fun declaration =>
          (Declaration.kind declaration =? SyntaxKind_EnumDeclaration ts)%Z)
       enumDeclarations.

(** The value of [enumValue] after the enum block; reading [length] of
    absent declarations throws. *)
Definition enumValueOf (enumParameter : Type_.t) : outcome (option string) :=
  match Type_.symbol enumParameter with
  | Some symbol =>
      match Symbol.getDeclarations symbol with
      | None => Throw TypeError
      | Some enumDeclarations =>
          match firstEnumDeclaration enumDeclarations with
          | Some enumDeclaration =>
              match Declaration.members enumDeclaration with
              | Some (member :: _) =>
                  let enumName := EnumMember.name member in
                  if (PropertyName.kind enumName =? SyntaxKind_Identifier ts)%Z
                  then Normal (Some (PropertyName.text enumName))
                  else Normal None
              | _ => Normal None
              end
          | None => Normal None
          end
      end
  | None => Normal None
  end.

(** The function literal of the anonymous-object branch. *)
Definition renderFunction (parameterType : Type_.t) : string :=
  let functionSignature := Type_.getCallSignatures parameterType in
  let '(functionArgument, returnValue) :=
    match functionSignature with
    | signature0 :: _ =>
        let displayParts := buildSignatureDisplay typeChecker signature0 in
        let returnType := getReturnTypeOfSignature typeChecker signature0 in
        let returnValue :=
          if truthy (bitand (Type_.flags returnType) (TypeFlags_NumberLike ts))
          then "return 0;$0"
          else if truthy (bitand (Type_.flags returnType) (TypeFlags_StringLike ts))
          then "return " ++ quoted "" ++ ";$0"
          else if truthy (bitand (Type_.flags returnType) (TypeFlags_BooleanLike ts))
          then "return false;$0"
          else "$0" in
        let displayPartsStr := displayPartsToString displayParts in
        (substr0 displayPartsStr (lastIndexOf displayPartsStr ":"), returnValue)
    | [] => ("()", "$0")
    end in
  "function " ++ functionArgument ++ " {" ++ String LF (String TAB returnValue)
  ++ String LF "}".

Definition renderParameter (signature : Signature.t) (parameter : Symbol.t)
  : outcome (option string) :=
  let parameterType :=
    getTypeOfSymbolAtLocation typeChecker parameter (Symbol.valueDeclaration parameter) in
  let documentationComment := Symbol.getDocumentationComment parameter in
  let parameterDoc := displayPartsToString documentationComment in
  match paramExample parameterDoc with
  | Some example => Normal example
  | None =>
      let fallback := Normal (Some (placeholder (Symbol.name parameter))) in
      let flags := Type_.flags parameterType in
      if truthy flags then
        if truthy (bitand flags (TypeFlags_EnumLiteral ts)) then
          enumValue <- enumValueOf parameterType ;;
          if truthyStr enumValue
          then
            match Type_.symbol parameterType with
            | Some symbol => Normal (Some (Symbol.name symbol ++ "." ++ joinText enumValue))
            | None => Throw TypeError
            end
          else fallback
        else if truthy (bitand flags (TypeFlags_Object ts)) then
          let objectFlags := Type_.objectFlags parameterType in
          if truthy (bitand objectFlags (ObjectFlags_Anonymous ts))
          then Normal (Some (renderFunction parameterType))
          else
            let typeString := typeToString typeChecker parameterType in
            let bracketIndex := indexOf typeString "[]" in
            if truthy (bitand flags (ObjectFlags_Tuple ts))
               || (negb (bracketIndex =? -1)%Z && (bracketIndex =? len typeString - 2)%Z)
            then Normal (Some "[]")
            else fallback
        else if truthy (bitand flags (TypeFlags_String ts))
                || truthy (bitand flags (TypeFlags_Number ts))
                || truthy (bitand flags (TypeFlags_Boolean ts))
                || truthy (bitand flags (TypeFlags_Void ts))
        then Normal (Some (renderDefaultVal (Symbol.name parameter)
                                            (Type_.intrinsicName parameterType)))
        else fallback
      else fallback
  end.

(** The value of [codeSnippet] when the method returns. *)
Definition codeSnippetOf (label : string) (symbol : Symbol.t) : outcome string :=
  match Symbol.valueDeclaration symbol with
  | Some valueDeclaration =>
      if truthy (Declaration.kind valueDeclaration) then
        let type := getTypeOfSymbolAtLocation typeChecker symbol (Some valueDeclaration) in
        let signatures := Type_.getCallSignatures type in
        match signatures with
        | signature :: _ =>
            let minArgumentCount := Signature.minArgumentCount signature in
            suggestionArgumentNames <-
              forEachPush (renderParameter signature)
                          (slice0 (Signature.parameters signature) minArgumentCount) ;;
            if (0 <? Z.of_nat (List.length suggestionArgumentNames))%Z
            then Normal (label ++ "(" ++ join ", " suggestionArgumentNames ++ ")")
            else Normal (label ++ "()")
        | [] => Normal label
        end
      else Normal label
  | None => Normal label
  end.

(** The symbol the method works on: the entry's own, or the member
    [entry] of the [parent]'s symbol.  [parent] is an optional
    argument. *)
Definition completionSymbol (fileName : string) (position : Z) (entry : string)
           (parent : option string) : outcome (option Symbol.t) :=
  match getCompletionEntrySymbol languageService fileName position entry with
  | Some symbol => Normal (Some symbol)
  | None =>
      if truthyStr parent then
        match getCompletionEntrySymbol languageService fileName position
                                       (joinText parent) with
        | Some symbol =>
            match Symbol.members symbol with
            | Some members => Normal (Symbol.lookup members entry)
            | None => Throw TypeError
            end
        | None => Normal None
        end
      else Normal None
  end.

(** [None] is the bare [return] taken when no symbol is found. *)
Definition getCompletionEntryDetailsAndSnippet
           (fileName : string) (position : Z) (entry label : string)
           (parent : option string)
  : outcome (option (CompletionEntryDetails * string)) :=
  symbol <- completionSymbol fileName position entry parent ;;
  match symbol with
  | None => Normal None
  | Some symbol =>
      let info :=
        getSymbolDisplayPartsDocumentationAndSymbolKind languageService symbol fileName in
      let entryDetails :=
        {| name := entry;
           kindModifiers := getSymbolModifiers languageService symbol;
           kind := infoSymbolKind info;
           displayParts := infoDisplayParts info;
           documentation := infoDocumentation info |} in
      codeSnippet <- codeSnippetOf label symbol ;;
      Normal (Some (entryDetails, codeSnippet))
  end.

End TypeScriptWorker.

End Worker.

(* ================================================================== *)
(** ** The worker as a language service host *)
(* ================================================================== *)

Module Host.

Import Js.

(** [ts.ScriptKind] *)
Inductive ScriptKind : Type :=
| Unknown
| JS
| JSX
| TS
| TSX.

(** The compiler options the worker reads; both are optional. *)
Record CompilerOptions : Type := {
  target : option Z;
  allowJs : option bool
}.

(** [monaco.worker.IMirrorModel]; [uri] stands for [uri.toString()]. *)
Record IMirrorModel : Type := {
  uri : string;
  version : Z;
  getValue : string
}.

(** [ICreateData]; [extraLibs] is an object from file names to texts:
    its own keys, each with its text. *)
Record ICreateData : Type := {
  compilerOptions : CompilerOptions;
  extraLibs : list (string * string)
}.

(** [ts.IScriptSnapshot] of a text; [getChangeRange] always returns
    [undefined]. *)
Record IScriptSnapshot : Type := {
  getText : Z -> Z -> string;
  getLength : Z
}.

(** The object [getScriptSnapshot] returns: the snapshot of a text, or
    the object built around [this._extraLibs[name]] for a [name] that
    the extra libraries inherit from their prototype, which is a member
    of the prototype and no text. *)
Inductive Snapshot : Type :=
| TextSnapshot (snapshot : IScriptSnapshot)
| MemberSnapshot (name : string).

(** [object[fileName]] for an own key. *)
Fixpoint lookupLib (object : list (string * string)) (fileName : string)
  : option string :=
  match object with
  | [] => None
  | (key, text) :: object' =>
      if (key =? fileName)%string then Some text else lookupLib object' fileName
  end.

(** [fileName in object]: an own key, or one of the names the object
    inherits from its prototype. *)
Definition inLibs (inherited : list string) (fileName : string)
           (object : list (string * string)) : bool :=
  match lookupLib object fileName with
  | Some _ => true
  | None => existsb (String.eqb fileName) inherited
  end.

Section LanguageServiceHost.

(** [ts.ScriptTarget.ES5], and the texts of the two default libraries. *)
Variable ScriptTarget_ES5 : Z.
Variable libdts : string.
Variable libes6ts : string.

(** [this._ctx.getMirrorModels()], as it stands during one request. *)
Variable getMirrorModels : list IMirrorModel.

(** The argument of the constructor, and the names its [extraLibs]
    inherits from its prototype: those of [Object.prototype] for a plain
    object. *)
Variable createData : ICreateData.
Variable inherited : list string.

Definition DEFAULT_LIB_NAME : string := "defaultLib:lib.d.ts".
Definition ES6_LIB_NAME : string := "defaultLib:lib.es6.d.ts".

Definition _compilerOptions : CompilerOptions := compilerOptions createData.
Definition _extraLibs : list (string * string) := extraLibs createData.

Definition getCompilationSettings : CompilerOptions := _compilerOptions.

Definition getScriptFileNames : list string :=
  let models := map uri getMirrorModels in
  (models ++ map fst _extraLibs)%list.

(** The [for] loop: the first model with that URI, or [null]. *)
Fixpoint firstModel (models : list IMirrorModel) (fileName : string)
  : option IMirrorModel :=
  match models with
  | [] => None
  | model :: models' =>
      if (uri model =? fileName)%string then Some model else firstModel models' fileName
  end.

Definition _getModel (fileName : string) : option IMirrorModel :=
  firstModel getMirrorModels fileName.

(** [options.target <= ts.ScriptTarget.ES5]; an absent target compares
    false. *)
Definition getDefaultLibFileName (options : CompilerOptions) : string :=
  match target options with
  | Some t => if (t <=? ScriptTarget_ES5)%Z then DEFAULT_LIB_NAME else ES6_LIB_NAME
  | None => ES6_LIB_NAME
  end.

Definition isDefaultLibFileName (fileName : string) : bool :=
  (fileName =? getDefaultLibFileName _compilerOptions)%string.

(** [None] is falling off the end of the function. *)
Definition getScriptVersion (fileName : string) : option string :=
  match _getModel fileName with
  | Some model => Some (numberToString (version model))
  | None =>
      if isDefaultLibFileName fileName || inLibs inherited fileName _extraLibs
      then Some "1"
      else None
  end.

Definition snapshotOf (text : string) : IScriptSnapshot :=
  {| getText := fun start end_ => substring text start end_;
     getLength := len text |}.

(** [None] is the bare [return]. *)
Definition getScriptSnapshot (fileName : string) : option Snapshot :=
  match _getModel fileName with
  | Some model => Some (TextSnapshot (snapshotOf (getValue model)))
  | None =>
      if inLibs inherited fileName _extraLibs then
        match lookupLib _extraLibs fileName with
        | Some text => Some (TextSnapshot (snapshotOf text))
        | None => Some (MemberSnapshot fileName)
        end
      else if (fileName =? DEFAULT_LIB_NAME)%string
      then Some (TextSnapshot (snapshotOf libdts))
      else if (fileName =? ES6_LIB_NAME)%string
      then Some (TextSnapshot (snapshotOf libes6ts))
      else None
  end.

(** [allowJs] is tested for truth. *)
Definition getScriptKind (fileName : string) : ScriptKind :=
  let suffix := substrFrom fileName (lastIndexOf fileName "." + 1) in
  match suffix with
  | "ts" => TS
  | "tsx" => TSX
  | "js" => JS
  | "jsx" => JSX
  | _ =>
      match allowJs getCompilationSettings with
      | Some true => JS
      | _ => TS
      end
  end.

Definition getCurrentDirectory : string := "".

End LanguageServiceHost.

End Host.

(* ================================================================== *)
(** ** The earlier revision of the snippet synthesis *)
(* ================================================================== *)

(** The worker of [src/worker.ts]: it forwards the completion list as
    it is, and synthesises snippets with other patterns, other texts
    and another lookup of the enum member.  The resolution of the
    symbol is the same code as in the later revision. *)

Module Legacy.

Import Js Ts.

(** The character before position [length consumed], given the one
    before position 0. *)
Fixpoint lastCharOr (prev : option ascii) (consumed : string) : option ascii :=
  match consumed with
  | EmptyString => prev
  | String a consumed' => lastCharOr (Some a) consumed'
  end.

(** The leftmost match of [r] in [s], with what follows the match. *)
Fixpoint searchRest (ignoreCase : bool) (r : Regex.regex) (prev : option ascii)
         (s : string) : option (string * Regex.captures) :=
  match Regex.matcher ignoreCase r prev s [] Regex.accept with
  | Some m => Some m
  | None =>
      match s with
      | String ch s' => searchRest ignoreCase r (Some ch) s'
      | EmptyString => None
      end
  end.

Section LegacyWorker.

(** The services library; [TypeFlags.Enum] is read by this revision
    only, and so is the [memberTypes] property of an enum type, a table
    indexed by numbers. *)
Variable ts : TsConstants.
Variable TypeFlags_Enum : Z.
Variable memberTypes : Type_.t -> option (Z -> option Type_.t).

Variable languageService : LanguageService.

Let typeChecker : TypeChecker := getTypeChecker languageService.

Definition getCompletionsAtPosition (fileName : string) (position : Z)
  : option CompletionInfo :=
  Ts.getCompletionsAtPosition languageService fileName position.

(** The template [{{name}}]. *)
Definition placeholder (name : string) : string :=
  "{{" ++ name ++ "}}".

Definition renderDefaultVal (name : string) (type : option string) : string :=
  match type with
  | Some "number" => "0"
  | Some "boolean" => "false"
  | Some "string" =>
      if (name =? "leds")%string
      then String backtick (Worker.defaultImgLit ++ String backtick "")
      else Worker.quoted ""
  | _ => placeholder name
  end.

(** The case-insensitive pattern: any characters of one line, [eg:],
    and as group 1 the rest of the line. *)
Definition paramExamplesRegExp : Regex.regex :=
  Regex.Seq (Regex.Star (Regex.Class (fun c => negb (isLineTerminator c))))
    (Regex.Seq (Regex.Char "e")
       (Regex.Seq (Regex.Char "g")
          (Regex.Seq (Regex.Char ":")
             (Regex.Group 1
                (Regex.Star (Regex.Class (fun c => negb (isLineTerminator c)))))))).

(** The global, case-insensitive pattern whose group 1 is a candidate
    with the commas and spaces after it, and whose group 2 is the
    candidate: a non-empty run of characters other than comma and
    space. *)
Definition reg : Regex.regex :=
  Regex.Group 1
    (Regex.Seq
       (Regex.Group 2
          (Regex.Plus
             (Regex.Class (fun c => negb (Ascii.eqb c "," || Ascii.eqb c " ")))))
       (Regex.Star (Regex.Class (fun c => Ascii.eqb c "," || Ascii.eqb c " ")))).

(** The [while] loop: [reg.exec] from where the last match ended,
    pushing group 2, until there is no match.  Every match takes a
    character, which bounds the iterations by [fuel]. *)
Fixpoint examplesOf (fuel : nat) (prev : option ascii) (s : string)
  : list (option string) :=
  match fuel with
  | O => []
  | S fuel' =>
      match searchRest true reg prev s with
      | Some (rest, c) =>
          let consumed := take (String.length s - String.length rest) s in
          Regex.capture 2 c :: examplesOf fuel' (lastCharOr prev consumed) rest
      | None => []
      end
  end.

(** The block guarded by [if (paramExamples)]: [Some v] is [return v],
    [None] is falling out of it. *)
Definition paramExample (parameterDoc : string) : option (option string) :=
  let paramExamples := Regex.exec true paramExamplesRegExp parameterDoc in
  match paramExamples with
  | Some paramExamples =>
      let list := joinText (Regex.group paramExamples 1) in
      let examples := examplesOf (S (String.length list)) None list in
      match examples with
      | example :: _ => Some example
      | [] => None
      end
  | None => None
  end.

(** The value of [enumValue]: the name of the symbol of
    [memberTypes[1]], when there is such a member. *)
Definition enumValueOf (enumParameter : Type_.t) : outcome (option string) :=
  match memberTypes enumParameter with
  | Some table =>
      match table 1%Z with
      | Some member =>
          match Type_.symbol member with
          | Some symbol => Normal (Some (Symbol.name symbol))
          | None => Throw TypeError
          end
      | None => Normal None
      end
  | None => Normal None
  end.

Definition renderFunction (parameterType : Type_.t) : string :=
  let functionSignature := Type_.getCallSignatures parameterType in
  let '(functionArgument, returnValue) :=
    match functionSignature with
    | signature0 :: _ =>
        let displayParts := buildSignatureDisplay typeChecker signature0 in
        let returnType := getReturnTypeOfSignature typeChecker signature0 in
        let returnValue :=
          if truthy (bitand (Type_.flags returnType) (TypeFlags_NumberLike ts))
          then "return 0;"
          else if truthy (bitand (Type_.flags returnType) (TypeFlags_StringLike ts))
          then "return " ++ Worker.quoted "" ++ ";"
          else if truthy (bitand (Type_.flags returnType) (TypeFlags_BooleanLike ts))
          then "return false;"
          else "" in
        let displayPartsStr := displayPartsToString displayParts in
        (substr0 displayPartsStr (lastIndexOf displayPartsStr ":"), returnValue)
    | [] => ("", "")
    end in
  functionArgument ++ " => {" ++ String LF ("    {{" ++ returnValue ++ "}}")
  ++ String LF "}".

Definition renderParameter (signature : Signature.t) (parameter : Symbol.t)
  : outcome (option string) :=
  let parameterType :=
    getTypeOfSymbolAtLocation typeChecker parameter (Symbol.valueDeclaration parameter) in
  let documentationComment := Symbol.getDocumentationComment parameter in
  let parameterDoc := displayPartsToString documentationComment in
  match paramExample parameterDoc with
  | Some example => Normal example
  | None =>
      let fallback := Normal (Some (placeholder (Symbol.name parameter))) in
      let flags := Type_.flags parameterType in
      if truthy flags then
        if truthy (bitand flags TypeFlags_Enum) then
          enumValue <- enumValueOf parameterType ;;
          if truthyStr enumValue
          then
            match Type_.symbol parameterType with
            | Some symbol => Normal (Some (Symbol.name symbol ++ "." ++ joinText enumValue))
            | None => Throw TypeError
            end
          else fallback
        else if truthy (bitand flags (TypeFlags_Object ts)) then
          let objectFlags := Type_.objectFlags parameterType in
          if truthy (bitand objectFlags (ObjectFlags_Anonymous ts))
          then Normal (Some (renderFunction parameterType))
          else
            let typeString := typeToString typeChecker parameterType in
            let bracketIndex := indexOf typeString "[]" in
            if truthy (bitand flags (ObjectFlags_Tuple ts))
               || (negb (bracketIndex =? -1)%Z && (bracketIndex =? len typeString - 2)%Z)
            then Normal (Some "[]")
            else fallback
        else if truthy (bitand flags (TypeFlags_String ts))
                || truthy (bitand flags (TypeFlags_Number ts))
                || truthy (bitand flags (TypeFlags_Boolean ts))
                || truthy (bitand flags (TypeFlags_Void ts))
        then Normal (Some (renderDefaultVal (Symbol.name parameter)
                                            (Type_.intrinsicName parameterType)))
        else fallback
      else fallback
  end.

Definition codeSnippetOf (label : string) (symbol : Symbol.t) : outcome string :=
  match Symbol.valueDeclaration symbol with
  | Some valueDeclaration =>
      if truthy (Declaration.kind valueDeclaration) then
        let type := getTypeOfSymbolAtLocation typeChecker symbol (Some valueDeclaration) in
        let signatures := Type_.getCallSignatures type in
        match signatures with
        | signature :: _ =>
            let minArgumentCount := Signature.minArgumentCount signature in
            suggestionArgumentNames <-
              forEachPush (renderParameter signature)
                          (slice0 (Signature.parameters signature) minArgumentCount) ;;
            if (0 <? Z.of_nat (List.length suggestionArgumentNames))%Z
            then Normal (label ++ "(" ++ join ", " suggestionArgumentNames ++ ")")
            else Normal (label ++ "()")
        | [] => Normal label
        end
      else Normal label
  | None => Normal label
  end.

Definition getCompletionEntryDetailsAndSnippet
           (fileName : string) (position : Z) (entry label : string)
           (parent : option string)
  : outcome (option (CompletionEntryDetails * string)) :=
  symbol <- Worker.completionSymbol languageService fileName position entry parent ;;
  match symbol with
  | None => Normal None
  | Some symbol =>
      let info :=
        getSymbolDisplayPartsDocumentationAndSymbolKind languageService symbol fileName in
      let entryDetails :=
        {| name := entry;
           kindModifiers := getSymbolModifiers languageService symbol;
           kind := infoSymbolKind info;
           displayParts := infoDisplayParts info;
           documentation := infoDocumentation info |} in
      codeSnippet <- codeSnippetOf label symbol ;;
      Normal (Some (entryDetails, codeSnippet))
  end.

End LegacyWorker.

End Legacy.

(* ================================================================== *)
(** ** A sample program *)
(* ================================================================== *)

(** One services library and a few symbols in the style of a PXT
    program, used to run the worker on concrete inputs. *)

Module Sample.

Import Js Ts.

(** Flag values with the layout of the TypeScript 2.x enumerations:
    one bit per type flag, the [Like] flags unions of bits. *)
Definition ts2 : TsConstants := {|
  TypeFlags_EnumLiteral := 256;
  TypeFlags_Object := 32768;
  TypeFlags_String := 2;
  TypeFlags_Number := 4;
  TypeFlags_Boolean := 8;
  TypeFlags_Void := 1024;
  TypeFlags_NumberLike := 340;
  TypeFlags_StringLike := 262178;
  TypeFlags_BooleanLike := 136;
  ObjectFlags_Anonymous := 16;
  ObjectFlags_Tuple := 8;
  SyntaxKind_EnumDeclaration := 232;
  SyntaxKind_Identifier := 71;
  ScriptElementKind_interfaceElement := "interface";
  ScriptElementKind_typeElement := "type";
  ScriptElementKind_keyword := "keyword";
  ScriptElementKind_moduleElement := "module"
|}.

Definition StringLiteralKind : Z := 9.
Definition ParameterKind : Z := 146.
Definition FunctionDeclarationKind : Z := 228.
Definition UnionFlag : Z := 65536.

Definition doc (s : string) : list SymbolDisplayPart :=
  [ {| text := s; partKind := "text" |} ].

Definition node (kind : Z) : Declaration.t :=
  {| Declaration.kind := kind; Declaration.members := None |}.

Definition identifier (s : string) : EnumMember.t :=
  {| EnumMember.name :=
       {| PropertyName.kind := SyntaxKind_Identifier ts2; PropertyName.text := s |} |}.

Definition stringLiteral (s : string) : EnumMember.t :=
  {| EnumMember.name :=
       {| PropertyName.kind := StringLiteralKind; PropertyName.text := s |} |}.

Definition enumDeclaration (members : list EnumMember.t) : Declaration.t :=
  {| Declaration.kind := SyntaxKind_EnumDeclaration ts2;
     Declaration.members := Some members |}.

(** A parameter symbol with its documentation. *)
Definition parameter (name comment : string) : Symbol.t :=
  Symbol.Build name (Some [node ParameterKind]) (Some (node ParameterKind))
               (match comment with EmptyString => [] | _ => doc comment end) None.

(** A function symbol. *)
Definition function (name : string) : Symbol.t :=
  Symbol.Build name (Some [node FunctionDeclarationKind])
               (Some (node FunctionDeclarationKind)) [] None.

(** An enum symbol with one declaration. *)
Definition enum (name : string) (members : list EnumMember.t) : Symbol.t :=
  Symbol.Build name (Some [enumDeclaration members]) (Some (enumDeclaration members))
               [] None.

Definition intrinsic (flags : Z) (name : string) : Type_.t :=
  {| Type_.flags := flags; Type_.symbol := None; Type_.objectFlags := 0;
     Type_.getCallSignatures := []; Type_.intrinsicName := Some name |}.

Definition numberType : Type_.t := intrinsic (TypeFlags_Number ts2) "number".
Definition stringType : Type_.t := intrinsic (TypeFlags_String ts2) "string".
Definition booleanType : Type_.t :=
  intrinsic (Z.lor (TypeFlags_Boolean ts2) UnionFlag) "boolean".
Definition anyType : Type_.t := intrinsic 1 "any".

(** The type of an enum: a union of its literal types. *)
Definition enumType (symbol : Symbol.t) : Type_.t :=
  {| Type_.flags := Z.lor (TypeFlags_EnumLiteral ts2) UnionFlag;
     Type_.symbol := Some symbol; Type_.objectFlags := 0;
     Type_.getCallSignatures := []; Type_.intrinsicName := None |}.

(** An anonymous object type: a function type when it has call
    signatures, an object literal type otherwise. *)
Definition anonymousType (signatures : list Signature.t) : Type_.t :=
  {| Type_.flags := TypeFlags_Object ts2; Type_.symbol := None;
     Type_.objectFlags := ObjectFlags_Anonymous ts2;
     Type_.getCallSignatures := signatures; Type_.intrinsicName := None |}.

Definition signature (parameters : list Symbol.t) (required : Z) : Signature.t :=
  {| Signature.parameters := parameters; Signature.minArgumentCount := required |}.

(** A type checker that types a symbol by its name and gives every
    signature the same return type and printed form. *)
Definition checker (typeOf : string -> Type_.t) (returnType : Type_.t)
           (printed : string) : TypeChecker :=
  {| getTypeOfSymbolAtLocation := fun symbol _ => typeOf (Symbol.name symbol);
     typeToString := fun type => joinText (Type_.intrinsicName type);
     getReturnTypeOfSignature := fun _ => returnType;
     buildSignatureDisplay := fun _ => doc printed |}.

(** A language service over a table of symbols in scope and a list of
    completion entries. *)
Definition service (typeChecker : TypeChecker) (scope : list (string * Symbol.t))
           (completions : list CompletionEntry) : LanguageService :=
  {| getTypeChecker := typeChecker;
     getCompletionsAtPosition := fun _ _ =>
       Some {| isGlobalCompletion := true; isMemberCompletion := false;
               isNewIdentifierLocation := false; entries := completions |};
     getCompletionEntrySymbol := fun _ _ entry => Symbol.lookup scope entry;
     getSymbolDisplayPartsDocumentationAndSymbolKind := fun symbol _ =>
       {| infoDisplayParts := doc (Symbol.name symbol);
          infoDocumentation := Symbol.getDocumentationComment symbol;
          infoSymbolKind := "function" |};
     getSymbolModifiers := fun _ => "" |}.

Definition entry (name kind : string) : CompletionEntry :=
  {| entryName := name; entryKind := kind; entryKindModifiers := "";
     entrySortText := "0" |}.

(** [enum Direction { Forward, Back }] and
    [function move(speed: number, dir: Direction, times?: number)]. *)
Definition Direction : Symbol.t := enum "Direction" [identifier "Forward"; identifier "Back"].

Definition moveSignature : Signature.t :=
  signature [parameter "speed" ""; parameter "dir" ""; parameter "times" ""] 2.

(** Enums that stress the lookup of the first member: a first member
    named by a string literal, no member at all, a symbol without
    declarations. *)
Definition Weird : Symbol.t := enum "Weird" [stringLiteral "a-b"; identifier "C"].
Definition Hollow : Symbol.t := enum "Hollow" [].
Definition Broken : Symbol.t := Symbol.Build "Broken" None None [] None.

(** [function stop()] *)
Definition stopSignature : Signature.t := signature [] 0.

(** [function say(text: string)], whose parameter is documented with
    an example that is a pair of double quotes with nothing inside. *)
Definition emptyQuotes : string := "eg: " ++ String dquote (String dquote "").

Definition saySignature : Signature.t := signature [parameter "text" emptyQuotes] 1.

(** The types of the sample symbols, by name; [handler] has the type
    [() => number], [opts] an object literal type. *)
Definition sampleTypes (name : string) : Type_.t :=
  match name with
  | "speed" => numberType
  | "times" => numberType
  | "dir" => enumType Direction
  | "leds" => stringType
  | "text" => stringType
  | "on" => booleanType
  | "handler" => anonymousType [signature [] 0]
  | "opts" => anonymousType []
  | "weird" => enumType Weird
  | "hollow" => enumType Hollow
  | "broken" => enumType Broken
  | "move" => anonymousType [moveSignature]
  | "stop" => anonymousType [stopSignature]
  | "say" => anonymousType [saySignature]
  | _ => anyType
  end.

Definition sampleChecker : TypeChecker :=
  checker sampleTypes numberType "(): number".

Definition sampleService : LanguageService :=
  service sampleChecker
          [("move", function "move"); ("stop", function "stop");
           ("say", function "say"); ("Direction", Direction)]
          [entry "move" "function"; entry "_helper" "function";
           entry "Number" "interface"; entry "Number" "var";
           entry "typeof" "keyword"; entry "Direction" "enum";
           entry "helpers" "module"; entry "int8" "type"].

End Sample.

(** *** More samples: collections, members, a faulty parameter, files *)

Module MoreSamples.

Import Js Ts Sample Host.

(** A named object type, as an array or a tuple type is. *)
Definition namedObject (objectFlags : Z) : Type_.t :=
  {| Type_.flags := TypeFlags_Object ts2; Type_.symbol := None;
     Type_.objectFlags := objectFlags;
     Type_.getCallSignatures := []; Type_.intrinsicName := None |}.

Definition ReferenceFlag : Z := 4.

(** A type checker that prints every type as [printed]. *)
Definition printingChecker (typeOf : string -> Type_.t) (printed : string)
  : TypeChecker :=
  {| getTypeOfSymbolAtLocation := fun symbol _ => typeOf (Symbol.name symbol);
     typeToString := fun _ => printed;
     getReturnTypeOfSignature := fun _ => numberType;
     buildSignatureDisplay := fun _ => doc "(): number" |}.

Definition collectionTypes (name : string) : Type_.t :=
  match name with
  | "list" => namedObject ReferenceFlag
  | "pair" => namedObject (Z.lor ReferenceFlag (ObjectFlags_Tuple ts2))
  | "nothing" => intrinsic (TypeFlags_Void ts2) "void"
  | _ => anyType
  end.

Definition printingService (printed : string) : LanguageService :=
  service (printingChecker collectionTypes printed) [] [].

(** [namespace led { function plot() }]: [plot] is reached through
    its parent only. *)
Definition led : Symbol.t :=
  Symbol.Build "led" (Some [node 233]) (Some (node 233)) []
               (Some [("plot", function "stop")]).

Definition memberService : LanguageService :=
  service sampleChecker [("led", led); ("move", function "move")] [].

(** A type whose flags carry the bit of the tuple constant. *)
Definition oddObject : Type_.t :=
  {| Type_.flags := Z.lor (TypeFlags_Object ts2) (ObjectFlags_Tuple ts2);
     Type_.symbol := None; Type_.objectFlags := ReferenceFlag;
     Type_.getCallSignatures := []; Type_.intrinsicName := None |}.

Definition noFlags : Type_.t :=
  {| Type_.flags := 0; Type_.symbol := None; Type_.objectFlags := 0;
     Type_.getCallSignatures := []; Type_.intrinsicName := None |}.

Definition oddTypes (name : string) : Type_.t :=
  match name with
  | "odd" => oddObject
  | "blank" => noFlags
  | _ => anyType
  end.

Definition oddService (printed : string) : LanguageService :=
  service (printingChecker oddTypes printed) [] [].

(** [function flash(broken: Broken)], whose parameter has an enum type
    without declarations. *)
Definition flashSignature : Signature.t := signature [parameter "broken" ""] 1.

Definition faultyTypes (name : string) : Type_.t :=
  match name with
  | "flash" => anonymousType [flashSignature]
  | "broken" => enumType Broken
  | _ => anyType
  end.

Definition faultyService : LanguageService :=
  service (checker faultyTypes numberType "(): number") [("flash", function "flash")] [].

(** [function echo(text: string, speed: number)], whose first
    parameter is documented with the empty quotes of [say]. *)
Definition echoSignature : Signature.t :=
  signature [parameter "text" emptyQuotes; parameter "speed" ""] 2.

Definition echoTypes (name : string) : Type_.t :=
  match name with
  | "echo" => anonymousType [echoSignature]
  | _ => sampleTypes name
  end.

Definition echoService : LanguageService :=
  service (checker echoTypes numberType "(): number") [("echo", function "echo")] [].

(** Two models with one URI, an extra library, and an extra library
    that has the URI of a model; the target is ES5. *)
Definition ES5 : Z := 1.

Definition mainModel : IMirrorModel :=
  {| uri := "file:///main.ts"; version := 3; getValue := "let x = 1" |}.

Definition staleModel : IMirrorModel :=
  {| uri := "file:///main.ts"; version := 2; getValue := "let x" |}.

Definition sampleModels : list IMirrorModel := [mainModel; staleModel].

(** The names a plain object inherits from [Object.prototype]. *)
Definition objectPrototype : list string :=
  ["constructor"; "hasOwnProperty"; "isPrototypeOf"; "propertyIsEnumerable";
   "toLocaleString"; "toString"; "valueOf"; "__proto__"; "__defineGetter__";
   "__defineSetter__"; "__lookupGetter__"; "__lookupSetter__"].

Definition sampleData : ICreateData :=
  {| compilerOptions := {| target := Some ES5; allowJs := None |};
     extraLibs := [("pxt-core.d.ts", "declare namespace basic { }");
                   ("file:///main.ts", "shadowed")] |}.

End MoreSamples.

(** *** Samples for the earlier revision *)

Module LegacySamples.
Import Js Ts Sample.

(** The value of [TypeFlags.Enum] in the TypeScript 2.x layout. *)
Definition EnumFlag : Z := 16.

(** The type of an enum as the earlier revision expects it. *)
Definition legacyEnumType (symbol : Symbol.t) : Type_.t :=
  {| Type_.flags := EnumFlag; Type_.symbol := Some symbol; Type_.objectFlags := 0;
     Type_.getCallSignatures := []; Type_.intrinsicName := None |}.

(** The type of one member of an enum. *)
Definition memberType (name : string) : Type_.t :=
  {| Type_.flags := TypeFlags_EnumLiteral ts2;
     Type_.symbol := Some (Symbol.Build name None None [] None);
     Type_.objectFlags := 0;
     Type_.getCallSignatures := []; Type_.intrinsicName := None |}.

(** A member type that has lost its symbol. *)
Definition strayMember : Type_.t :=
  {| Type_.flags := TypeFlags_EnumLiteral ts2; Type_.symbol := None;
     Type_.objectFlags := 0;
     Type_.getCallSignatures := []; Type_.intrinsicName := None |}.

(** [memberTypes], indexed by the values of the members:
    [Direction { Forward, Back }] has the values 0 and 1, [Single { Only }]
    the value 0 alone, and the member 1 of [Stray] has no symbol. *)
Definition sampleMemberTypes (T : Type_.t) : option (Z -> option Type_.t) :=
  match Type_.symbol T with
  | Some symbol =>
      match Symbol.name symbol with
      | "Direction" =>
          Some (fun i => if (i =? 0)%Z then Some (memberType "Forward")
                         else if (i =? 1)%Z then Some (memberType "Back")
                         else None)
      | "Single" =>
          Some (fun i => if (i =? 0)%Z then Some (memberType "Only") else None)
      | "Stray" =>
          Some (fun i => if (i =? 1)%Z then Some strayMember else None)
      | _ => None
      end
  | None => None
  end.

Definition Single : Symbol.t := enum "Single" [identifier "Only"].
Definition Stray : Symbol.t := enum "Stray" [identifier "Lost"; identifier "Found"].

(** [function turn(speed: number, times: number)], the second
    parameter documented with examples. *)
Definition turnSignature : Signature.t :=
  signature [parameter "speed" ""; parameter "times" "how often, eg: 5, 6"] 2.

Definition legacyTypes (name : string) : Type_.t :=
  match name with
  | "dir" => legacyEnumType Direction
  | "single" => legacyEnumType Single
  | "stray" => legacyEnumType Stray
  | "hollow" => legacyEnumType Hollow
  | "speed" => numberType
  | "times" => numberType
  | "handler" => anonymousType [signature [] 0]
  | "opts" => anonymousType []
  | "turn" => anonymousType [turnSignature]
  | "move" => anonymousType [moveSignature]
  | _ => anyType
  end.

Definition legacyService : LanguageService :=
  service (checker legacyTypes numberType "(): number")
          [("turn", function "turn"); ("move", function "move")] [].

End LegacySamples.

(* ================================================================== *)
(** ** The vocabulary of the statements *)
(* ================================================================== *)

Module Spec.

Import Js Ts.

(** [Dropped P l l']: [l'] is [l] without the elements that satisfy
    [P], the others kept as they are and in their order. *)
Inductive Dropped {A : Type} (P : A -> Prop) : list A -> list A -> Prop :=
| Dropped_nil : Dropped P [] []
| Dropped_drop (x : A) (l l' : list A) :
    P x -> Dropped P l l' -> Dropped P (x :: l) l'
| Dropped_keep (x : A) (l l' : list A) :
    ~ P x -> Dropped P l l' -> Dropped P (x :: l) (x :: l').

(** The entry's name begins with an underscore. *)
Definition Underscored (e : CompletionEntry) : Prop :=
  exists rest, entryName e = String "_" rest.

(** The entry's (name, kind) pair is in the ignored table. *)
Definition Ignored (ts : TsConstants) (e : CompletionEntry) : Prop :=
  In (entryName e, entryKind e) (Worker.ignoredCompletions ts).

Section Classification.

Variable ts : TsConstants.
Variable typeChecker : TypeChecker.

(** The type the checker gives a parameter, and the text of its
    documentation. *)
Definition typeOf (parameter : Symbol.t) : Type_.t :=
  getTypeOfSymbolAtLocation typeChecker parameter (Symbol.valueDeclaration parameter).

Definition docOf (parameter : Symbol.t) : string :=
  displayPartsToString (Symbol.getDocumentationComment parameter).

(** A flag is set in the flags of a type. *)
Definition has (flags flag : Z) : Prop := bitand flags flag <> 0%Z.

(** The type carries the enum-literal flag. *)
Definition EnumLiteralType (T : Type_.t) : Prop :=
  has (Type_.flags T) (TypeFlags_EnumLiteral ts).

(** An object type that is anonymous. *)
Definition AnonymousType (T : Type_.t) : Prop :=
  ~ has (Type_.flags T) (TypeFlags_EnumLiteral ts)
  /\ has (Type_.flags T) (TypeFlags_Object ts)
  /\ has (Type_.objectFlags T) (ObjectFlags_Anonymous ts).

(** The primitive type named [name]: one of the string, number,
    boolean and void flags, neither enum literal nor object. *)
Definition PrimitiveType (T : Type_.t) (name : string) : Prop :=
  ~ has (Type_.flags T) (TypeFlags_EnumLiteral ts)
  /\ ~ has (Type_.flags T) (TypeFlags_Object ts)
  /\ (has (Type_.flags T) (TypeFlags_String ts)
      \/ has (Type_.flags T) (TypeFlags_Number ts)
      \/ has (Type_.flags T) (TypeFlags_Boolean ts)
      \/ has (Type_.flags T) (TypeFlags_Void ts))
  /\ Type_.intrinsicName T = Some name.

(** [d] is the first enum declaration among [declarations]. *)
Definition FirstEnumDeclaration (declarations : list Declaration.t) (d : Declaration.t)
  : Prop :=
  exists before after,
    declarations = (before ++ d :: after)%list
    /\ Declaration.kind d = SyntaxKind_EnumDeclaration ts
    /\ Forall (fun d' => Declaration.kind d' <> SyntaxKind_EnumDeclaration ts) before.

(** No declaration among [declarations] is an enum declaration. *)
Definition NoEnumDeclaration (declarations : list Declaration.t) : Prop :=
  Forall (fun d' => Declaration.kind d' <> SyntaxKind_EnumDeclaration ts) declarations.

End Classification.

(** An image literal: a template string whose lines are the rows of
    the grid, each on a line of its own after a tab. *)
Definition imageLiteral (rows : list string) : string :=
  String backtick
    (String.concat "" (map (fun row => String LF (String TAB row)) rows)
     ++ String LF (String TAB (String backtick ""))).

(** The character [c] occurs in [s]. *)
Fixpoint occurs (c : ascii) (s : string) : Prop :=
  match s with
  | EmptyString => False
  | String a s' => a = c \/ occurs c s'
  end.

(** A blank image: no cell of the grid is lit. *)
Definition Blank (image : string) : Prop := ~ occurs "#" image.

(** *** Texts *)

(** Every character of [s] satisfies [p]. *)
Fixpoint every (p : ascii -> bool) (s : string) : bool :=
  match s with
  | EmptyString => true
  | String a s' => p a && every p s'
  end.

(** The first character of [s] exists and satisfies [p]. *)
Definition startsWith (p : ascii -> bool) (s : string) : bool :=
  match s with
  | EmptyString => false
  | String a _ => p a
  end.

(** The longest prefix of [s] whose characters satisfy [p], and what
    follows it. *)
Fixpoint takeWhile (p : ascii -> bool) (s : string) : string :=
  match s with
  | EmptyString => EmptyString
  | String a s' => if p a then String a (takeWhile p s') else EmptyString
  end.

Fixpoint dropWhile (p : ascii -> bool) (s : string) : string :=
  match s with
  | EmptyString => EmptyString
  | String a s' => if p a then dropWhile p s' else s
  end.

(** The last character of [s], or [prev] when [s] is empty. *)
Fixpoint lastOr (prev : option ascii) (s : string) : option ascii :=
  match s with
  | EmptyString => prev
  | String a s' => lastOr (Some a) s'
  end.

(** The annotation marker: [eg] in either letter case, an optional
    period, a colon. *)
Definition Marker (marker : string) : Prop :=
  exists (e g : ascii) (period : string),
    (e = "e"%char \/ e = "E"%char)
    /\ (g = "g"%char \/ g = "G"%char)
    /\ (period = "" \/ period = ".")
    /\ marker = String e (String g (period ++ ":")).

(** A character that separates candidates: white space or a comma. *)
Definition isSeparator (c : ascii) : bool :=
  isWhiteSpace c || Ascii.eqb c ",".

(** A character that opens a quoted candidate. *)
Definition isQuote (c : ascii) : bool :=
  Ascii.eqb c dquote || Ascii.eqb c squote.

Definition notLineTerminator (c : ascii) : bool := negb (isLineTerminator c).

Definition notSeparator (c : ascii) : bool := negb (isSeparator c).

Definition notColon (c : ascii) : bool := negb (Ascii.eqb c ":").

(** The part of the marker pattern after the colon: white space, then
    the rest of the line as group 1. *)
Definition afterColon : Regex.regex :=
  Regex.Seq (Regex.Star (Regex.Class isWhiteSpace))
    (Regex.Group 1 (Regex.Plus (Regex.Class (fun c => negb (isLineTerminator c))))).

(** The shape a text must have at its front for the marker pattern to
    match there. *)
Definition markerAt (s : string) : bool :=
  match s with
  | String a (String b (String x t)) =>
      Regex.charMatches true "e" a && Regex.charMatches true "g" b
      && (Ascii.eqb x ":" || (Ascii.eqb x "." && startsWith (Ascii.eqb ":") t))
  | _ => false
  end.

End Spec.

(** *** More vocabulary: object types, texts, the host's files *)

Module MoreSpec.

Import Js Ts Spec Host.

Section MoreClassification.
Variable ts : TsConstants.
(** An object type that is not anonymous. *)
Definition NamedObjectType (T : Type_.t) : Prop :=
  ~ has (Type_.flags T) (TypeFlags_EnumLiteral ts)
  /\ has (Type_.flags T) (TypeFlags_Object ts)
  /\ ~ has (Type_.objectFlags T) (ObjectFlags_Anonymous ts).

(** Neither enum literal, nor object, nor one of the four primitives. *)
Definition UnclassifiedType (T : Type_.t) : Prop :=
  ~ has (Type_.flags T) (TypeFlags_EnumLiteral ts)
  /\ ~ has (Type_.flags T) (TypeFlags_Object ts)
  /\ ~ has (Type_.flags T) (TypeFlags_String ts)
  /\ ~ has (Type_.flags T) (TypeFlags_Number ts)
  /\ ~ has (Type_.flags T) (TypeFlags_Boolean ts)
  /\ ~ has (Type_.flags T) (TypeFlags_Void ts).
End MoreClassification.

(** [pat] occurs somewhere in [s]. *)
Fixpoint contains (pat s : string) : bool :=
  isPrefix pat s
  || match s with
     | EmptyString => false
     | String _ s' => contains pat s'
     end.

(** No model carries the URI [fileName]. *)
Definition NoModel (models : list IMirrorModel) (fileName : string) : Prop :=
  Forall (fun model => uri model <> fileName) models.

(** [model] is the first model that carries the URI [fileName]. *)
Definition FirstModel (models : list IMirrorModel) (fileName : string)
           (model : IMirrorModel) : Prop :=
  exists before after,
    models = (before ++ model :: after)%list
    /\ uri model = fileName
    /\ NoModel before fileName.

(** The text a snapshot serves in full. *)
Definition fullText (snapshot : IScriptSnapshot) : string :=
  getText snapshot 0 (getLength snapshot).
End MoreSpec.

(** *** The vocabulary of the earlier revision *)

Module LegacySpec.
Import Js Ts Spec.

(** The marker of the earlier revision: [eg] in either letter case
    and a colon. *)
Definition LegacyMarker (marker : string) : Prop :=
  exists e g : ascii,
    (e = "e"%char \/ e = "E"%char)
    /\ (g = "g"%char \/ g = "G"%char)
    /\ marker = String e (String g ":").

(** The separators of the earlier revision: the comma and the space. *)
Definition isCommaOrSpace (c : ascii) : bool :=
  Ascii.eqb c "," || Ascii.eqb c " ".

Definition notCommaOrSpace (c : ascii) : bool := negb (isCommaOrSpace c).

(** A character of a line that is not a colon. *)
Definition plainInLine (c : ascii) : bool := notLineTerminator c && notColon c.

(** The shape a text must have at its front for [eg:] to match there. *)
Definition legacyMarkerAt (s : string) : bool :=
  match s with
  | String a (String b (String x _)) =>
      Regex.charMatches true "e" a && Regex.charMatches true "g" b && Ascii.eqb x ":"
  | _ => false
  end.

(** The pattern after the leading run of the line. *)
Definition afterRun : Regex.regex :=
  Regex.Seq (Regex.Char "e")
    (Regex.Seq (Regex.Char "g")
       (Regex.Seq (Regex.Char ":")
          (Regex.Group 1
             (Regex.Star (Regex.Class (fun c => negb (isLineTerminator c))))))).

Section LegacyClassification.
Variable ts : TsConstants.
Variable TypeFlags_Enum : Z.

(** The type carries the enum flag. *)
Definition LegacyEnumType (T : Type_.t) : Prop :=
  has (Type_.flags T) TypeFlags_Enum.

(** An anonymous object type, as the earlier revision tells it. *)
Definition LegacyAnonymousType (T : Type_.t) : Prop :=
  ~ has (Type_.flags T) TypeFlags_Enum
  /\ has (Type_.flags T) (TypeFlags_Object ts)
  /\ has (Type_.objectFlags T) (ObjectFlags_Anonymous ts).
End LegacyClassification.
End LegacySpec.

(* ================================================================== *)
(** ** Properties *)
(* ================================================================== *)

(** *** Facts about the runtime *)

Module JsFacts.

Import Js.

Lemma isPrefix_char (a : ascii) (s : string) :
  isPrefix (String a "") s = true <-> exists rest, s = String a rest.
Proof.
  destruct s as [|b s]; simpl.
  - split; [discriminate | intros [rest H]; discriminate].
  - rewrite andb_true_r. split.
    + intros H. apply Ascii.eqb_eq in H. subst. now exists s.
    + intros [rest H]. injection H as -> _. apply Ascii.eqb_refl.
Qed.

Lemma indexOfFrom_range (pat s : string) (i : Z) :
  (0 <= i)%Z -> (indexOfFrom pat s i = -1 \/ i <= indexOfFrom pat s i)%Z.
Proof.
  revert i. induction s as [|a s IH]; intros i Hi; simpl.
  - destruct (isPrefix pat ""); lia.
  - destruct (isPrefix pat (String a s)); [lia|].
    destruct (IH (i + 1)%Z) as [H|H]; lia.
Qed.

Lemma indexOf_zero (s pat : string) :
  indexOf s pat = 0%Z <-> isPrefix pat s = true.
Proof.
  unfold indexOf. destruct s as [|a s]; simpl.
  - destruct (isPrefix pat ""); split; intros; try reflexivity; discriminate.
  - destruct (isPrefix pat (String a s)) eqn:E.
    + split; reflexivity.
    + split; [|discriminate].
      intros H. destruct (indexOfFrom_range pat s 1) as [H1|H1]; lia.
Qed.

(** The library functions on sample arguments. *)

Example trim_sample :
  trim (String TAB "  a b " ++ String LF " ") = "a b".
Proof. reflexivity. Qed.

Example indexOf_sample :
  indexOf "number[]" "[]" = 6%Z /\ indexOf "number[][]" "[]" = 6%Z
  /\ indexOf "[number, string]" "[]" = (-1)%Z.
Proof. repeat split. Qed.

Example lastIndexOf_sample :
  lastIndexOf "(x: number): string" ":" = 11%Z /\ lastIndexOf "()" ":" = (-1)%Z.
Proof. repeat split. Qed.

Example substr0_sample :
  substr0 "(x: number): string" 11 = "(x: number)" /\ substr0 "()" (-1) = ""
  /\ substr0 "()" 5 = "()".
Proof. repeat split. Qed.

Example slice0_sample :
  slice0 [1; 2; 3]%Z 2 = [1; 2]%Z /\ slice0 [1; 2; 3]%Z 5 = [1; 2; 3]%Z
  /\ slice0 [1; 2; 3]%Z (-1) = [1; 2]%Z /\ slice0 [1; 2; 3]%Z 0 = [].
Proof. repeat split. Qed.

Example join_sample :
  join ", " [Some "0"; None; Some "x"] = "0, , x" /\ join ", " [] = ""
  /\ join ", " [None] = "".
Proof. repeat split. Qed.

Example bitand_sample :
  bitand 65792 256 = 256%Z /\ bitand 4 256 = 0%Z /\ bitand (2 ^ 32 + 5) 4 = 4%Z.
Proof. repeat split. Qed.

End JsFacts.

(** *** The completion list *)

Module CompletionFacts.

Import Js Ts Worker Spec.

Section Completions.

Variable ts : TsConstants.
Variable languageService : LanguageService.

Lemma lookupIgnored_sound (table : list (string * string)) (name kind : string) :
  lookupIgnored table name = Some kind -> In (name, kind) table.
Proof.
  induction table as [|[k v] table IH]; simpl; [discriminate|].
  destruct (k =? name)%string eqn:E.
  - intros H. injection H as ->. apply String.eqb_eq in E. subst. now left.
  - intros H. right. now apply IH.
Qed.

Lemma lookupIgnored_complete (table : list (string * string)) (name kind : string) :
  NoDup (map fst table) -> In (name, kind) table ->
  lookupIgnored table name = Some kind.
Proof.
  induction table as [|[k v] table IH]; simpl; [contradiction|].
  intros Hnd [H|H].
  - injection H as -> ->. now rewrite String.eqb_refl.
  - inversion Hnd as [|? ? Hk Hnd']; subst.
    destruct (k =? name)%string eqn:E.
    + apply String.eqb_eq in E. subst. exfalso. apply Hk.
      change name with (fst (name, kind)). now apply in_map.
    + now apply IH.
Qed.

(** The keys of the object literal are distinct. *)
Lemma ignoredCompletions_keys : NoDup (map fst (ignoredCompletions ts)).
Proof.
  unfold ignoredCompletions. cbn [map fst].
  repeat (constructor; [cbn [In]; intuition discriminate|]).
  constructor.
Qed.

Lemma notIgnored_false (e : CompletionEntry) :
  notIgnored ts e = false <-> Ignored ts e.
Proof.
  unfold notIgnored, Ignored. split.
  - destruct (lookupIgnored _ _) as [k|] eqn:E; [|discriminate].
    intros H. apply negb_false_iff, String.eqb_eq in H. subst.
    now apply lookupIgnored_sound.
  - intros H.
    rewrite (lookupIgnored_complete _ _ _ ignoredCompletions_keys H).
    now rewrite String.eqb_refl.
Qed.

Lemma notUnderscored_false (e : CompletionEntry) :
  notUnderscored e = false <-> Underscored e.
Proof.
  unfold notUnderscored, Underscored.
  rewrite negb_false_iff, Z.eqb_eq, JsFacts.indexOf_zero.
  apply JsFacts.isPrefix_char.
Qed.

Lemma kept_iff (e : CompletionEntry) :
  notIgnored ts e && notUnderscored e = true <-> ~ (Underscored e \/ Ignored ts e).
Proof.
  rewrite <- notIgnored_false, <- notUnderscored_false.
  destruct (notIgnored ts e), (notUnderscored e); simpl; intuition discriminate.
Qed.

Lemma filter_Dropped (l : list CompletionEntry) :
  Dropped (fun e => Underscored e \/ Ignored ts e) l
          (filter (fun e => notIgnored ts e && notUnderscored e) l).
Proof.
  induction l as [|e l IH]; simpl; [constructor|].
  destruct (notIgnored ts e && notUnderscored e) eqn:E.
  - apply Dropped_keep; [now apply kept_iff | exact IH].
  - apply Dropped_drop; [|exact IH].
    destruct (notIgnored ts e) eqn:E1.
    + left. apply notUnderscored_false. simpl in E. exact E.
    + right. now apply notIgnored_false.
Qed.

Lemma Dropped_In {A : Type} (P : A -> Prop) (l l' : list A) (x : A) :
  Dropped P l l' -> In x l' -> ~ P x.
Proof.
  induction 1 as [|y l l' Hy _ IH|y l l' Hy _ IH]; simpl; intros Hin.
  - contradiction.
  - now apply IH.
  - destruct Hin as [->|Hin]; [exact Hy | now apply IH].
Qed.

(** C10.  When the language service returns a completion list, the
    worker returns the same list with exactly the entries dropped whose
    name begins with an underscore or whose (name, kind) pair is in the
    ignored table: no returned entry is of either sort, and the other
    entries are passed on unchanged, in their original order. *)
Theorem getCompletionsAtPosition_drops_ignored :
  forall (fileName : string) (position : Z) (completions : CompletionInfo),
    Ts.getCompletionsAtPosition languageService fileName position = Some completions ->
    exists result : CompletionInfo,
      Worker.getCompletionsAtPosition ts languageService fileName position = Some result
      /\ Dropped (fun e => Underscored e \/ Ignored ts e)
                 (entries completions) (entries result)
      /\ (forall e, In e (entries result) -> ~ Underscored e /\ ~ Ignored ts e)
      /\ isGlobalCompletion result = isGlobalCompletion completions
      /\ isMemberCompletion result = isMemberCompletion completions
      /\ isNewIdentifierLocation result = isNewIdentifierLocation completions.
Proof.
  intros fileName position completions H.
  unfold Worker.getCompletionsAtPosition. rewrite H.
  eexists. split; [reflexivity|]. cbn [entries isGlobalCompletion isMemberCompletion
                                        isNewIdentifierLocation].
  split; [apply filter_Dropped|]. split; [|repeat split].
  intros e He.
  pose proof (Dropped_In _ _ _ e (filter_Dropped (entries completions)) He) as Hn.
  tauto.
Qed.

End Completions.

Lemma getCompletionsAtPosition_drops_ignored_witness :
  exists result : CompletionInfo,
    Worker.getCompletionsAtPosition Sample.ts2 Sample.sampleService "main.ts" 0 = Some result
    /\ Dropped (fun e => Underscored e \/ Ignored Sample.ts2 e)
               [Sample.entry "move" "function"; Sample.entry "_helper" "function";
                Sample.entry "Number" "interface"; Sample.entry "Number" "var";
                Sample.entry "typeof" "keyword"; Sample.entry "Direction" "enum";
                Sample.entry "helpers" "module"; Sample.entry "int8" "type"]
               (entries result)
    /\ (forall e, In e (entries result) -> ~ Underscored e /\ ~ Ignored Sample.ts2 e)
    /\ isGlobalCompletion result = true
    /\ isMemberCompletion result = false
    /\ isNewIdentifierLocation result = false.
Proof.
  apply (getCompletionsAtPosition_drops_ignored Sample.ts2 Sample.sampleService "main.ts" 0
           {| isGlobalCompletion := true; isMemberCompletion := false;
              isNewIdentifierLocation := false;
              entries := [Sample.entry "move" "function"; Sample.entry "_helper" "function";
                          Sample.entry "Number" "interface"; Sample.entry "Number" "var";
                          Sample.entry "typeof" "keyword"; Sample.entry "Direction" "enum";
                          Sample.entry "helpers" "module"; Sample.entry "int8" "type"] |}).
  reflexivity.
Defined.

(** The sample list, filtered. *)
Example getCompletionsAtPosition_sample :
  option_map entries (Worker.getCompletionsAtPosition Sample.ts2 Sample.sampleService "main.ts" 0)
  = Some [Sample.entry "move" "function"; Sample.entry "Number" "var";
          Sample.entry "Direction" "enum"].
Proof. reflexivity. Qed.

End CompletionFacts.

(** *** Facts about the matcher *)

Module RegexFacts.

Import Js Regex Spec.

Lemma length_append (a b : string) :
  String.length (a ++ b) = (String.length a + String.length b)%nat.
Proof. induction a as [|x a IH]; simpl; [reflexivity | now rewrite IH]. Qed.

Lemma take_append (a b : string) :
  take (String.length (a ++ b) - String.length b) (a ++ b) = a.
Proof.
  rewrite length_append.
  replace (String.length a + String.length b - String.length b)%nat
    with (String.length a) by lia.
  induction a as [|x a IH]; simpl.
  - destruct b; reflexivity.
  - now rewrite IH.
Qed.

Lemma take_drop_while (p : ascii -> bool) (s : string) :
  s = takeWhile p s ++ dropWhile p s.
Proof.
  induction s as [|a s IH]; simpl; [reflexivity|].
  destruct (p a); simpl; [now rewrite <- IH | reflexivity].
Qed.

Lemma take_while (p : ascii -> bool) (s : string) :
  take (String.length s - String.length (dropWhile p s)) s = takeWhile p s.
Proof.
  rewrite (take_drop_while p s) at 1 3. apply take_append.
Qed.

Lemma takeWhile_run (p : ascii -> bool) (run rest : string) :
  every p run = true -> startsWith p rest = false ->
  takeWhile p (run ++ rest) = run /\ dropWhile p (run ++ rest) = rest.
Proof.
  intros Hrun Hrest. induction run as [|a run IH]; simpl in *.
  - destruct rest as [|b rest]; simpl in *; [tauto|]. rewrite Hrest. tauto.
  - apply andb_prop in Hrun as [Ha Hrun]. rewrite Ha.
    destruct (IH Hrun) as [-> ->]. tauto.
Qed.

(** The matcher on sample patterns: a greedy quantifier gives back
    what the rest of the pattern needs; the first alternative that lets
    the whole pattern match wins; the leftmost match is returned; [\b]
    and letter case. *)

Example star_gives_back :
  exec false (Seq (Star (Class (Ascii.eqb "a"))) (Char "a")) "baaac"
  = Some ("aaa", []).
Proof. reflexivity. Qed.

Example alternatives_in_order :
  exec false (Seq (Alt (Char "a") (Seq (Char "a") (Char "b"))) (Group 1 (Char "c"))) "abc"
  = Some ("abc", [(1%nat, "c")])
  /\ exec false (Alt (Char "a") (Seq (Char "a") (Char "b"))) "ab" = Some ("a", []).
Proof. split; reflexivity. Qed.

Example word_boundary :
  exec true (Seq WordBoundary (Char "g")) "eg Go" = Some ("G", [])
  /\ exec false (Seq WordBoundary (Char "g")) "eg Go" = None.
Proof. split; reflexivity. Qed.

Section Engine.

Variable ignoreCase : bool.

(** The loop of a quantified class takes the longest run of the class
    when the continuation accepts what follows it. *)
Lemma iterate_class (p : ascii -> bool) (k : continuation) (m : string * captures) :
  forall (s : string) (fuel : nat) (prev : option ascii) (c : captures),
    (String.length (takeWhile p s) <= fuel)%nat ->
    k (lastOr prev (takeWhile p s)) (dropWhile p s) c = Some m ->
    iterate (matcher ignoreCase (Class p)) k fuel prev s c = Some m.
Proof.
  induction s as [|a s IH]; intros fuel prev c Hfuel Hk; simpl in *.
  - destruct fuel; simpl; [exact Hk | now rewrite Hk].
  - destruct (p a) eqn:Ea; simpl in *.
    + destruct fuel as [|fuel]; [lia|]. simpl. rewrite Ea.
      assert (Hlt : (String.length s <? S (String.length s))%nat = true)
        by (apply Nat.ltb_lt; lia).
      rewrite Hlt. rewrite (IH fuel (Some a) c); [reflexivity | lia | exact Hk].
    + destruct fuel; simpl; [exact Hk | now rewrite Ea, Hk].
Qed.

(** The defining equations of the matcher. *)
Lemma matcher_Seq (a b : regex) prev s c k :
  matcher ignoreCase (Seq a b) prev s c k
  = matcher ignoreCase a prev s c (fun prev' s' c' => matcher ignoreCase b prev' s' c' k).
Proof. reflexivity. Qed.

Lemma matcher_Alt (a b : regex) prev s c k :
  matcher ignoreCase (Alt a b) prev s c k
  = match matcher ignoreCase a prev s c k with
    | Some m => Some m
    | None => matcher ignoreCase b prev s c k
    end.
Proof. reflexivity. Qed.

Lemma matcher_Star (a : regex) prev s c k :
  matcher ignoreCase (Star a) prev s c k
  = iterate (matcher ignoreCase a) k (S (String.length s)) prev s c.
Proof. reflexivity. Qed.

Lemma matcher_Group (i : nat) (a : regex) prev s c k :
  matcher ignoreCase (Group i a) prev s c k
  = matcher ignoreCase a prev s c
      (fun prev' s' c' =>
         k prev' s' ((i, take (String.length s - String.length s') s) :: c')).
Proof. reflexivity. Qed.

Lemma matcher_Class (p : ascii -> bool) prev (x : ascii) s c k :
  matcher ignoreCase (Class p) prev (String x s) c k
  = if p x then k (Some x) s c else None.
Proof. reflexivity. Qed.

Lemma matcher_Char (a : ascii) prev (x : ascii) s c k :
  matcher ignoreCase (Char a) prev (String x s) c k
  = if charMatches ignoreCase a x then k (Some x) s c else None.
Proof. reflexivity. Qed.

(** Whatever a match returns, its continuation returned. *)
Lemma iterate_result (body : option ascii -> string -> captures -> continuation
                             -> option (string * captures))
      (k : continuation) (m : string * captures) :
  (forall prev s c k', body prev s c k' = Some m ->
                       exists prev' s' c', k' prev' s' c' = Some m) ->
  forall fuel prev s c,
    iterate body k fuel prev s c = Some m ->
    exists prev' s' c', k prev' s' c' = Some m.
Proof.
  intros Hbody. induction fuel as [|fuel IH]; intros prev s c H; simpl in H.
  - eauto.
  - destruct (body prev s c _) as [m'|] eqn:E.
    + injection H as ->. apply Hbody in E as (prev' & s' & c' & E).
      destruct (String.length s' <? String.length s)%nat; [|discriminate].
      eapply IH, E.
    + eauto.
Qed.

Lemma matcher_result (r : regex) (m : string * captures) :
  forall prev s c k,
    matcher ignoreCase r prev s c k = Some m ->
    exists prev' s' c', k prev' s' c' = Some m.
Proof.
  induction r as [| a | p | | a IHa b IHb | a IHa b IHb | a IHa | i a IHa];
    intros prev s c k H; cbn [matcher] in H.
  - eauto.
  - destruct s as [|ch s]; [discriminate|].
    destruct (charMatches ignoreCase a ch); [eauto | discriminate].
  - destruct s as [|ch s]; [discriminate|].
    destruct (p ch); [eauto | discriminate].
  - destruct (xorb _ _); [eauto | discriminate].
  - apply IHa in H as (prev' & s' & c' & H). eapply IHb, H.
  - destruct (matcher ignoreCase a prev s c k) eqn:E.
    + injection H as ->. eapply IHa, E.
    + eapply IHb, H.
  - eapply iterate_result; [|exact H]. intros; eapply IHa; eassumption.
  - apply IHa in H as (prev' & s' & c' & H). eauto.
Qed.

Lemma search_result (r : regex) (s : string) :
  forall prev m,
    search ignoreCase r prev s = Some m ->
    exists prev' s' rest, matcher ignoreCase r prev' s' [] accept = Some (rest, snd m).
Proof.
  induction s as [|a s IH]; intros prev m H; cbn [search] in H.
  - destruct (matcher ignoreCase r prev "" [] accept) as [[rest c]|] eqn:E; [|discriminate].
    injection H as <-. eauto.
  - destruct (matcher ignoreCase r prev (String a s) [] accept) as [[rest c]|] eqn:E.
    + injection H as <-. eauto.
    + eapply IH, H.
Qed.

(** A match depends on its continuation through the continuation's
    values only. *)
Lemma iterate_ext (body : option ascii -> string -> captures -> continuation
                          -> option (string * captures))
      (k1 k2 : continuation) :
  (forall prev s c k k', (forall p' s' c', k p' s' c' = k' p' s' c') ->
                         body prev s c k = body prev s c k') ->
  (forall p' s' c', k1 p' s' c' = k2 p' s' c') ->
  forall fuel prev s c,
    iterate body k1 fuel prev s c = iterate body k2 fuel prev s c.
Proof.
  intros Hbody Hk. induction fuel as [|fuel IH]; intros prev s c; simpl.
  - apply Hk.
  - rewrite (Hbody prev s c _
               (fun prev' s' c' =>
                  if (String.length s' <? String.length s)%nat
                  then iterate body k2 fuel prev' s' c' else None)).
    + now rewrite Hk.
    + intros p' s' c'. now rewrite IH.
Qed.

Lemma matcher_ext (r : regex) :
  forall prev s c k k',
    (forall p' s' c', k p' s' c' = k' p' s' c') ->
    matcher ignoreCase r prev s c k = matcher ignoreCase r prev s c k'.
Proof.
  induction r as [| a | p | | a IHa b IHb | a IHa b IHb | a IHa | i a IHa];
    intros prev s c k k' Hk; cbn [matcher].
  - apply Hk.
  - destruct s as [|ch s]; [reflexivity|]. now rewrite Hk.
  - destruct s as [|ch s]; [reflexivity|]. now rewrite Hk.
  - now rewrite Hk.
  - apply IHa. intros p' s' c'. now apply IHb.
  - now rewrite (IHa _ _ _ k k' Hk), (IHb _ _ _ k k' Hk).
  - apply iterate_ext; assumption.
  - apply IHa. intros p' s' c'. apply Hk.
Qed.

(** The loop never runs out of fuel: any fuel above the length of the
    input gives the same match. *)
Lemma iterate_fuel (r : regex) (k : continuation) :
  forall (n : nat) (s : string) (fuel fuel' : nat) (prev : option ascii) (c : captures),
    (String.length s <= n)%nat ->
    (String.length s < fuel)%nat -> (String.length s < fuel')%nat ->
    iterate (matcher ignoreCase r) k fuel prev s c
    = iterate (matcher ignoreCase r) k fuel' prev s c.
Proof.
  induction n as [|n IH]; intros s fuel fuel' prev c Hn Hf Hf';
    (destruct fuel as [|fuel]; [lia|]); (destruct fuel' as [|fuel']; [lia|]);
    cbn [iterate];
    rewrite (matcher_ext r prev s c _
               (fun prev' s' c' =>
                  if (String.length s' <? String.length s)%nat
                  then iterate (matcher ignoreCase r) k fuel' prev' s' c' else None));
    try reflexivity;
    intros p' s' c';
    destruct (String.length s' <? String.length s)%nat eqn:E; try reflexivity;
    apply Nat.ltb_lt in E.
  - lia.
  - apply IH; lia.
Qed.

(** The fuel a quantifier starts with is as good as any larger one. *)
Lemma matcher_Star_fuel (a : regex) (fuel : nat) prev s c k :
  (String.length s < fuel)%nat ->
  matcher ignoreCase (Star a) prev s c k
  = iterate (matcher ignoreCase a) k fuel prev s c.
Proof.
  intros Hfuel. rewrite matcher_Star.
  apply (iterate_fuel a k (String.length s)); lia.
Qed.

End Engine.

End RegexFacts.

(** *** The example of a documentation comment *)

Module ExampleFacts.

Import Js Regex Spec Worker RegexFacts.

Lemma lineTerminator_whiteSpace (c : ascii) :
  isWhiteSpace c = false -> isLineTerminator c = false.
Proof.
  unfold isWhiteSpace, isLineTerminator. set (n := code c).
  destruct (Nat.eqb_spec n 10) as [->|]; [discriminate|].
  destruct (Nat.eqb_spec n 13) as [->|]; [discriminate|]. reflexivity.
Qed.

Lemma afterColon_line (prev : option ascii) (ws : string) (x : ascii) (s : string)
      (c : captures) :
  every isWhiteSpace ws = true ->
  isWhiteSpace x = false ->
  matcher true afterColon prev (ws ++ String x s) c accept
  = Some (dropWhile notLineTerminator s,
          (1%nat, String x (takeWhile notLineTerminator s)) :: c).
Proof.
  intros Hws Hx. unfold afterColon, Plus.
  rewrite matcher_Seq, matcher_Star.
  destruct (takeWhile_run isWhiteSpace ws (String x s) Hws Hx) as [Htake Hdrop].
  apply iterate_class.
  - rewrite Htake, length_append. lia.
  - rewrite Htake, Hdrop, matcher_Group, matcher_Seq, matcher_Class.
    rewrite (lineTerminator_whiteSpace _ Hx). cbn [negb].
    rewrite matcher_Star.
    pose proof (take_drop_while notLineTerminator s) as Hsplit.
    apply (f_equal String.length) in Hsplit. rewrite length_append in Hsplit.
    apply iterate_class.
    + fold notLineTerminator. lia.
    + unfold accept. fold notLineTerminator.
      replace (String.length (String x s)
               - String.length (dropWhile notLineTerminator s))%nat
        with (S (String.length s - String.length (dropWhile notLineTerminator s)))
        by (change (String.length (String x s)) with (S (String.length s)); lia).
      cbn [take]. now rewrite take_while.
Qed.


(** At a word boundary the marker is matched in one way only, up to
    and including its colon. *)
Lemma marker_head (r : regex) (prev : option ascii) (marker t : string)
      (c : captures) (k : continuation) :
  Marker marker -> isWordBefore prev = false ->
  matcher true
    (Seq WordBoundary
       (Seq (Char "e") (Seq (Char "g") (Seq (Opt (Char ".")) (Seq (Char ":") r)))))
    prev (marker ++ t) c k
  = matcher true r (Some ":"%char) t c k.
Proof.
  intros (e & g & period & He & Hg & Hp & ->) Hprev.
  destruct He as [-> | ->], Hg as [-> | ->], Hp as [-> | ->];
    cbn; rewrite Hprev; cbn; try reflexivity;
    destruct (matcher true r (Some ":"%char) t c k); reflexivity.
Qed.

Lemma colon_only (x : ascii) : charMatches true ":" x = true -> x = ":"%char.
Proof.
  destruct x as [[] [] [] [] [] [] [] []]; vm_compute; intros H;
    first [reflexivity | discriminate H].
Qed.

Lemma period_only (x : ascii) : charMatches true "." x = true -> x = "."%char.
Proof.
  destruct x as [[] [] [] [] [] [] [] []]; vm_compute; intros H;
    first [reflexivity | discriminate H].
Qed.

Lemma marker_shape (r : regex) (prev : option ascii) (s : string) (c : captures)
      (k : continuation) :
  markerAt s = false ->
  matcher true
    (Seq WordBoundary
       (Seq (Char "e") (Seq (Char "g") (Seq (Opt (Char ".")) (Seq (Char ":") r)))))
    prev s c k
  = None.
Proof.
  intros Hshape. unfold Opt. cbn [matcher].
  destruct (xorb _ _); [|reflexivity].
  destruct s as [|a s]; [reflexivity|].
  destruct (charMatches true "e" a) eqn:Ea; [|reflexivity].
  destruct s as [|b s]; [reflexivity|].
  destruct (charMatches true "g" b) eqn:Eb; [|reflexivity].
  destruct s as [|x t]; [reflexivity|].
  unfold markerAt in Hshape. rewrite Ea, Eb in Hshape. cbn [andb] in Hshape.
  apply orb_false_elim in Hshape as [Hx Hdot].
  assert (Hcolon : charMatches true ":" x = false).
  { destruct (charMatches true ":" x) eqn:E; [|reflexivity].
    apply colon_only in E. subst. discriminate Hx. }
  rewrite Hcolon.
  destruct (charMatches true "." x) eqn:Ex; [|reflexivity].
  apply period_only in Ex. subst x.
  rewrite Ascii.eqb_refl in Hdot. cbn [andb] in Hdot.
  destruct t as [|y t]; [reflexivity|]. cbn [startsWith] in Hdot.
  destruct (charMatches true ":" y) eqn:Ey; [|reflexivity].
  apply colon_only in Ey. subst. rewrite Ascii.eqb_refl in Hdot. discriminate Hdot.
Qed.

Lemma markerAt_colon (s : string) : markerAt s = true -> every notColon s = false.
Proof.
  destruct s as [|a [|b [|x t]]]; try discriminate. unfold markerAt. cbn [every].
  intros H. apply andb_prop in H as [_ H]. apply orb_prop in H as [H|H].
  - apply Ascii.eqb_eq in H. subst x. change (notColon ":") with false.
    cbn [andb]. now rewrite !andb_false_r.
  - apply andb_prop in H as [_ H]. destruct t as [|y t]; [discriminate|].
    cbn [startsWith] in H. apply Ascii.eqb_eq in H. subst y. cbn [every].
    change (notColon ":") with false. cbn [andb]. now rewrite !andb_false_r.
Qed.

Lemma search_none (r : regex) (s : string) :
  forall prev,
    (forall prev' s' c k, every notColon s' = true ->
                          matcher true r prev' s' c k = None) ->
    every notColon s = true ->
    search true r prev s = None.
Proof.
  induction s as [|a s IH]; intros prev Hr Hs; cbn [search].
  - now rewrite Hr.
  - rewrite (Hr _ _ _ _ Hs). simpl in Hs. apply andb_prop in Hs as [_ Hs].
    now apply IH.
Qed.

Lemma exec_no_colon (doc : string) :
  every notColon doc = true -> exec true paramExamplesRegExp doc = None.
Proof.
  intros H. unfold exec. apply search_none; [|exact H].
  intros prev s c k Hs. unfold paramExamplesRegExp. apply marker_shape.
  destruct (markerAt s) eqn:E; [|reflexivity].
  apply markerAt_colon in E. congruence.
Qed.

Lemma paramExample_no_colon (doc : string) :
  every notColon doc = true -> paramExample doc = None.
Proof.
  intros H. unfold paramExample. now rewrite (exec_no_colon _ H).
Qed.

(** Before the marker: a text without colon leaves no room for an
    earlier match. *)
Lemma markerAt_before (a : ascii) (before marker t : string) :
  Marker marker ->
  every notColon (String a before) = true ->
  markerAt (String a before ++ marker ++ t) = false.
Proof.
  intros (e & g & period & He & Hg & Hp & ->) Hpre.
  assert (Hg' : charMatches true "g" e = false) by (destruct He as [-> | ->]; reflexivity).
  assert (He1 : Ascii.eqb e ":" = false) by (destruct He as [-> | ->]; reflexivity).
  assert (He2 : Ascii.eqb e "." = false) by (destruct He as [-> | ->]; reflexivity).
  assert (He3 : Ascii.eqb ":" e = false) by (destruct He as [-> | ->]; reflexivity).
  cbn [every] in Hpre. apply andb_prop in Hpre as [_ Hpre].
  destruct before as [|b [|x [|y before]]]; cbn [append markerAt].
  - rewrite Hg'. now rewrite andb_false_r.
  - rewrite He1, He2. cbn [orb andb]. now rewrite andb_false_r.
  - cbn [every] in Hpre. apply andb_prop in Hpre as [_ Hpre].
    apply andb_prop in Hpre as [Hx _]. unfold notColon in Hx. apply negb_true_iff in Hx.
    rewrite Hx. cbn [startsWith orb]. rewrite He3. now rewrite !andb_false_r.
  - cbn [every] in Hpre. apply andb_prop in Hpre as [_ Hpre].
    apply andb_prop in Hpre as [Hx Hpre]. apply andb_prop in Hpre as [Hy _].
    unfold notColon in Hx, Hy. apply negb_true_iff in Hx, Hy.
    rewrite Hx. cbn [startsWith orb]. rewrite (Ascii.eqb_sym ":" y), Hy.
    now rewrite !andb_false_r.
Qed.

Lemma search_before (r : regex) (before marker t : string) :
  Marker marker ->
  every notColon before = true ->
  forall prev,
    search true
      (Seq WordBoundary
         (Seq (Char "e") (Seq (Char "g") (Seq (Opt (Char ".")) (Seq (Char ":") r)))))
      prev (before ++ marker ++ t)
    = search true
        (Seq WordBoundary
           (Seq (Char "e") (Seq (Char "g") (Seq (Opt (Char ".")) (Seq (Char ":") r)))))
        (lastOr prev before) (marker ++ t).
Proof.
  intros Hm. induction before as [|a before IH]; intros Hpre prev; [reflexivity|].
  change (String a before ++ marker ++ t) with (String a (before ++ marker ++ t)).
  cbn [search lastOr].
  change (String a (before ++ marker ++ t)) with (String a before ++ marker ++ t).
  rewrite (marker_shape r prev _ [] accept (markerAt_before a before marker t Hm Hpre)).
  simpl in Hpre. apply andb_prop in Hpre as [_ Hpre]. now apply IH.
Qed.

Lemma exec_marker (before marker ws : string) (x : ascii) (s : string) :
  every notColon before = true ->
  isWordBefore (lastOr None before) = false ->
  Marker marker ->
  every isWhiteSpace ws = true ->
  isWhiteSpace x = false ->
  exists whole : string,
    exec true paramExamplesRegExp (before ++ marker ++ ws ++ String x s)
    = Some (whole, [(1%nat, String x (takeWhile notLineTerminator s))]).
Proof.
  intros Hpre Hbound Hm Hws Hx. unfold exec, paramExamplesRegExp.
  rewrite (search_before _ before marker (ws ++ String x s) Hm Hpre None).
  assert (H : matcher true paramExamplesRegExp (lastOr None before)
                      (marker ++ ws ++ String x s) [] accept
              = Some (dropWhile notLineTerminator s,
                      [(1%nat, String x (takeWhile notLineTerminator s))])).
  { unfold paramExamplesRegExp. rewrite (marker_head _ _ _ _ _ _ Hm Hbound).
    exact (afterColon_line (Some ":"%char) ws x s [] Hws Hx). }
  unfold paramExamplesRegExp in H.
  destruct (marker ++ ws ++ String x s) eqn:E; cbn [search]; rewrite H; eexists; reflexivity.
Qed.

Lemma every_impl (p q : ascii -> bool) (s : string) :
  (forall c, p c = true -> q c = true) -> every p s = true -> every q s = true.
Proof.
  intros Hpq. induction s as [|a s IH]; simpl; [reflexivity|].
  intros H. apply andb_prop in H as [Ha Hs]. now rewrite (Hpq _ Ha), IH.
Qed.

Lemma takeWhile_append (p : ascii -> bool) (a b : string) :
  every p a = true -> takeWhile p (a ++ b) = a ++ takeWhile p b.
Proof.
  induction a as [|x a IH]; simpl; [reflexivity|].
  intros H. apply andb_prop in H as [Hx Ha]. now rewrite Hx, IH.
Qed.

Lemma startsWith_takeWhile (p q : ascii -> bool) (s : string) :
  startsWith p (takeWhile q s) = true -> startsWith p s = true.
Proof.
  destruct s as [|a s]; simpl; [discriminate|]. destruct (q a); simpl; [auto | discriminate].
Qed.

Lemma startsWith_trimEnd (p : ascii -> bool) (s : string) :
  startsWith p (trimEnd s) = true -> startsWith p s = true.
Proof.
  destruct s as [|a s]; simpl; [discriminate|].
  destruct (trimEnd s); [destruct (isWhiteSpace a)|]; simpl; auto; discriminate.
Qed.

Lemma trimEnd_keep (a : string) (x : ascii) (b : string) :
  isWhiteSpace x = false ->
  trimEnd (a ++ String x b) = a ++ String x (trimEnd b).
Proof.
  intros Hx. induction a as [|y a IH].
  - simpl. rewrite Hx. destruct (trimEnd b); reflexivity.
  - change (trimEnd (String y a ++ String x b))
      with (match trimEnd (a ++ String x b) with
            | EmptyString => if isWhiteSpace y then EmptyString else String y EmptyString
            | t => String y t
            end).
    rewrite IH. destruct a; reflexivity.
Qed.

Lemma notSeparator_whiteSpace (c : ascii) :
  notSeparator c = true -> isWhiteSpace c = false.
Proof.
  unfold notSeparator, isSeparator. destruct (isWhiteSpace c); [discriminate | reflexivity].
Qed.

Lemma notSeparator_line (c : ascii) :
  notSeparator c = true -> notLineTerminator c = true.
Proof.
  intros H. unfold notLineTerminator.
  now rewrite (lineTerminator_whiteSpace _ (notSeparator_whiteSpace _ H)).
Qed.

(** A token in the trimmed line: the third alternative takes it up to
    the next separator. *)
Lemma exec_token (x : ascii) (token rest : string) :
  notSeparator x = true -> isQuote x = false ->
  every notSeparator token = true ->
  startsWith notSeparator rest = false ->
  exec false reg (String x token ++ rest)
  = Some (String x token, [(3%nat, String x token)]).
Proof.
  intros Hx Hq Htoken Hrest. unfold exec.
  assert (H : matcher false reg None (String x token ++ rest) [] accept
              = Some (rest, [(3%nat, String x token)])).
  { unfold reg, Plus. apply orb_false_elim in Hq as [Hd Hs].
    change (Class (fun c => negb (isWhiteSpace c || Ascii.eqb c ",")))
      with (Class notSeparator).
    rewrite matcher_Alt, matcher_Seq.
    change (String x token ++ rest) with (String x (token ++ rest)).
    rewrite matcher_Char. unfold charMatches at 1.
    rewrite Ascii.eqb_sym, Hd.
    rewrite matcher_Alt, matcher_Seq, matcher_Char. unfold charMatches at 1.
    rewrite Ascii.eqb_sym, Hs.
    rewrite matcher_Group, matcher_Seq, matcher_Class, Hx, matcher_Star.
    destruct (takeWhile_run notSeparator token rest Htoken Hrest) as [Htake Hdrop].
    apply iterate_class; rewrite Htake.
    - rewrite length_append. lia.
    - rewrite Hdrop. unfold accept.
      change (String x (token ++ rest)) with (String x token ++ rest).
      now rewrite take_append. }
  cbn [search append]. cbn [append] in H. rewrite H.
  change (String x (token ++ rest)) with (String x token ++ rest).
  now rewrite take_append.
Qed.


(** A quoted run: its inside becomes the group of the alternative. *)
Lemma quoted_run (q : ascii) (i : nat) (prev : option ascii) (content rest : string)
      (c : captures) :
  every (fun c => negb (Ascii.eqb c q)) content = true ->
  matcher false
    (Seq (Char q) (Seq (Group i (Star (Class (fun c => negb (Ascii.eqb c q))))) (Char q)))
    prev (String q (content ++ String q rest)) c accept
  = Some (rest, (i, content) :: c).
Proof.
  intros Hcontent.
  rewrite matcher_Seq, matcher_Char. unfold charMatches at 1. rewrite Ascii.eqb_refl.
  rewrite matcher_Seq, matcher_Group, matcher_Star.
  assert (Hq : startsWith (fun c => negb (Ascii.eqb c q)) (String q rest) = false)
    by (simpl; now rewrite Ascii.eqb_refl).
  destruct (takeWhile_run _ content (String q rest) Hcontent Hq) as [Htake Hdrop].
  apply iterate_class; rewrite Htake.
  - rewrite length_append. lia.
  - rewrite Hdrop, take_append, matcher_Char. unfold charMatches.
    now rewrite Ascii.eqb_refl.
Qed.

Lemma exec_quoted (q : ascii) (content rest : string) :
  every (fun c => negb (Ascii.eqb c q)) content = true ->
  exists whole : string,
    (q = dquote ->
     exec false reg (String q (content ++ String q rest))
     = Some (whole, [(1%nat, content)]))
    /\ (q = squote ->
        exec false reg (String q (content ++ String q rest))
        = Some (whole, [(2%nat, content)])).
Proof.
  intros Hcontent.
  exists (take (String.length (String q (content ++ String q rest)) - String.length rest)
               (String q (content ++ String q rest))).
  split; intros ->; unfold exec; cbn [search]; unfold reg.
  - rewrite matcher_Alt, (quoted_run dquote 1 None content rest [] Hcontent). reflexivity.
  - rewrite matcher_Alt. rewrite matcher_Seq at 1. rewrite matcher_Char at 1.
    change (charMatches false dquote squote) with false. cbv iota.
    rewrite matcher_Alt, (quoted_run squote 2 None content rest [] Hcontent). reflexivity.
Qed.


Lemma trimEnd_every (a b : string) :
  a <> "" -> every (fun c => negb (isWhiteSpace c)) a = true ->
  trimEnd (a ++ b) = a ++ trimEnd b.
Proof.
  induction a as [|y a IH]; [congruence|]. intros _ H.
  simpl in H. apply andb_prop in H as [Hy Ha]. apply negb_true_iff in Hy.
  change (trimEnd (String y a ++ b))
    with (match trimEnd (a ++ b) with
          | EmptyString => if isWhiteSpace y then EmptyString else String y EmptyString
          | t => String y t
          end).
  destruct a as [|z a].
  - simpl. rewrite Hy. destruct (trimEnd b); reflexivity.
  - rewrite IH by (congruence || assumption). reflexivity.
Qed.

Lemma paramExample_token (before marker ws : string) (x : ascii) (token rest : string) :
  every notColon before = true ->
  isWordBefore (lastOr None before) = false ->
  Marker marker ->
  every isWhiteSpace ws = true ->
  notSeparator x = true -> isQuote x = false ->
  every notSeparator token = true ->
  startsWith notSeparator rest = false ->
  paramExample (before ++ marker ++ ws ++ String x token ++ rest)
  = Some (Some (String x token)).
Proof.
  intros Hpre Hbound Hm Hws Hx Hq Htoken Hrest. unfold paramExample.
  destruct (exec_marker before marker ws x (token ++ rest) Hpre Hbound Hm Hws
              (notSeparator_whiteSpace _ Hx))
    as (whole & Hexec).
  change (String x token ++ rest) with (String x (token ++ rest)). rewrite Hexec.
  cbn [Regex.group capture Nat.eqb snd joinText].
  rewrite (takeWhile_append notLineTerminator token rest
             (every_impl _ _ _ notSeparator_line Htoken)).
  unfold trim. cbn [trimStart]. rewrite (notSeparator_whiteSpace _ Hx).
  change (String x (token ++ takeWhile notLineTerminator rest))
    with (String x token ++ takeWhile notLineTerminator rest).
  rewrite trimEnd_every.
  - rewrite exec_token; [reflexivity | assumption | assumption | assumption |].
    destruct (startsWith notSeparator (trimEnd (takeWhile notLineTerminator rest))) eqn:E;
      [|reflexivity].
    apply startsWith_trimEnd, startsWith_takeWhile in E. congruence.
  - discriminate.
  - simpl. rewrite (notSeparator_whiteSpace _ Hx). simpl.
    apply (every_impl notSeparator); [|assumption].
    intros c Hc. now rewrite (notSeparator_whiteSpace _ Hc).
Qed.

Lemma quote_whiteSpace (q : ascii) : q = dquote \/ q = squote -> isWhiteSpace q = false.
Proof. intros [-> | ->]; reflexivity. Qed.

Lemma quoted_line (before marker ws : string) (q : ascii) (content rest : string) :
  every notColon before = true ->
  isWordBefore (lastOr None before) = false ->
  Marker marker ->
  every isWhiteSpace ws = true ->
  q = dquote \/ q = squote ->
  every (fun c => negb (Ascii.eqb c q) && notLineTerminator c) content = true ->
  exists whole tail : string,
    exec true paramExamplesRegExp
         (before ++ marker ++ ws ++ String q (content ++ String q rest))
    = Some (whole, [(1%nat, String q (content ++ String q tail))])
    /\ trim (String q (content ++ String q tail))
       = String q (content ++ String q (trimEnd tail)).
Proof.
  intros Hpre Hbound Hm Hws Hq Hcontent.
  pose proof (quote_whiteSpace q Hq) as Hqws.
  destruct (exec_marker before marker ws q (content ++ String q rest) Hpre Hbound
              Hm Hws Hqws)
    as (whole & Hexec).
  exists whole, (takeWhile notLineTerminator rest). split.
  - rewrite Hexec. repeat f_equal.
    rewrite takeWhile_append.
    + simpl. unfold notLineTerminator at 1.
      now rewrite (lineTerminator_whiteSpace _ Hqws).
    + apply (every_impl _ _ _ (fun c H => proj2 (andb_prop _ _ H)) Hcontent).
  - unfold trim. cbn [trimStart]. rewrite Hqws.
    change (String q (content ++ String q (takeWhile notLineTerminator rest)))
      with (String q content ++ String q (takeWhile notLineTerminator rest)).
    now rewrite trimEnd_keep.
Qed.

(** X9.  An example that opens with a quote and closes with the same quote
    on its line, with something in between: the text between the
    quotes is emitted between double quotes, whichever quote the
    documentation used, with the spaces it holds. *)
Lemma paramExample_quoted (before marker ws : string) (q : ascii)
      (content rest : string) :
  every notColon before = true ->
  isWordBefore (lastOr None before) = false ->
  Marker marker ->
  every isWhiteSpace ws = true ->
  q = dquote \/ q = squote ->
  every (fun c => negb (Ascii.eqb c q) && notLineTerminator c) content = true ->
  content <> "" ->
  paramExample (before ++ marker ++ ws ++ String q (content ++ String q rest))
  = Some (Some (quoted content)).
Proof.
  intros Hpre Hbound Hm Hws Hq Hcontent Hne.
  destruct (quoted_line before marker ws q content rest Hpre Hbound Hm Hws Hq Hcontent)
    as (whole & tail & Hexec & Htrim).
  unfold paramExample. rewrite Hexec.
  cbn [Regex.group capture Nat.eqb snd joinText]. rewrite Htrim.
  destruct (exec_quoted q content (trimEnd tail)) as (matched & Hd & Hs).
  { apply (every_impl _ _ _ (fun c H => proj1 (andb_prop _ _ H)) Hcontent). }
  apply String.eqb_neq in Hne.
  destruct Hq as [-> | ->].
  - rewrite (Hd eq_refl). cbn [Regex.group capture Nat.eqb snd].
    unfold orElse. cbn [truthyStr]. rewrite Hne. cbn [negb truthyStr]. rewrite Hne.
    reflexivity.
  - rewrite (Hs eq_refl). cbn [Regex.group capture Nat.eqb snd].
    unfold orElse. cbn [truthyStr]. rewrite Hne. reflexivity.
Qed.

(** Empty quotes: neither quoted group is truthy, and the third group
    did not take part in the match. *)
Lemma paramExample_empty_quotes (before marker ws : string) (q : ascii) (rest : string) :
  every notColon before = true ->
  isWordBefore (lastOr None before) = false ->
  Marker marker ->
  every isWhiteSpace ws = true ->
  q = dquote \/ q = squote ->
  paramExample (before ++ marker ++ ws ++ String q (String q rest)) = Some None.
Proof.
  intros Hpre Hbound Hm Hws Hq.
  destruct (quoted_line before marker ws q "" rest Hpre Hbound Hm Hws Hq eq_refl)
    as (whole & tail & Hexec & Htrim).
  unfold paramExample. cbn [append] in *. rewrite Hexec.
  cbn [Regex.group capture Nat.eqb snd joinText]. rewrite Htrim.
  destruct (exec_quoted q "" (trimEnd tail) eq_refl) as (matched & Hd & Hs).
  cbn [append] in *.
  destruct Hq as [-> | ->]; [rewrite (Hd eq_refl) | rewrite (Hs eq_refl)]; reflexivity.
Qed.

(** The worker's patterns on sample comments. *)

Example paramExamplesRegExp_sample :
  exec true paramExamplesRegExp ("speed, eG.:  fast or slow" ++ String LF "next line")
  = Some ("eG.:  fast or slow", [(1%nat, "fast or slow")]).
Proof. reflexivity. Qed.

Example paramExample_samples :
  paramExample "eg: 5, 6, 7" = Some (Some "5")
  /\ paramExample "the speed eg: 'fast' or slow" = Some (Some (quoted "fast"))
  /\ paramExample "a leg: 5" = None
  /\ paramExample "eg:   " = None
  /\ paramExample "" = None.
Proof. repeat split. Qed.

(** X12.  Group 1 of the marker pattern takes part in every match, so the
    text handed to [trim] is never [undefined]. *)
Lemma paramExamples_group1 (doc : string) (m : string * captures) :
  exec true paramExamplesRegExp doc = Some m ->
  exists line : string, Regex.group m 1 = Some line.
Proof.
  intros H. apply search_result in H as (prev & s & rest & H).
  unfold paramExamplesRegExp in H.
  repeat (rewrite matcher_Seq in H;
          apply matcher_result in H as (? & ? & ? & H)).
  rewrite matcher_Group in H.
  apply matcher_result in H as (? & ? & ? & H).
  unfold accept in H. injection H as _ H. cbn [Regex.group]. rewrite <- H.
  cbn [capture Nat.eqb]. eauto.
Qed.

(** C5, amended.  The marker is [eg] in either letter case at a word
    boundary, an optional period and a colon that must be there.  A
    documentation text without any colon yields no example.  When the
    text before the marker has no colon and does not end in a word
    character, and the colon is followed by optional white space and
    a candidate that is not quoted, the first candidate is returned:
    the characters up to the next white space or comma. *)
Theorem marker_requires_colon :
  (forall doc : string, every notColon doc = true -> paramExample doc = None)
  /\ (forall (before marker ws : string) (x : ascii) (token rest : string),
         every notColon before = true ->
         isWordBefore (lastOr None before) = false ->
         Marker marker ->
         every isWhiteSpace ws = true ->
         notSeparator x = true -> isQuote x = false ->
         every notSeparator token = true ->
         startsWith notSeparator rest = false ->
         paramExample (before ++ marker ++ ws ++ String x token ++ rest)
         = Some (Some (String x token))).
Proof.
  split.
  - exact paramExample_no_colon.
  - exact paramExample_token.
Qed.

Lemma marker_requires_colon_witness :
  paramExample "the speed, eg 100" = None
  /\ paramExample "the speed, eg: 100, 200" = Some (Some "100")
  /\ paramExample "EG.:x" = Some (Some "x").
Proof.
  split; [|split].
  - apply (proj1 marker_requires_colon "the speed, eg 100"). reflexivity.
  - apply (proj2 marker_requires_colon "the speed, " "eg:" " " "1"%char "00" ", 200");
      try reflexivity.
    exists "e"%char, "g"%char, "". auto.
  - apply (proj2 marker_requires_colon "" "EG.:" "" "x"%char "" ""); try reflexivity.
    exists "E"%char, "G"%char, ".". auto.
Defined.

(** C5 as stated fails: the text [eg 5] carries the marker without a
    colon, and the extractor finds no example in it. *)
Lemma marker_without_colon : paramExample "eg 5" = None.
Proof. reflexivity. Qed.

(** C6 fails on empty quotes: for the documentation [eg: ] followed by
    two double quotes the extractor returns [undefined], not a string
    literal, and the snippet of [say(text: string)] loses its argument. *)
Theorem empty_quotes_yield_undefined :
  paramExample Sample.emptyQuotes = Some None
  /\ renderParameter Sample.ts2 Sample.sampleService Sample.saySignature
                     (Sample.parameter "text" Sample.emptyQuotes)
     = Normal None
  /\ option_map snd
       (match getCompletionEntryDetailsAndSnippet Sample.ts2 Sample.sampleService
                                                  "main.ts" 0 "say" "say" None with
        | Normal r => r
        | Throw _ => None
        end)
     = Some "say()".
Proof. repeat split. Qed.

End ExampleFacts.

(** *** Per-parameter synthesis by type *)

Module RenderFacts.

Import Js Ts Worker Spec.

Lemma truthy_true (x : Z) : truthy x = true <-> x <> 0%Z.
Proof.
  unfold truthy. rewrite negb_true_iff, Z.eqb_neq. tauto.
Qed.

Lemma has_truthy (flags flag : Z) :
  has flags flag -> truthy (bitand flags flag) = true.
Proof. intros H. now apply truthy_true. Qed.

Lemma not_has_truthy (flags flag : Z) :
  ~ has flags flag -> truthy (bitand flags flag) = false.
Proof.
  unfold has. intros H. destruct (truthy (bitand flags flag)) eqn:E; [|reflexivity].
  apply truthy_true in E. contradiction.
Qed.

Lemma has_nonzero (flags flag : Z) : has flags flag -> truthy flags = true.
Proof.
  unfold has. intros H. apply truthy_true. intros ->. apply H. reflexivity.
Qed.

Lemma truthyStr_nonempty (s : string) : s <> "" -> truthyStr (Some s) = true.
Proof.
  intros H. simpl. apply negb_true_iff. now apply String.eqb_neq.
Qed.

Section Render.

Variable ts : TsConstants.
Variable languageService : LanguageService.

Let typeChecker : TypeChecker := getTypeChecker languageService.

Abbreviation render := (renderParameter ts languageService).
Abbreviation typeOf := (Spec.typeOf typeChecker).

Lemma find_first (declarations : list Declaration.t) (d : Declaration.t) :
  FirstEnumDeclaration ts declarations d ->
  firstEnumDeclaration ts declarations = Some d.
Proof.
  intros (before & after & -> & Hd & Hb). unfold firstEnumDeclaration.
  induction Hb as [|d' before Hd' _ IH]; simpl.
  - rewrite Hd, Z.eqb_refl. reflexivity.
  - apply Z.eqb_neq in Hd'. rewrite Hd'. exact IH.
Qed.

Lemma find_none (declarations : list Declaration.t) :
  NoEnumDeclaration ts declarations ->
  firstEnumDeclaration ts declarations = None.
Proof.
  unfold firstEnumDeclaration. induction 1 as [|d' l Hd' _ IH]; simpl.
  - reflexivity.
  - apply Z.eqb_neq in Hd'. rewrite Hd'. exact IH.
Qed.

(** How synthesis starts on an enum-literal type without an example. *)
Lemma render_enum (signature : Signature.t) (parameter : Symbol.t) :
  paramExample (docOf parameter) = None ->
  EnumLiteralType ts (typeOf parameter) ->
  render signature parameter =
    (enumValue <- enumValueOf ts (typeOf parameter) ;;
     if truthyStr enumValue
     then match Type_.symbol (typeOf parameter) with
          | Some symbol => Normal (Some (Symbol.name symbol ++ "." ++ joinText enumValue))
          | None => Throw TypeError
          end
     else Normal (Some (placeholder (Symbol.name parameter)))).
Proof.
  intros Hdoc Henum. unfold renderParameter.
  fold typeChecker. change (displayPartsToString _) with (docOf parameter).
  rewrite Hdoc.
  change (getTypeOfSymbolAtLocation typeChecker parameter _) with (typeOf parameter).
  rewrite (has_nonzero _ _ Henum), (has_truthy _ _ Henum). reflexivity.
Qed.

(** How synthesis goes on an anonymous object type without an example. *)
Lemma render_anonymous (signature : Signature.t) (parameter : Symbol.t) :
  paramExample (docOf parameter) = None ->
  AnonymousType ts (typeOf parameter) ->
  render signature parameter =
    Normal (Some (renderFunction ts languageService (typeOf parameter))).
Proof.
  intros Hdoc (Henum & Hobj & Hanon). unfold renderParameter.
  fold typeChecker. change (displayPartsToString _) with (docOf parameter).
  rewrite Hdoc.
  change (getTypeOfSymbolAtLocation typeChecker parameter _) with (typeOf parameter).
  rewrite (has_nonzero _ _ Hobj), (not_has_truthy _ _ Henum),
    (has_truthy _ _ Hobj), (has_truthy _ _ Hanon). reflexivity.
Qed.

(** How synthesis goes on a primitive type without an example. *)
Lemma render_primitive (signature : Signature.t) (parameter : Symbol.t) (name : string) :
  paramExample (docOf parameter) = None ->
  PrimitiveType ts (typeOf parameter) name ->
  render signature parameter =
    Normal (Some (renderDefaultVal (Symbol.name parameter) (Some name))).
Proof.
  intros Hdoc (Henum & Hobj & Hprim & Hname). unfold renderParameter.
  fold typeChecker. change (displayPartsToString _) with (docOf parameter).
  rewrite Hdoc.
  change (getTypeOfSymbolAtLocation typeChecker parameter _) with (typeOf parameter).
  rewrite (not_has_truthy _ _ Henum), (not_has_truthy _ _ Hobj), Hname.
  assert (Hnz : truthy (Type_.flags (typeOf parameter)) = true).
  { destruct Hprim as [H|[H|[H|H]]]; exact (has_nonzero _ _ H). }
  rewrite Hnz.
  assert (Hany : truthy (bitand (Type_.flags (typeOf parameter)) (TypeFlags_String ts))
                 || truthy (bitand (Type_.flags (typeOf parameter)) (TypeFlags_Number ts))
                 || truthy (bitand (Type_.flags (typeOf parameter)) (TypeFlags_Boolean ts))
                 || truthy (bitand (Type_.flags (typeOf parameter)) (TypeFlags_Void ts))
                 = true).
  { destruct Hprim as [H|[H|[H|H]]]; rewrite (has_truthy _ _ H);
      repeat rewrite orb_true_r; reflexivity. }
  rewrite Hany. reflexivity.
Qed.

(** X17.  Synthesis throws in one case only: an enum-literal type whose
    symbol has no declarations, reached without an example. *)
Lemma throws_iff_no_declarations (signature : Signature.t) (parameter : Symbol.t) :
  render signature parameter = Throw TypeError
  <-> paramExample (docOf parameter) = None
      /\ EnumLiteralType ts (typeOf parameter)
      /\ exists symbol : Symbol.t,
           Type_.symbol (typeOf parameter) = Some symbol
           /\ Symbol.getDeclarations symbol = None.
Proof.
  split.
  - unfold renderParameter. fold typeChecker.
    change (displayPartsToString _) with (docOf parameter).
    change (getTypeOfSymbolAtLocation typeChecker parameter _) with (typeOf parameter).
    destruct (paramExample (docOf parameter)); [discriminate|].
    destruct (truthy (Type_.flags (typeOf parameter))); [|discriminate].
    destruct (truthy (bitand (Type_.flags (typeOf parameter)) (TypeFlags_EnumLiteral ts)))
             eqn:Eenum.
    + intros H. split; [reflexivity|]. split; [now apply truthy_true|].
      unfold enumValueOf in H.
      destruct (Type_.symbol (typeOf parameter)) as [symbol|]; [|discriminate].
      exists symbol. split; [reflexivity|].
      destruct (Symbol.getDeclarations symbol) as [declarations|]; [|reflexivity].
      exfalso.
      destruct (firstEnumDeclaration ts declarations) as [d|]; [|discriminate].
      destruct (Declaration.members d) as [[|member others]|]; try discriminate.
      destruct (PropertyName.kind (EnumMember.name member) =? SyntaxKind_Identifier ts)%Z;
        [|discriminate].
      cbn [bind] in H.
      destruct (truthyStr (Some (PropertyName.text (EnumMember.name member))));
        discriminate.
    + destruct (truthy (bitand (Type_.flags (typeOf parameter)) (TypeFlags_Object ts))).
      * destruct (truthy (bitand (Type_.objectFlags (typeOf parameter))
                                 (ObjectFlags_Anonymous ts))); [discriminate|].
        destruct (_ || _); discriminate.
      * destruct (_ || _); discriminate.
  - intros (Hdoc & Henum & symbol & Hsym & Hdecl).
    rewrite (render_enum _ _ Hdoc Henum). unfold enumValueOf.
    now rewrite Hsym, Hdecl.
Qed.

(** C8, amended.  Without a documentation example, a string parameter
    named [leds] gets the image literal of a five by five grid whose
    centre cell alone is lit, a string parameter of any other name the
    empty string literal, a number parameter [0] and a boolean
    parameter [false]. *)
Theorem primitive_defaults :
  forall (signature : Signature.t) (parameter : Symbol.t),
    paramExample (docOf parameter) = None ->
    (PrimitiveType ts (typeOf parameter) "string" ->
     Symbol.name parameter = "leds" ->
     render signature parameter =
       Normal (Some (imageLiteral [". . . . ."; ". . . . ."; ". . # . .";
                                   ". . . . ."; ". . . . ."])))
    /\ (PrimitiveType ts (typeOf parameter) "string" ->
        Symbol.name parameter <> "leds" ->
        render signature parameter = Normal (Some (String dquote (String dquote ""))))
    /\ (PrimitiveType ts (typeOf parameter) "number" ->
        render signature parameter = Normal (Some "0"))
    /\ (PrimitiveType ts (typeOf parameter) "boolean" ->
        render signature parameter = Normal (Some "false")).
Proof.
  intros signature parameter Hdoc. repeat split.
  - intros HT Hname. rewrite (render_primitive _ _ _ Hdoc HT), Hname. reflexivity.
  - intros HT Hname. rewrite (render_primitive _ _ _ Hdoc HT).
    apply String.eqb_neq in Hname. cbn. rewrite Hname. reflexivity.
  - intros HT. now rewrite (render_primitive _ _ _ Hdoc HT).
  - intros HT. now rewrite (render_primitive _ _ _ Hdoc HT).
Qed.

(** C7.  Without a documentation example, a parameter of an anonymous
    function type gets a function literal: the parameter list is the
    printed first call signature up to its last colon, and the body is
    one return statement followed by the final tab stop: [return 0;]
    for a number-like return type, the empty string returned for a
    string-like one, [return false;] for a boolean-like one, and no
    return statement otherwise. *)
Theorem function_literal_body :
  forall (signature : Signature.t) (parameter : Symbol.t)
         (signature0 : Signature.t) (rest : list Signature.t),
    paramExample (docOf parameter) = None ->
    AnonymousType ts (typeOf parameter) ->
    Type_.getCallSignatures (typeOf parameter) = signature0 :: rest ->
    let returned := Type_.flags (getReturnTypeOfSignature typeChecker signature0) in
    let printed := displayPartsToString (buildSignatureDisplay typeChecker signature0) in
    exists body : string,
      render signature parameter =
        Normal (Some ("function " ++ substr0 printed (lastIndexOf printed ":") ++ " {"
                      ++ String LF (String TAB (body ++ "$0")) ++ String LF "}"))
      /\ (has returned (TypeFlags_NumberLike ts) -> body = "return 0;")
      /\ (~ has returned (TypeFlags_NumberLike ts) ->
          has returned (TypeFlags_StringLike ts) ->
          body = "return " ++ String dquote (String dquote ";"))
      /\ (~ has returned (TypeFlags_NumberLike ts) ->
          ~ has returned (TypeFlags_StringLike ts) ->
          has returned (TypeFlags_BooleanLike ts) ->
          body = "return false;")
      /\ (~ has returned (TypeFlags_NumberLike ts) ->
          ~ has returned (TypeFlags_StringLike ts) ->
          ~ has returned (TypeFlags_BooleanLike ts) ->
          body = "").
Proof.
  intros signature parameter signature0 rest Hdoc HT Hsig returned printed.
  rewrite (render_anonymous _ _ Hdoc HT). unfold renderFunction. rewrite Hsig.
  fold typeChecker. fold returned. fold printed.
  destruct (truthy (bitand returned (TypeFlags_NumberLike ts))) eqn:En;
    [|destruct (truthy (bitand returned (TypeFlags_StringLike ts))) eqn:Es;
      [|destruct (truthy (bitand returned (TypeFlags_BooleanLike ts))) eqn:Eb]].
  - exists "return 0;". split; [reflexivity|].
    apply truthy_true in En. unfold has. repeat split; intros; try reflexivity; contradiction.
  - exists ("return " ++ String dquote (String dquote ";")). split; [reflexivity|].
    apply truthy_true in Es. unfold has.
    repeat split; intros; try reflexivity; try contradiction.
    rewrite has_truthy in En; [discriminate | assumption].
  - exists "return false;". split; [reflexivity|].
    apply truthy_true in Eb. unfold has.
    repeat split; intros; try reflexivity; try contradiction.
    + rewrite has_truthy in En; [discriminate | assumption].
    + rewrite has_truthy in Es; [discriminate | assumption].
  - exists "". split; [reflexivity|].
    repeat split; intros; try reflexivity.
    + rewrite has_truthy in En; [discriminate | assumption].
    + rewrite has_truthy in Es; [discriminate | assumption].
    + rewrite has_truthy in Eb; [discriminate | assumption].
Qed.

(** C4, amended.  Without a documentation example, a parameter whose
    type is an anonymous object type with no call signature gets the
    function literal with an empty parameter list and a body that holds
    the final tab stop alone. *)
Theorem anonymous_object_without_signature :
  forall (signature : Signature.t) (parameter : Symbol.t),
    paramExample (docOf parameter) = None ->
    AnonymousType ts (typeOf parameter) ->
    Type_.getCallSignatures (typeOf parameter) = [] ->
    render signature parameter =
      Normal (Some ("function () {" ++ String LF (String TAB "$0") ++ String LF "}")).
Proof.
  intros signature parameter Hdoc HT Hsig.
  rewrite (render_anonymous _ _ Hdoc HT). unfold renderFunction. rewrite Hsig.
  reflexivity.
Qed.

(** C3, amended.  Without a documentation example, for a parameter of
    an enum-literal type whose symbol has declarations: when the first
    enum declaration among them has a member and its first member, in
    source order, is named by a non-empty identifier, synthesis emits
    the name of the type's symbol, a dot and that identifier; when there
    is no enum declaration among them, or the first one has no member,
    or its first member is not named by an identifier, synthesis emits
    the placeholder of the parameter's name. *)
Theorem enum_first_member :
  forall (signature : Signature.t) (parameter symbol : Symbol.t)
         (declarations : list Declaration.t),
    paramExample (docOf parameter) = None ->
    EnumLiteralType ts (typeOf parameter) ->
    Type_.symbol (typeOf parameter) = Some symbol ->
    Symbol.getDeclarations symbol = Some declarations ->
    (forall d member others,
        FirstEnumDeclaration ts declarations d ->
        Declaration.members d = Some (member :: others) ->
        PropertyName.kind (EnumMember.name member) = SyntaxKind_Identifier ts ->
        PropertyName.text (EnumMember.name member) <> "" ->
        render signature parameter =
          Normal (Some (Symbol.name symbol ++ "."
                        ++ PropertyName.text (EnumMember.name member))))
    /\ (NoEnumDeclaration ts declarations ->
        render signature parameter = Normal (Some (placeholder (Symbol.name parameter))))
    /\ (forall d,
           FirstEnumDeclaration ts declarations d ->
           Declaration.members d = None \/ Declaration.members d = Some [] ->
           render signature parameter = Normal (Some (placeholder (Symbol.name parameter))))
    /\ (forall d member others,
           FirstEnumDeclaration ts declarations d ->
           Declaration.members d = Some (member :: others) ->
           PropertyName.kind (EnumMember.name member) <> SyntaxKind_Identifier ts ->
           render signature parameter = Normal (Some (placeholder (Symbol.name parameter)))).
Proof.
  intros signature parameter symbol declarations Hdoc HT Hsym Hdecl.
  rewrite (render_enum _ _ Hdoc HT). unfold enumValueOf. rewrite Hsym, Hdecl.
  repeat split.
  - intros d member others Hd Hm Hk Ht.
    rewrite (find_first _ _ Hd), Hm, Hk, Z.eqb_refl. cbn [bind].
    rewrite (truthyStr_nonempty _ Ht). reflexivity.
  - intros Hnone. rewrite (find_none _ Hnone). reflexivity.
  - intros d Hd [Hm|Hm]; rewrite (find_first _ _ Hd), Hm; reflexivity.
  - intros d member others Hd Hm Hk.
    rewrite (find_first _ _ Hd), Hm. apply Z.eqb_neq in Hk. rewrite Hk. reflexivity.
Qed.

End Render.

(** The sample parameters, with [Sample.ts2] and [Sample.sampleService]. *)

Abbreviation sampleRender :=
  (renderParameter Sample.ts2 Sample.sampleService Sample.moveSignature).
Abbreviation sampleTypeOf := (Spec.typeOf Sample.sampleChecker).

Ltac flag_set := unfold has; vm_compute; discriminate.
Ltac flag_clear :=
  unfold has; let H := fresh in intros H; apply H; vm_compute; reflexivity.
Ltac primitive :=
  unfold PrimitiveType;
  repeat match goal with
         | |- _ /\ _ => split
         | |- ~ has _ _ => flag_clear
         | |- Type_.intrinsicName _ = _ => reflexivity
         | |- has _ _ \/ _ => first [left; flag_set | right]
         | |- has _ _ => flag_set
         end.

Lemma primitive_defaults_witness :
  sampleRender (Sample.parameter "leds" "") =
    Normal (Some (imageLiteral [". . . . ."; ". . . . ."; ". . # . .";
                                ". . . . ."; ". . . . ."]))
  /\ sampleRender (Sample.parameter "text" "") =
       Normal (Some (String dquote (String dquote "")))
  /\ sampleRender (Sample.parameter "speed" "") = Normal (Some "0")
  /\ sampleRender (Sample.parameter "on" "") = Normal (Some "false").
Proof.
  split; [|split; [|split]].
  - apply (proj1 (primitive_defaults Sample.ts2 Sample.sampleService Sample.moveSignature
                    (Sample.parameter "leds" "") eq_refl)); [primitive | reflexivity].
  - apply (proj1 (proj2 (primitive_defaults Sample.ts2 Sample.sampleService
                           Sample.moveSignature (Sample.parameter "text" "") eq_refl)));
      [primitive | discriminate].
  - apply (proj1 (proj2 (proj2 (primitive_defaults Sample.ts2 Sample.sampleService
                                  Sample.moveSignature (Sample.parameter "speed" "")
                                  eq_refl)))); primitive.
  - apply (proj2 (proj2 (proj2 (primitive_defaults Sample.ts2 Sample.sampleService
                                  Sample.moveSignature (Sample.parameter "on" "")
                                  eq_refl)))); primitive.
Defined.

(** C8 as stated fails: the image literal a string parameter named
    [leds] gets is not blank, its centre cell is lit. *)
Lemma leds_image_is_not_blank :
  paramExample (Spec.docOf (Sample.parameter "leds" "")) = None
  /\ PrimitiveType Sample.ts2 (sampleTypeOf (Sample.parameter "leds" "")) "string"
  /\ exists image : string,
       sampleRender (Sample.parameter "leds" "") = Normal (Some image)
       /\ ~ Blank image.
Proof.
  split; [reflexivity|]. split; [primitive|].
  eexists. split; [reflexivity|].
  unfold Blank. intros H. apply H. cbn. tauto.
Qed.

(** A parameter typed [() => number] gets a function literal whose
    body returns 0. *)
Lemma function_literal_body_witness :
  exists body : string,
    sampleRender (Sample.parameter "handler" "") =
      Normal (Some ("function () {" ++ String LF (String TAB (body ++ "$0"))
                    ++ String LF "}"))
    /\ body = "return 0;".
Proof.
  destruct (function_literal_body Sample.ts2 Sample.sampleService Sample.moveSignature
              (Sample.parameter "handler" "") (Sample.signature [] 0) [])
    as (body & Hrender & Hnumber & _).
  - reflexivity.
  - unfold AnonymousType. split; [flag_clear|]. split; flag_set.
  - reflexivity.
  - exists body. split; [exact Hrender|]. apply Hnumber. flag_set.
Defined.

Lemma anonymous_object_without_signature_witness :
  sampleRender (Sample.parameter "opts" "") =
    Normal (Some ("function () {" ++ String LF (String TAB "$0") ++ String LF "}")).
Proof.
  apply (anonymous_object_without_signature Sample.ts2 Sample.sampleService).
  - reflexivity.
  - unfold AnonymousType. split; [flag_clear|]. split; flag_set.
  - reflexivity.
Defined.

(** C4 as stated fails: a parameter whose type is an object literal
    type, anonymous and without call signature, does not get the
    placeholder of its name. *)
Lemma object_literal_gets_function_literal :
  paramExample (Spec.docOf (Sample.parameter "opts" "")) = None
  /\ AnonymousType Sample.ts2 (sampleTypeOf (Sample.parameter "opts" ""))
  /\ Type_.getCallSignatures (sampleTypeOf (Sample.parameter "opts" "")) = []
  /\ sampleRender (Sample.parameter "opts" "") <> Normal (Some (placeholder "opts")).
Proof.
  split; [reflexivity|]. split.
  - unfold AnonymousType. split; [flag_clear|]. split; flag_set.
  - split; [reflexivity|]. vm_compute. discriminate.
Qed.

Lemma enum_first_member_witness :
  sampleRender (Sample.parameter "dir" "") = Normal (Some "Direction.Forward")
  /\ sampleRender (Sample.parameter "hollow" "") = Normal (Some (placeholder "hollow"))
  /\ sampleRender (Sample.parameter "weird" "") = Normal (Some (placeholder "weird")).
Proof.
  split; [|split].
  - apply (proj1 (enum_first_member Sample.ts2 Sample.sampleService Sample.moveSignature
                    (Sample.parameter "dir" "") Sample.Direction
                    [Sample.enumDeclaration [Sample.identifier "Forward";
                                             Sample.identifier "Back"]]
                    eq_refl ltac:(unfold EnumLiteralType; flag_set) eq_refl eq_refl)
             (Sample.enumDeclaration [Sample.identifier "Forward"; Sample.identifier "Back"])
             (Sample.identifier "Forward") [Sample.identifier "Back"]).
    + exists [], []. repeat split. constructor.
    + reflexivity.
    + reflexivity.
    + discriminate.
  - apply (proj1 (proj2 (proj2 (enum_first_member Sample.ts2 Sample.sampleService
                    Sample.moveSignature (Sample.parameter "hollow" "") Sample.Hollow
                    [Sample.enumDeclaration []]
                    eq_refl ltac:(unfold EnumLiteralType; flag_set) eq_refl eq_refl)))
             (Sample.enumDeclaration [])).
    + exists [], []. repeat split. constructor.
    + now right.
  - apply (proj2 (proj2 (proj2 (enum_first_member Sample.ts2 Sample.sampleService
                    Sample.moveSignature (Sample.parameter "weird" "") Sample.Weird
                    [Sample.enumDeclaration [Sample.stringLiteral "a-b";
                                             Sample.identifier "C"]]
                    eq_refl ltac:(unfold EnumLiteralType; flag_set) eq_refl eq_refl)))
             (Sample.enumDeclaration [Sample.stringLiteral "a-b"; Sample.identifier "C"])
             (Sample.stringLiteral "a-b") [Sample.identifier "C"]).
    + exists [], []. repeat split. constructor.
    + reflexivity.
    + vm_compute. discriminate.
Defined.

(** C3 as stated fails: the enum [Weird] has one declaration, whose
    first member is named by the string literal [a-b]; a parameter of
    that type gets the placeholder of its name, not [Weird.a-b]. *)
Lemma string_named_first_member :
  paramExample (Spec.docOf (Sample.parameter "weird" "")) = None
  /\ EnumLiteralType Sample.ts2 (sampleTypeOf (Sample.parameter "weird" ""))
  /\ Type_.symbol (sampleTypeOf (Sample.parameter "weird" "")) = Some Sample.Weird
  /\ Symbol.name Sample.Weird = "Weird"
  /\ (exists d others,
         Symbol.getDeclarations Sample.Weird = Some [d]
         /\ Declaration.kind d = SyntaxKind_EnumDeclaration Sample.ts2
         /\ Declaration.members d = Some (Sample.stringLiteral "a-b" :: others))
  /\ sampleRender (Sample.parameter "weird" "") <> Normal (Some "Weird.a-b")
  /\ sampleRender (Sample.parameter "weird" "") = Normal (Some (placeholder "weird")).
Proof.
  split; [reflexivity|]. split; [unfold EnumLiteralType; flag_set|].
  split; [reflexivity|]. split; [reflexivity|]. split.
  - eexists _, _. repeat split.
  - split; [vm_compute; discriminate | reflexivity].
Qed.

(** C2 fails on the enum branch: the length of the declarations is read
    without a guard, so a parameter of an enum-literal type whose symbol
    has no declarations makes synthesis throw. *)
Theorem renderParameter_throws_without_declarations :
  Symbol.getDeclarations Sample.Broken = None
  /\ Type_.symbol (sampleTypeOf (Sample.parameter "broken" "")) = Some Sample.Broken
  /\ sampleRender (Sample.parameter "broken" "") = Throw TypeError.
Proof. repeat split. Qed.

End RenderFacts.

(** *** The signature driver *)

Module SnippetFacts.

Import Js Ts Worker Spec.

Lemma slice0_required {A : Type} (a : list A) (k : nat) :
  (k <= List.length a)%nat -> slice0 a (Z.of_nat k) = firstn k a.
Proof.
  intros Hk. unfold slice0.
  destruct (Z.of_nat k <? 0)%Z eqn:E; [apply Z.ltb_lt in E; lia|].
  rewrite Z.min_l by lia. now rewrite Nat2Z.id.
Qed.

Lemma forEachPush_normal {A B : Type} (f : A -> outcome B) (l : list A) :
  (forall a, In a l -> f a <> Throw TypeError) ->
  exists bs : list B,
    forEachPush f l = Normal bs /\ Forall2 (fun a b => f a = Normal b) l bs.
Proof.
  induction l as [|a l IH]; intros Hf; simpl.
  - exists []. split; [reflexivity | constructor].
  - destruct (f a) as [b|[]] eqn:Ea.
    + destruct IH as (bs & Hbs & Hall); [intros; apply Hf; now right|].
      exists (b :: bs). simpl. rewrite Hbs. simpl. split; [reflexivity|].
      now constructor.
    + exfalso. apply (Hf a); [now left | exact Ea].
Qed.

Lemma Forall2_length_eq {A B : Type} (R : A -> B -> Prop) (l : list A) (l' : list B) :
  Forall2 R l l' -> List.length l' = List.length l.
Proof. induction 1; simpl; congruence. Qed.

Section Snippet.

Variable ts : TsConstants.
Variable languageService : LanguageService.

Let typeChecker : TypeChecker := getTypeChecker languageService.

Abbreviation typeOf := (Spec.typeOf typeChecker).

(** When the method has found its symbol, it returns the entry details
    paired with the snippet of the symbol. *)
Lemma details_and_snippet (fileName : string) (position : Z) (entry label : string)
      (parent : option string) (symbol : Symbol.t) (snippet : string) :
  completionSymbol languageService fileName position entry parent = Normal (Some symbol) ->
  codeSnippetOf ts languageService label symbol = Normal snippet ->
  exists details : CompletionEntryDetails,
    getCompletionEntryDetailsAndSnippet ts languageService fileName position entry label
                                        parent
    = Normal (Some (details, snippet)).
Proof.
  intros Hsym Hsnip. unfold getCompletionEntryDetailsAndSnippet.
  rewrite Hsym. cbn [bind]. rewrite Hsnip. cbn [bind]. eexists. reflexivity.
Qed.

(** C9.  For a symbol the method has found: when the symbol's type has
    no call signature the snippet is the label, unchanged; when the
    symbol is callable (it has a value declaration, and its type there
    has call signatures) and its first signature has no required
    parameter, the snippet is the label followed by [()]. *)
Theorem snippet_without_arguments :
  forall (fileName : string) (position : Z) (entry label : string)
         (parent : option string) (symbol : Symbol.t),
    completionSymbol languageService fileName position entry parent
    = Normal (Some symbol) ->
    (Type_.getCallSignatures (typeOf symbol) = [] ->
     exists details : CompletionEntryDetails,
       getCompletionEntryDetailsAndSnippet ts languageService fileName position entry
                                           label parent
       = Normal (Some (details, label)))
    /\ (forall (declaration : Declaration.t) (signature : Signature.t)
               (others : list Signature.t),
           Symbol.valueDeclaration symbol = Some declaration ->
           Declaration.kind declaration <> 0%Z ->
           Type_.getCallSignatures (typeOf symbol) = signature :: others ->
           Signature.minArgumentCount signature = 0%Z ->
           exists details : CompletionEntryDetails,
             getCompletionEntryDetailsAndSnippet ts languageService fileName position
                                                 entry label parent
             = Normal (Some (details, label ++ "()"))).
Proof.
  intros fileName position entry label parent symbol Hsym. split.
  - intros Hsigs. apply (details_and_snippet _ _ _ _ _ _ _ Hsym).
    unfold codeSnippetOf. unfold Spec.typeOf in Hsigs. fold typeChecker.
    destruct (Symbol.valueDeclaration symbol) as [declaration|]; [|reflexivity].
    destruct (truthy (Declaration.kind declaration)); [|reflexivity].
    now rewrite Hsigs.
  - intros declaration signature others Hdecl Hkind Hsigs Hmin.
    apply (details_and_snippet _ _ _ _ _ _ _ Hsym).
    unfold codeSnippetOf. unfold Spec.typeOf in Hsigs. rewrite Hdecl in *.
    apply RenderFacts.truthy_true in Hkind. rewrite Hkind.
    fold typeChecker. rewrite Hsigs, Hmin.
    change 0%Z with (Z.of_nat 0). rewrite slice0_required by apply Nat.le_0_l.
    reflexivity.
Qed.

Lemma forEachPush_texts {A : Type} (f : A -> outcome (option string)) (l : list A)
      (texts : list string) :
  Forall2 (fun a text => f a = Normal (Some text)) l texts ->
  forEachPush f l = Normal (map Some texts).
Proof.
  induction 1 as [|a text l texts Ha _ IH]; simpl; [reflexivity|].
  rewrite Ha. cbn [bind]. rewrite IH. reflexivity.
Qed.

Lemma join_texts (sep : string) (texts : list string) :
  join sep (map Some texts) = String.concat sep texts.
Proof.
  induction texts as [|text texts IH]; [reflexivity|].
  destruct texts as [|text' texts]; [reflexivity|].
  change (join sep (map Some (text :: text' :: texts)))
    with (text ++ sep ++ join sep (map Some (text' :: texts))).
  now rewrite IH.
Qed.

(** X29.  For a callable symbol the method has found, whose first call
    signature has [k] required parameters, each of which synthesis
    gives a text: the snippet is the label followed, between
    parentheses, by exactly these [k] texts in the order of the
    parameters, separated by a comma and a space; the parameters after
    the [k]-th contribute nothing. *)
Theorem snippet_of_rendered_texts :
  forall (fileName : string) (position : Z) (entry label : string)
         (parent : option string) (symbol : Symbol.t)
         (declaration : Declaration.t) (signature : Signature.t)
         (others : list Signature.t) (k : nat) (texts : list string),
    completionSymbol languageService fileName position entry parent
    = Normal (Some symbol) ->
    Symbol.valueDeclaration symbol = Some declaration ->
    Declaration.kind declaration <> 0%Z ->
    Type_.getCallSignatures (typeOf symbol) = signature :: others ->
    Signature.minArgumentCount signature = Z.of_nat k ->
    (k <= List.length (Signature.parameters signature))%nat ->
    Forall2 (fun parameter text =>
               renderParameter ts languageService signature parameter
               = Normal (Some text))
            (firstn k (Signature.parameters signature)) texts ->
    List.length texts = k
    /\ exists details : CompletionEntryDetails,
         getCompletionEntryDetailsAndSnippet ts languageService fileName position entry
                                             label parent
         = Normal (Some (details, label ++ "(" ++ String.concat ", " texts ++ ")")).
Proof.
  intros fileName position entry label parent symbol declaration signature others k texts
         Hsym Hdecl Hkind Hsigs Hmin Hk Hall.
  split.
  { rewrite (Forall2_length_eq _ _ _ Hall). now apply firstn_length_le. }
  apply (details_and_snippet _ _ _ _ _ _ _ Hsym).
  unfold codeSnippetOf. unfold Spec.typeOf in Hsigs. rewrite Hdecl in *.
  apply RenderFacts.truthy_true in Hkind. rewrite Hkind.
  fold typeChecker. rewrite Hsigs, Hmin.
  rewrite (slice0_required _ _ Hk), (forEachPush_texts _ _ _ Hall). cbn [bind].
  rewrite <- join_texts. destruct texts as [|text texts]; reflexivity.
Qed.

End Snippet.

Lemma snippet_without_arguments_witness :
  (exists details : CompletionEntryDetails,
      getCompletionEntryDetailsAndSnippet Sample.ts2 Sample.sampleService "main.ts" 0
                                          "Direction" "Direction" None
      = Normal (Some (details, "Direction")))
  /\ (exists details : CompletionEntryDetails,
         getCompletionEntryDetailsAndSnippet Sample.ts2 Sample.sampleService "main.ts" 0
                                             "stop" "stop" None
         = Normal (Some (details, "stop()"))).
Proof.
  split.
  - apply (proj1 (snippet_without_arguments Sample.ts2 Sample.sampleService "main.ts" 0
                    "Direction" "Direction" None Sample.Direction eq_refl)).
    reflexivity.
  - apply (proj2 (snippet_without_arguments Sample.ts2 Sample.sampleService "main.ts" 0
                    "stop" "stop" None (Sample.function "stop") eq_refl)
             (Sample.node Sample.FunctionDeclarationKind) Sample.stopSignature []).
    + reflexivity.
    + discriminate.
    + reflexivity.
    + reflexivity.
Defined.

(** [move(speed: number, dir: Direction, times?: number)] has two
    required parameters. *)
Lemma snippet_of_rendered_texts_witness :
  List.length ["0"; "Direction.Forward"] = 2%nat
  /\ exists details : CompletionEntryDetails,
       getCompletionEntryDetailsAndSnippet Sample.ts2 Sample.sampleService "main.ts" 0
                                           "move" "move" None
       = Normal (Some (details, "move" ++ "(" ++ "0, Direction.Forward" ++ ")")).
Proof.
  apply (snippet_of_rendered_texts Sample.ts2 Sample.sampleService "main.ts" 0 "move"
           "move" None (Sample.function "move") (Sample.node Sample.FunctionDeclarationKind)
           Sample.moveSignature [] 2 ["0"; "Direction.Forward"]).
  - reflexivity.
  - reflexivity.
  - discriminate.
  - reflexivity.
  - reflexivity.
  - simpl. lia.
  - constructor; [reflexivity|]. constructor; [reflexivity|]. constructor.
Defined.

(** C1 fails where synthesis returns [undefined], which [join] turns
    into an empty text.  [say(text: string)] has one required
    parameter, documented with empty quotes, and its snippet is the call
    without argument; [echo(text: string, speed: number)] has two, and
    its snippet holds an empty place before the comma. *)
Theorem undefined_argument_is_lost :
  Signature.minArgumentCount Sample.saySignature = 1%Z
  /\ renderParameter Sample.ts2 Sample.sampleService Sample.saySignature
                     (Sample.parameter "text" Sample.emptyQuotes)
     = Normal None
  /\ (exists details : CompletionEntryDetails,
         getCompletionEntryDetailsAndSnippet Sample.ts2 Sample.sampleService "main.ts" 0
                                             "say" "say" None
         = Normal (Some (details, "say()")))
  /\ Signature.minArgumentCount MoreSamples.echoSignature = 2%Z
  /\ (exists details : CompletionEntryDetails,
         getCompletionEntryDetailsAndSnippet Sample.ts2 MoreSamples.echoService "main.ts" 0
                                             "echo" "echo" None
         = Normal (Some (details, "echo(, 0)"))).
Proof.
  split; [reflexivity|]. split; [reflexivity|].
  split; [eexists; reflexivity|]. split; [reflexivity|].
  eexists; reflexivity.
Qed.

(** The sample call, end to end. *)
Example move_snippet :
  option_map snd
    (match getCompletionEntryDetailsAndSnippet Sample.ts2 Sample.sampleService "main.ts" 0
                                               "move" "move" None with
     | Normal r => r
     | Throw _ => None
     end)
  = Some "move(0, Direction.Forward)".
Proof. reflexivity. Qed.

End SnippetFacts.

(** *** More of the string library *)

Module TextFacts.

Import Js Spec RegexFacts.

Lemma take_drop (n : nat) (s : string) : take n s ++ drop n s = s.
Proof.
  revert s. induction n as [|n IH]; intros [|a s]; simpl; try reflexivity.
  now rewrite IH.
Qed.

Lemma length_take (n : nat) (s : string) :
  String.length (take n s) = Nat.min n (String.length s).
Proof.
  revert s. induction n as [|n IH]; intros [|a s]; simpl; try reflexivity.
  now rewrite IH.
Qed.

Lemma length_drop (n : nat) (s : string) :
  String.length (drop n s) = (String.length s - n)%nat.
Proof.
  revert s. induction n as [|n IH]; intros [|a s]; simpl; try reflexivity.
  now rewrite IH.
Qed.

Lemma take_all (n : nat) (s : string) :
  (String.length s <= n)%nat -> take n s = s.
Proof.
  revert s. induction n as [|n IH]; intros [|a s]; simpl; intros H;
    try reflexivity; try lia.
  rewrite IH; [reflexivity | lia].
Qed.

Lemma take_take_drop (n m : nat) (s : string) :
  take n s ++ take m (drop n s) = take (n + m) s.
Proof.
  revert s. induction n as [|n IH]; intros s; simpl.
  - destruct s; reflexivity.
  - destruct s as [|a s]; simpl.
    + destruct m; reflexivity.
    + now rewrite IH.
Qed.

Lemma drop_drop (n m : nat) (s : string) : drop m (drop n s) = drop (n + m) s.
Proof.
  revert s. induction n as [|n IH]; intros s; simpl.
  - destruct s; reflexivity.
  - destruct s as [|a s]; simpl; [destruct m; reflexivity | apply IH].
Qed.

Lemma drop_append (a b : string) : drop (String.length a) (a ++ b) = b.
Proof. induction a as [|x a IH]; simpl; [destruct b; reflexivity | exact IH]. Qed.

(** [substring] between positions within the string, in order. *)
Lemma substring_ordered (s : string) (a b : Z) :
  (0 <= a <= b)%Z -> (b <= len s)%Z ->
  substring s a b = take (Z.to_nat b - Z.to_nat a) (drop (Z.to_nat a) s).
Proof.
  intros Ha Hb. unfold substring.
  rewrite (Z.max_l a 0), (Z.max_l b 0), (Z.min_l a), (Z.min_l b), Z.min_l, Z.max_r by lia.
  now rewrite Z2Nat.inj_sub by lia.
Qed.

Lemma substring_swap (s : string) (a b : Z) : substring s a b = substring s b a.
Proof.
  unfold substring.
  now rewrite (Z.min_comm (Z.min (Z.max a 0) (len s))),
    (Z.max_comm (Z.min (Z.max a 0) (len s))).
Qed.

Lemma substring_whole (s : string) : substring s 0 (len s) = s.
Proof.
  unfold len. rewrite substring_ordered by (unfold len; lia).
  simpl. rewrite Nat2Z.id, Nat.sub_0_r. destruct s; [reflexivity|].
  apply take_all. lia.
Qed.

Lemma substring_split (s : string) (a b c : Z) :
  (0 <= a <= b)%Z -> (b <= c <= len s)%Z ->
  substring s a b ++ substring s b c = substring s a c.
Proof.
  intros Ha Hc. rewrite !substring_ordered by lia.
  replace (drop (Z.to_nat b) s)
    with (drop (Z.to_nat b - Z.to_nat a) (drop (Z.to_nat a) s)).
  - rewrite take_take_drop. f_equal. lia.
  - rewrite drop_drop. f_equal. lia.
Qed.

Lemma substring_length (s : string) (a b : Z) :
  (0 <= a <= b)%Z -> (b <= len s)%Z -> len (substring s a b) = (b - a)%Z.
Proof.
  intros Ha Hb. rewrite substring_ordered by lia. unfold len in *.
  rewrite length_take, length_drop. lia.
Qed.

(** The last occurrence of a character. *)
Lemma lastIndexOfFrom_none (c : ascii) (s : string) (i : Z) :
  every (fun x => negb (Ascii.eqb x c)) s = true ->
  lastIndexOfFrom (String c "") s i = (-1)%Z.
Proof.
  revert i. induction s as [|x s IH]; intros i H; simpl in *.
  - reflexivity.
  - apply andb_prop in H as [Hx Hs]. rewrite (IH _ Hs). simpl.
    apply negb_true_iff in Hx. rewrite Ascii.eqb_sym, Hx. reflexivity.
Qed.

Lemma lastIndexOfFrom_last (c : ascii) (stem ext : string) (i : Z) :
  (0 <= i)%Z ->
  every (fun x => negb (Ascii.eqb x c)) ext = true ->
  lastIndexOfFrom (String c "") (stem ++ String c ext) i = (i + len stem)%Z.
Proof.
  intros Hi Hext. revert i Hi. induction stem as [|x stem IH]; intros i Hi.
  - cbn [append lastIndexOfFrom]. rewrite (lastIndexOfFrom_none c ext _ Hext).
    cbn. rewrite Ascii.eqb_refl. unfold len. simpl. lia.
  - cbn [append lastIndexOfFrom]. rewrite IH by lia.
    assert (H : (0 <=? i + 1 + len stem)%Z = true) by (apply Z.leb_le; unfold len; lia).
    rewrite H. unfold len. simpl String.length. lia.
Qed.

Lemma suffix_after_period (stem ext : string) :
  every (fun x => negb (Ascii.eqb x ".")) ext = true ->
  substrFrom (stem ++ "." ++ ext) (lastIndexOf (stem ++ "." ++ ext) "." + 1) = ext.
Proof.
  intros Hext. unfold lastIndexOf. cbn [append].
  rewrite (lastIndexOfFrom_last "." stem ext 0 (Z.le_refl 0) Hext).
  unfold substrFrom.
  assert (Hlen : len (stem ++ String "." ext) = (len stem + 1 + len ext)%Z).
  { unfold len. rewrite length_append. simpl. lia. }
  assert (H : (0 + len stem + 1 <? 0)%Z = false) by (apply Z.ltb_ge; unfold len; lia).
  rewrite H, Z.min_l by (unfold len in *; lia).
  replace (Z.to_nat (0 + len stem + 1)) with (String.length (stem ++ ".")).
  - change (stem ++ String "." ext) with (stem ++ "." ++ ext).
    rewrite <- (drop_append (stem ++ ".") ext) at 2.
    f_equal. clear. induction stem; simpl; [reflexivity | now f_equal].
  - rewrite length_append. unfold len. simpl. lia.
Qed.

Lemma suffix_without_period (name : string) :
  every (fun x => negb (Ascii.eqb x ".")) name = true ->
  substrFrom name (lastIndexOf name "." + 1) = name.
Proof.
  intros H. unfold lastIndexOf. rewrite (lastIndexOfFrom_none "." name 0 H).
  unfold substrFrom. simpl. rewrite Z.min_l by (unfold len; lia). reflexivity.
Qed.

End TextFacts.

(** *** The language service host *)

Module HostFacts.

Import Js Host MoreSpec TextFacts Spec.

Section Facts.

Variable ScriptTarget_ES5 : Z.
Variable libdts : string.
Variable libes6ts : string.
Variable models : list IMirrorModel.
Variable createData : ICreateData.
Variable inherited : list string.

Abbreviation snapshot := (getScriptSnapshot libdts libes6ts models createData inherited).
Abbreviation scriptVersion :=
  (getScriptVersion ScriptTarget_ES5 models createData inherited).
Abbreviation defaultLib :=
  (getDefaultLibFileName ScriptTarget_ES5 (compilerOptions createData)).

Lemma firstModel_first (l : list IMirrorModel) (fileName : string) (model : IMirrorModel) :
  FirstModel l fileName model <-> firstModel l fileName = Some model.
Proof.
  split.
  - intros (before & after & -> & Huri & Hb).
    induction Hb as [|m before Hm _ IH]; simpl.
    + now rewrite Huri, String.eqb_refl.
    + apply String.eqb_neq in Hm. now rewrite Hm.
  - induction l as [|m l IH]; simpl; [discriminate|].
    destruct (uri m =? fileName)%string eqn:E.
    + intros H. injection H as ->. apply String.eqb_eq in E.
      exists [], l. repeat split; [assumption | constructor].
    + intros H. destruct (IH H) as (before & after & -> & Huri & Hb).
      exists (m :: before), after. repeat split; [assumption|].
      constructor; [now apply String.eqb_neq | assumption].
Qed.

Lemma firstModel_none (l : list IMirrorModel) (fileName : string) :
  NoModel l fileName <-> firstModel l fileName = None.
Proof.
  unfold NoModel. induction l as [|m l IH]; simpl.
  - split; [reflexivity | constructor].
  - destruct (uri m =? fileName)%string eqn:E.
    + apply String.eqb_eq in E. split; [|discriminate].
      intros H. inversion H. contradiction.
    + apply String.eqb_neq in E. rewrite <- IH. split.
      * intros H. now inversion H.
      * intros H. now constructor.
Qed.

Lemma firstModel_In (l : list IMirrorModel) (fileName : string) :
  In fileName (map uri l) -> exists model, firstModel l fileName = Some model.
Proof.
  induction l as [|m l IH]; simpl; [contradiction|].
  destruct (uri m =? fileName)%string eqn:E; [eauto|].
  apply String.eqb_neq in E. intros [H|H]; [contradiction | auto].
Qed.

Lemma lookupLib_In (object : list (string * string)) (fileName : string) :
  In fileName (map fst object) -> exists text, lookupLib object fileName = Some text.
Proof.
  induction object as [|[key text] object IH]; simpl; [contradiction|].
  destruct (key =? fileName)%string eqn:E; [eauto|].
  apply String.eqb_neq in E. intros [H|H]; [contradiction | auto].
Qed.

Lemma inherited_In (fileName : string) :
  existsb (String.eqb fileName) inherited = true <-> In fileName inherited.
Proof.
  rewrite existsb_exists. split.
  - intros (name & Hin & Heq). apply String.eqb_eq in Heq. now subst.
  - intros Hin. exists fileName. split; [assumption | apply String.eqb_refl].
Qed.

Lemma not_inherited (fileName : string) :
  existsb (String.eqb fileName) inherited = false <-> ~ In fileName inherited.
Proof.
  rewrite <- inherited_In. destruct (existsb _ _); split; congruence.
Qed.

(** X1.  Every file name the host lists has a version and a snapshot,
    which is the snapshot of a text. *)
Theorem listed_files_are_served :
  forall fileName : string,
    In fileName (getScriptFileNames models createData) ->
    (exists s : IScriptSnapshot, snapshot fileName = Some (TextSnapshot s))
    /\ (exists v : string, scriptVersion fileName = Some v).
Proof.
  intros fileName H. unfold getScriptFileNames in H. apply in_app_or in H.
  unfold getScriptSnapshot, getScriptVersion, _getModel.
  destruct (firstModel models fileName) as [model|] eqn:Em.
  - split; eexists; reflexivity.
  - destruct H as [H|H].
    + apply firstModel_In in H as (model & H). congruence.
    + apply lookupLib_In in H as (text & H). unfold inLibs. rewrite H.
      split; [eexists; reflexivity|]. rewrite orb_true_r. eexists; reflexivity.
Qed.

(** X2.  What the snapshot of a text serves: pieces that join up, that
    have the length asked for, and that do not depend on the order of
    the two positions. *)
Theorem snapshot_pieces :
  forall (fileName : string) (s : IScriptSnapshot),
    snapshot fileName = Some (TextSnapshot s) ->
    (forall a b c : Z,
        (0 <= a <= b)%Z -> (b <= c <= getLength s)%Z ->
        getText s a b ++ getText s b c = getText s a c)
    /\ (forall a b : Z,
           (0 <= a <= b)%Z -> (b <= getLength s)%Z -> len (getText s a b) = (b - a)%Z)
    /\ (forall a b : Z, getText s a b = getText s b a)
    /\ len (fullText s) = getLength s.
Proof.
  intros fileName s H.
  assert (Htext : exists text, s = snapshotOf text).
  { unfold getScriptSnapshot in H.
    destruct (_getModel models fileName) as [model|].
    - injection H as <-. eauto.
    - destruct (inLibs inherited fileName (_extraLibs createData)).
      + destruct (lookupLib (_extraLibs createData) fileName) as [text|];
          [|discriminate]. injection H as <-. eauto.
      + destruct (fileName =? DEFAULT_LIB_NAME)%string; [injection H as <-; eauto|].
        destruct (fileName =? ES6_LIB_NAME)%string; [injection H as <-; eauto|].
        discriminate. }
  destruct Htext as (text & ->). unfold fullText. cbn [getText getLength snapshotOf].
  split; [|split; [|split]].
  - intros a b c Ha Hc. now apply substring_split.
  - intros a b Ha Hb. now apply substring_length.
  - intros a b. apply substring_swap.
  - now rewrite substring_whole.
Qed.

(** X3.  Where the text comes from: a model before an extra library, an
    extra library before the default libraries. *)
Theorem snapshot_source :
  forall fileName : string,
    (forall model : IMirrorModel,
        FirstModel models fileName model ->
        exists s : IScriptSnapshot,
          snapshot fileName = Some (TextSnapshot s)
          /\ fullText s = getValue model
          /\ scriptVersion fileName = Some (numberToString (version model)))
    /\ (forall text : string,
           NoModel models fileName ->
           lookupLib (extraLibs createData) fileName = Some text ->
           exists s : IScriptSnapshot,
             snapshot fileName = Some (TextSnapshot s)
             /\ fullText s = text
             /\ scriptVersion fileName = Some "1").
Proof.
  intros fileName. split.
  - intros model H. apply firstModel_first in H.
    unfold getScriptSnapshot, getScriptVersion, _getModel. rewrite H.
    eexists. split; [reflexivity|]. split; [apply substring_whole | reflexivity].
  - intros text Hm Hl. apply firstModel_none in Hm.
    unfold getScriptSnapshot, getScriptVersion, _getModel, inLibs, _extraLibs.
    rewrite Hm, Hl. eexists. split; [reflexivity|].
    split; [apply substring_whole | now rewrite orb_true_r].
Qed.

(** X4.  A file with a version has a snapshot; a file has a snapshot and no
    version exactly when it is the default library the target does not
    select, and no model has its name, and it is neither a key of the
    extra libraries nor a name they inherit. *)
Theorem snapshot_without_version :
  forall fileName : string,
    (forall v : string,
        scriptVersion fileName = Some v ->
        exists s : Snapshot, snapshot fileName = Some s)
    /\ ((exists s : Snapshot, snapshot fileName = Some s)
         /\ scriptVersion fileName = None
        <-> NoModel models fileName
            /\ lookupLib (extraLibs createData) fileName = None
            /\ ~ In fileName inherited
            /\ (fileName = DEFAULT_LIB_NAME \/ fileName = ES6_LIB_NAME)
            /\ fileName <> defaultLib).
Proof.
  intros fileName.
  unfold getScriptSnapshot, getScriptVersion, _getModel, inLibs, _extraLibs,
    isDefaultLibFileName, _compilerOptions.
  rewrite (firstModel_none models fileName).
  destruct (firstModel models fileName) as [model|] eqn:Em.
  { split; [intros; eexists; reflexivity|].
    split; [intros [_ H]; discriminate | intros [H _]; discriminate]. }
  destruct (lookupLib (extraLibs createData) fileName) as [text|] eqn:El.
  { rewrite orb_true_r. split; [intros; eexists; reflexivity|].
    split; [intros [_ H]; discriminate | intros (_ & H & _); discriminate]. }
  rewrite <- not_inherited.
  destruct (existsb (String.eqb fileName) inherited) eqn:Ei.
  { rewrite orb_true_r. split; [intros; eexists; reflexivity|].
    split; [intros [_ H]; discriminate | intros (_ & _ & H & _); discriminate]. }
  rewrite orb_false_r.
  assert (Hdefault : defaultLib = DEFAULT_LIB_NAME \/ defaultLib = ES6_LIB_NAME).
  { unfold getDefaultLibFileName. destruct (target (compilerOptions createData)) as [t|];
      [destruct (t <=? ScriptTarget_ES5)%Z|]; auto. }
  destruct (fileName =? defaultLib)%string eqn:Ed.
  - apply String.eqb_eq in Ed. split.
    + intros v _. rewrite Ed.
      destruct Hdefault as [-> | ->]; eexists; reflexivity.
    + split; [intros [_ H]; discriminate | intros (_ & _ & _ & _ & H); contradiction].
  - apply String.eqb_neq in Ed. split; [discriminate|]. split.
    + intros [[s Hs] _]. repeat split; try assumption.
      destruct (fileName =? DEFAULT_LIB_NAME)%string eqn:E1;
        [left; now apply String.eqb_eq|].
      destruct (fileName =? ES6_LIB_NAME)%string eqn:E2;
        [right; now apply String.eqb_eq | discriminate].
    + intros (_ & _ & _ & [-> | ->] & _); (split; [eexists; reflexivity | reflexivity]).
Qed.

(** X5.  No snapshot: exactly the names that are neither a model's, nor a
    key of the extra libraries, nor a name these inherit, nor a default
    library's. *)
Theorem snapshot_undefined :
  forall fileName : string,
    snapshot fileName = None
    <-> NoModel models fileName
        /\ lookupLib (extraLibs createData) fileName = None
        /\ ~ In fileName inherited
        /\ fileName <> DEFAULT_LIB_NAME /\ fileName <> ES6_LIB_NAME.
Proof.
  intros fileName. unfold getScriptSnapshot, _getModel, inLibs, _extraLibs.
  rewrite (firstModel_none models fileName).
  destruct (firstModel models fileName) as [model|] eqn:Em.
  { split; [discriminate | intros [H _]; discriminate]. }
  destruct (lookupLib (extraLibs createData) fileName) as [text|] eqn:El.
  { split; [discriminate | intros (_ & H & _); discriminate]. }
  rewrite <- not_inherited.
  destruct (existsb (String.eqb fileName) inherited) eqn:Ei.
  { split; [discriminate | intros (_ & _ & H & _); discriminate]. }
  destruct (fileName =? DEFAULT_LIB_NAME)%string eqn:E1.
  { apply String.eqb_eq in E1. split; [discriminate|].
    intros (_ & _ & _ & H & _); contradiction. }
  destruct (fileName =? ES6_LIB_NAME)%string eqn:E2.
  { apply String.eqb_eq in E2. split; [discriminate|].
    intros (_ & _ & _ & _ & H); contradiction. }
  apply String.eqb_neq in E1, E2. split; [intros _; auto | reflexivity].
Qed.

(** X6.  A name the extra libraries inherit from their prototype, when
    it is neither a model's nor one of their keys: the host does not
    list it, yet gives it the version 1, and a snapshot that is built
    around a member of the prototype, not around a text. *)
Theorem inherited_name_is_served :
  forall fileName : string,
    NoModel models fileName ->
    lookupLib (extraLibs createData) fileName = None ->
    In fileName inherited ->
    ~ In fileName (getScriptFileNames models createData)
    /\ scriptVersion fileName = Some "1"
    /\ snapshot fileName = Some (MemberSnapshot fileName).
Proof.
  intros fileName Hm Hl Hi.
  assert (Hin : inLibs inherited fileName (extraLibs createData) = true).
  { unfold inLibs. rewrite Hl. now apply inherited_In. }
  split; [|split].
  - unfold getScriptFileNames. intros H. apply in_app_or in H as [H|H].
    + apply firstModel_In in H as (model & H).
      apply firstModel_none in Hm. congruence.
    + apply lookupLib_In in H as (text & H). unfold _extraLibs in H. congruence.
  - apply firstModel_none in Hm.
    unfold getScriptVersion, _getModel, _extraLibs. rewrite Hm, Hin.
    now rewrite orb_true_r.
  - apply firstModel_none in Hm.
    unfold getScriptSnapshot, _getModel, _extraLibs. now rewrite Hm, Hin, Hl.
Qed.

(** The kind of a file is decided by its suffix. *)
Lemma kind_of_suffix (fileName suffix : string) :
  substrFrom fileName (lastIndexOf fileName "." + 1) = suffix ->
  getScriptKind createData fileName
  = if (suffix =? "ts")%string then TS
    else if (suffix =? "tsx")%string then TSX
    else if (suffix =? "js")%string then JS
    else if (suffix =? "jsx")%string then JSX
    else match allowJs (compilerOptions createData) with
         | Some true => JS
         | _ => TS
         end.
Proof.
  intros Hsuffix. unfold getScriptKind. rewrite Hsuffix. clear Hsuffix.
  unfold getCompilationSettings, _compilerOptions.
  destruct (suffix =? "ts")%string eqn:E1; [apply String.eqb_eq in E1; now subst|].
  destruct (suffix =? "tsx")%string eqn:E2; [apply String.eqb_eq in E2; now subst|].
  destruct (suffix =? "js")%string eqn:E3; [apply String.eqb_eq in E3; now subst|].
  destruct (suffix =? "jsx")%string eqn:E4; [apply String.eqb_eq in E4; now subst|].
  apply String.eqb_neq in E1, E2, E3, E4.
  repeat match goal with
         | |- context [match ?s with EmptyString => _ | String _ _ => _ end] =>
             is_var s; destruct s as [|? s]; try reflexivity
         | |- context [match ?c with Ascii _ _ _ _ _ _ _ _ => _ end] =>
             is_var c; destruct c as [[] [] [] [] [] [] [] []]; try reflexivity
         end; congruence.
Qed.

(** X7.  The kind of a file is read off the text after its last period,
    whatever comes before: four extensions decide by themselves, any
    other leaves the choice to [allowJs]. *)
Theorem script_kind_by_extension :
  forall stem ext : string,
    every (fun x => negb (Ascii.eqb x ".")) ext = true ->
    getScriptKind createData (stem ++ "." ++ ext)
    = if (ext =? "ts")%string then TS
      else if (ext =? "tsx")%string then TSX
      else if (ext =? "js")%string then JS
      else if (ext =? "jsx")%string then JSX
      else match allowJs (compilerOptions createData) with
           | Some true => JS
           | _ => TS
           end.
Proof.
  intros stem ext Hext. apply kind_of_suffix. now apply suffix_after_period.
Qed.

(** X8.  A file name without a period is read as its own extension:
    the files named [ts], [tsx], [js] and [jsx] have these kinds, and
    every other one the kind [allowJs] selects. *)
Theorem script_kind_without_period :
  forall fileName : string,
    every (fun x => negb (Ascii.eqb x ".")) fileName = true ->
    getScriptKind createData fileName
    = if (fileName =? "ts")%string then TS
      else if (fileName =? "tsx")%string then TSX
      else if (fileName =? "js")%string then JS
      else if (fileName =? "jsx")%string then JSX
      else match allowJs (compilerOptions createData) with
           | Some true => JS
           | _ => TS
           end.
Proof.
  intros fileName Hname. apply kind_of_suffix. now apply suffix_without_period.
Qed.

End Facts.


Abbreviation sampleSnapshot :=
  (getScriptSnapshot "lib" "lib6" MoreSamples.sampleModels MoreSamples.sampleData
                     MoreSamples.objectPrototype).
Abbreviation sampleVersion :=
  (getScriptVersion MoreSamples.ES5 MoreSamples.sampleModels MoreSamples.sampleData
                    MoreSamples.objectPrototype).

Lemma listed_files_are_served_witness :
  (exists s : IScriptSnapshot, sampleSnapshot "pxt-core.d.ts" = Some (TextSnapshot s))
  /\ (exists v : string, sampleVersion "pxt-core.d.ts" = Some v).
Proof.
  apply (listed_files_are_served MoreSamples.ES5 "lib" "lib6" MoreSamples.sampleModels
           MoreSamples.sampleData MoreSamples.objectPrototype "pxt-core.d.ts").
  simpl. auto.
Defined.

Lemma snapshot_pieces_witness :
  (forall a b c : Z,
      (0 <= a <= b)%Z -> (b <= c <= 9)%Z ->
      substring "let x = 1" a b ++ substring "let x = 1" b c = substring "let x = 1" a c)
  /\ (forall a b : Z,
         (0 <= a <= b)%Z -> (b <= 9)%Z -> len (substring "let x = 1" a b) = (b - a)%Z)
  /\ (forall a b : Z, substring "let x = 1" a b = substring "let x = 1" b a)
  /\ len (substring "let x = 1" 0 9) = 9%Z.
Proof.
  exact (snapshot_pieces "lib" "lib6" MoreSamples.sampleModels MoreSamples.sampleData
           MoreSamples.objectPrototype "file:///main.ts" (snapshotOf "let x = 1") eq_refl).
Defined.

(** The first of two models with one URI is served, not the second
    and not the extra library of that name. *)
Lemma snapshot_source_witness :
  (exists s : IScriptSnapshot,
      sampleSnapshot "file:///main.ts" = Some (TextSnapshot s)
      /\ fullText s = "let x = 1"
      /\ sampleVersion "file:///main.ts" = Some "3")
  /\ (exists s : IScriptSnapshot,
         sampleSnapshot "pxt-core.d.ts" = Some (TextSnapshot s)
         /\ fullText s = "declare namespace basic { }"
         /\ sampleVersion "pxt-core.d.ts" = Some "1").
Proof.
  split.
  - apply (proj1 (snapshot_source MoreSamples.ES5 "lib" "lib6" MoreSamples.sampleModels
                    MoreSamples.sampleData MoreSamples.objectPrototype "file:///main.ts")
             MoreSamples.mainModel).
    exists [], [MoreSamples.staleModel]. split; [reflexivity|]. split; [reflexivity|].
    constructor.
  - apply (proj2 (snapshot_source MoreSamples.ES5 "lib" "lib6" MoreSamples.sampleModels
                    MoreSamples.sampleData MoreSamples.objectPrototype "pxt-core.d.ts")
             "declare namespace basic { }").
    + repeat constructor; discriminate.
    + reflexivity.
Defined.

(** With the target ES5 the ES6 library has a snapshot and no version. *)
Lemma not_in_prototype (fileName : string) :
  existsb (String.eqb fileName) MoreSamples.objectPrototype = false ->
  ~ In fileName MoreSamples.objectPrototype.
Proof.
  intros H Hin. apply (not_inherited MoreSamples.objectPrototype fileName); assumption.
Qed.

Lemma snapshot_without_version_witness :
  (exists s : Snapshot, sampleSnapshot ES6_LIB_NAME = Some s)
  /\ sampleVersion ES6_LIB_NAME = None.
Proof.
  apply (proj2 (proj2 (snapshot_without_version MoreSamples.ES5 "lib" "lib6"
                         MoreSamples.sampleModels MoreSamples.sampleData
                         MoreSamples.objectPrototype ES6_LIB_NAME))).
  split; [repeat constructor; discriminate|]. split; [reflexivity|].
  split; [now apply not_in_prototype|].
  split; [now right | discriminate].
Defined.

Lemma snapshot_undefined_witness : sampleSnapshot "file:///other.ts" = None.
Proof.
  apply (proj2 (snapshot_undefined "lib" "lib6" MoreSamples.sampleModels
                  MoreSamples.sampleData MoreSamples.objectPrototype
                  "file:///other.ts")).
  split; [repeat constructor; discriminate|]. split; [reflexivity|].
  split; [now apply not_in_prototype|].
  split; discriminate.
Defined.

Lemma inherited_name_is_served_witness :
  ~ In "constructor" (getScriptFileNames MoreSamples.sampleModels MoreSamples.sampleData)
  /\ sampleVersion "constructor" = Some "1"
  /\ sampleSnapshot "constructor" = Some (MemberSnapshot "constructor").
Proof.
  apply (inherited_name_is_served MoreSamples.ES5 "lib" "lib6" MoreSamples.sampleModels
           MoreSamples.sampleData MoreSamples.objectPrototype "constructor").
  - repeat constructor; discriminate.
  - reflexivity.
  - simpl. auto.
Defined.

Lemma script_kind_without_period_witness :
  getScriptKind MoreSamples.sampleData "jsx" = JSX
  /\ getScriptKind MoreSamples.sampleData "Makefile" = TS.
Proof.
  split.
  - apply (script_kind_without_period MoreSamples.sampleData "jsx"). reflexivity.
  - apply (script_kind_without_period MoreSamples.sampleData "Makefile"). reflexivity.
Defined.

Lemma script_kind_by_extension_witness :
  getScriptKind MoreSamples.sampleData "file:///src/main.test.tsx" = TSX
  /\ getScriptKind MoreSamples.sampleData "README.md" = TS.
Proof.
  split.
  - apply (script_kind_by_extension MoreSamples.sampleData "file:///src/main.test" "tsx").
    reflexivity.
  - apply (script_kind_by_extension MoreSamples.sampleData "README" "md"). reflexivity.
Defined.

End HostFacts.

(** *** The shape of an example *)

Module ShapeFacts.

Import Js Regex Spec Worker RegexFacts ExampleFacts.

(** What the loop of a quantified class has taken when the match
    succeeds: a run of the class, the continuation accepting the rest. *)
Lemma iterate_class_taken (ignoreCase : bool) (p : ascii -> bool) (k : continuation)
      (m : string * captures) :
  forall (fuel : nat) (prev : option ascii) (s : string) (c : captures),
    iterate (matcher ignoreCase (Class p)) k fuel prev s c = Some m ->
    exists run rest : string,
      s = run ++ rest /\ every p run = true /\ k (lastOr prev run) rest c = Some m.
Proof.
  induction fuel as [|fuel IH]; intros prev s c H; cbn [iterate] in H.
  - exists "", s. auto.
  - destruct s as [|x s].
    + cbn [matcher] in H. exists "", "". auto.
    + rewrite matcher_Class in H. destruct (p x) eqn:Ex.
      * assert (Hlt : (String.length s <? String.length (String x s))%nat = true)
          by (apply Nat.ltb_lt; simpl; lia).
        rewrite Hlt in H.
        destruct (iterate (matcher ignoreCase (Class p)) k fuel (Some x) s c) eqn:E.
        -- injection H as ->. apply IH in E as (run & rest & -> & Hrun & Hk).
           exists (String x run), rest. cbn [append every lastOr]. rewrite Ex. auto.
        -- exists "", (String x s). auto.
      * exists "", (String x s). auto.
Qed.

Lemma quoted_run_taken (q : ascii) (i : nat) (prev : option ascii) (s : string)
      (m : string * captures) :
  matcher false
    (Seq (Char q) (Seq (Group i (Star (Class (fun c => negb (Ascii.eqb c q))))) (Char q)))
    prev s [] accept = Some m ->
  exists content : string,
    snd m = [(i, content)] /\ every (fun c => negb (Ascii.eqb c q)) content = true.
Proof.
  intros H. rewrite matcher_Seq in H. destruct s as [|x s]; [discriminate|].
  rewrite matcher_Char in H. destruct (charMatches false q x); [|discriminate].
  rewrite matcher_Seq, matcher_Group, matcher_Star in H.
  apply iterate_class_taken in H as (run & rest & -> & Hrun & H).
  rewrite take_append in H. destruct rest as [|y rest]; [discriminate|].
  rewrite matcher_Char in H. destruct (charMatches false q y); [|discriminate].
  unfold accept in H. injection H as <-. exists run. auto.
Qed.

(** A match of the candidate pattern sets one group: the inside of a
    double-quoted run, the inside of a single-quoted run, or a non-empty
    run without separators. *)
Lemma reg_groups (doc : string) (m : string * captures) :
  exec false reg doc = Some m ->
  (exists content, snd m = [(1%nat, content)])
  \/ (exists content, snd m = [(2%nat, content)])
  \/ (exists (x : ascii) (token : string),
         snd m = [(3%nat, String x token)]
         /\ every notSeparator (String x token) = true).
Proof.
  intros H. apply search_result in H as (prev & s & rest & H).
  unfold reg in H. rewrite matcher_Alt in H.
  destruct (matcher false (Seq (Char dquote) _) prev s [] accept) as [m1|] eqn:E1.
  { injection H as ->. apply quoted_run_taken in E1 as (content & E1 & _).
    left. exists content. exact E1. }
  rewrite matcher_Alt in H.
  destruct (matcher false (Seq (Char squote) _) prev s [] accept) as [m2|] eqn:E2.
  { injection H as ->. apply quoted_run_taken in E2 as (content & E2 & _).
    right. left. exists content. exact E2. }
  right. right. unfold Plus in H.
  change (Class (fun c => negb (isWhiteSpace c || Ascii.eqb c ",")))
    with (Class notSeparator) in H.
  rewrite matcher_Group, matcher_Seq in H. destruct s as [|x s]; [discriminate|].
  rewrite matcher_Class in H. destruct (notSeparator x) eqn:Ex; [|discriminate].
  rewrite matcher_Star in H.
  apply iterate_class_taken in H as (run & rest' & -> & Hrun & H).
  cbv beta in H.
  change (String x (run ++ rest')) with (String x run ++ rest') in H.
  rewrite take_append in H. unfold accept in H. injection H as <-.
  exists x, run. cbn [every snd]. rewrite Ex. auto.
Qed.

(** X10.  What the extractor can return: [undefined], a non-empty text put
    between double quotes, or a non-empty text without white space and
    without comma. *)
Theorem example_shape :
  forall (doc : string) (example : option string),
    paramExample doc = Some example ->
    example = None
    \/ (exists content : string, content <> "" /\ example = Some (quoted content))
    \/ (exists (x : ascii) (token : string),
           example = Some (String x token)
           /\ every notSeparator (String x token) = true).
Proof.
  intros doc example H. unfold paramExample in H.
  destruct (exec true paramExamplesRegExp doc) as [line|]; [|discriminate].
  destruct (exec false reg _) as [m|] eqn:E; [|discriminate].
  apply reg_groups in E.
  destruct E as [[content E] | [[content E] | (x & token & E & Htoken)]];
    unfold Regex.group in H; rewrite E in H; cbn [capture Nat.eqb] in H.
  - unfold orElse in H. cbn [truthyStr] in H.
    destruct (content =? "") eqn:Ec; cbn [negb truthyStr] in H.
    + injection H as <-. now left.
    + rewrite Ec in H. cbn [negb joinText] in H. injection H as <-.
      right. left. exists content. split; [now apply String.eqb_neq | reflexivity].
  - unfold orElse in H. cbn [truthyStr] in H.
    destruct (content =? "") eqn:Ec; cbn [negb truthyStr joinText] in H.
    + injection H as <-. now left.
    + rewrite ?Ec in H. cbn [negb joinText] in H. injection H as <-.
      right. left. exists content. split; [now apply String.eqb_neq | reflexivity].
  - cbn [orElse truthyStr] in H. injection H as <-. right. right. exists x, token. auto.
Qed.


Lemma example_shape_witness :
  Some "5" = None
  \/ (exists content : string, content <> "" /\ Some "5" = Some (quoted content))
  \/ (exists (x : ascii) (token : string),
         Some "5" = Some (String x token)
         /\ every notSeparator (String x token) = true).
Proof. exact (example_shape "eg: 5, 6, 7" (Some "5") eq_refl). Defined.

Lemma paramExample_quoted_witness :
  paramExample "the speed, eg: 'very fast' or slow" = Some (Some (quoted "very fast")).
Proof.
  apply (paramExample_quoted "the speed, " "eg:" " " squote "very fast" " or slow");
    try reflexivity.
  - exists "e"%char, "g"%char, "". auto.
  - now right.
  - discriminate.
Defined.

Lemma paramExamples_group1_witness :
  exists line : string, Regex.group ("eg: 5", [(1%nat, "5")]) 1 = Some line.
Proof. exact (paramExamples_group1 "a, eg: 5" ("eg: 5", [(1%nat, "5")]) eq_refl). Defined.

End ShapeFacts.

(** *** The marker and the word before it *)

Module BoundaryFacts.

Import Js Regex Spec Worker RegexFacts ExampleFacts.

Lemma markerAt_first (a : ascii) (s : string) :
  charMatches true "e" a = false -> markerAt (String a s) = false.
Proof.
  intros H. destruct s as [|b [|x t]]; try reflexivity. unfold markerAt. now rewrite H.
Qed.

Lemma search_cons (r : regex) (prev : option ascii) (a : ascii) (s : string) :
  matcher true r prev (String a s) [] accept = None ->
  search true r prev (String a s) = search true r (Some a) s.
Proof. intros H. cbn [search]. now rewrite H. Qed.

Lemma search_skip (prev : option ascii) (a : ascii) (s : string) :
  markerAt (String a s) = false ->
  search true paramExamplesRegExp prev (String a s)
  = search true paramExamplesRegExp (Some a) s.
Proof.
  intros H. cbn [search]. unfold paramExamplesRegExp at 1.
  now rewrite (marker_shape _ prev _ [] accept H).
Qed.

Lemma search_no_colon (prev : option ascii) (s : string) :
  every notColon s = true -> search true paramExamplesRegExp prev s = None.
Proof.
  intros H. apply search_none; [|exact H].
  intros prev' s' c k Hs. unfold paramExamplesRegExp. apply marker_shape.
  destruct (markerAt s') eqn:E; [|reflexivity].
  apply markerAt_colon in E. congruence.
Qed.

(** X11.  A marker that continues a word is no marker. *)
Theorem marker_inside_word :
  forall before marker rest : string,
    every notColon before = true ->
    isWordBefore (lastOr None before) = true ->
    Marker marker ->
    every notColon rest = true ->
    paramExample (before ++ marker ++ rest) = None.
Proof.
  intros before marker rest Hbefore Hword Hm Hrest.
  assert (Hexec : exec true paramExamplesRegExp (before ++ marker ++ rest) = None).
  { unfold exec.
    assert (Hskip : search true paramExamplesRegExp None (before ++ marker ++ rest)
                    = search true paramExamplesRegExp (lastOr None before)
                             (marker ++ rest))
      by exact (search_before _ before marker rest Hm Hbefore None).
    rewrite Hskip.
    destruct Hm as (e & g & period & He & Hg & Hp & ->).
    assert (Hfirst : forall s,
               matcher true paramExamplesRegExp (lastOr None before) (String e s)
                       [] accept = None).
    { intros s. unfold paramExamplesRegExp. rewrite matcher_Seq. cbn [matcher].
      assert (Hat : isWordAt (String e s) = true)
        by (destruct He as [-> | ->]; reflexivity).
      now rewrite Hword, Hat. }
    cbn [append]. rewrite (search_cons _ _ _ _ (Hfirst _)).
    destruct Hg as [-> | ->], Hp as [-> | ->]; cbn [append];
      repeat (rewrite search_skip by (apply markerAt_first; reflexivity));
      now apply search_no_colon. }
  unfold paramExample. now rewrite Hexec.
Qed.


Lemma marker_inside_word_witness : paramExample "a leg: 5" = None.
Proof.
  apply (marker_inside_word "a l" "eg:" " 5"); try reflexivity.
  exists "e"%char, "g"%char, "". auto.
Defined.

End BoundaryFacts.

(** *** More rules of per-parameter synthesis *)

Module MoreRenderFacts.

Import Js Ts Worker Spec MoreSpec RenderFacts RegexFacts.

Lemma indexOfFrom_absent (pat s : string) (i : Z) :
  contains pat s = false -> indexOfFrom pat s i = (-1)%Z.
Proof.
  revert i. induction s as [|a s IH]; intros i H; simpl in *.
  - apply orb_false_elim in H as [H _]. now rewrite H.
  - apply orb_false_elim in H as [H Hs]. rewrite H. now apply IH.
Qed.

Lemma indexOfFrom_bracket (elem rest : string) (i : Z) :
  every (fun c => negb (Ascii.eqb c "[")) elem = true ->
  indexOfFrom "[]" (elem ++ "[]" ++ rest) i = (i + len elem)%Z.
Proof.
  intros H. revert i. induction elem as [|a elem IH]; intros i.
  - cbn. unfold len. simpl. lia.
  - simpl in H. apply andb_prop in H as [Ha H]. apply negb_true_iff in Ha.
    cbn [append indexOfFrom isPrefix]. rewrite Ascii.eqb_sym, Ha. cbn [andb].
    rewrite (IH H). unfold len. simpl String.length. lia.
Qed.

Section MoreRender.

Variable ts : TsConstants.
Variable languageService : LanguageService.

Let typeChecker : TypeChecker := getTypeChecker languageService.

Abbreviation render := (renderParameter ts languageService).
Abbreviation typeOf := (Spec.typeOf typeChecker).

(** How synthesis goes on a named object type without an example. *)
Lemma render_named (signature : Signature.t) (parameter : Symbol.t) :
  paramExample (docOf parameter) = None ->
  NamedObjectType ts (typeOf parameter) ->
  render signature parameter =
    let typeString := typeToString typeChecker (typeOf parameter) in
    let bracketIndex := indexOf typeString "[]" in
    if truthy (bitand (Type_.flags (typeOf parameter)) (ObjectFlags_Tuple ts))
       || (negb (bracketIndex =? -1)%Z && (bracketIndex =? len typeString - 2)%Z)
    then Normal (Some "[]")
    else Normal (Some (placeholder (Symbol.name parameter))).
Proof.
  intros Hdoc (Henum & Hobj & Hanon). unfold renderParameter.
  fold typeChecker. change (displayPartsToString _) with (docOf parameter).
  rewrite Hdoc.
  change (getTypeOfSymbolAtLocation typeChecker parameter _) with (typeOf parameter).
  rewrite (has_nonzero _ _ Hobj), (not_has_truthy _ _ Henum),
    (has_truthy _ _ Hobj), (not_has_truthy _ _ Hanon). reflexivity.
Qed.

(** X13.  An example in the documentation is used whatever the type is, also
    where synthesis by type would throw. *)
Theorem example_overrides_type :
  forall (signature : Signature.t) (parameter : Symbol.t)
         (before marker ws : string) (x : ascii) (token rest : string),
    docOf parameter = before ++ marker ++ ws ++ String x token ++ rest ->
    every notColon before = true ->
    Regex.isWordBefore (lastOr None before) = false ->
    Marker marker ->
    every isWhiteSpace ws = true ->
    notSeparator x = true -> isQuote x = false ->
    every notSeparator token = true ->
    startsWith notSeparator rest = false ->
    render signature parameter = Normal (Some (String x token)).
Proof.
  intros signature parameter before marker ws x token rest Hdoc Hb Hw Hm Hws Hx Hq Ht Hr.
  unfold renderParameter. change (displayPartsToString _) with (docOf parameter).
  rewrite Hdoc, (ExampleFacts.paramExample_token before marker ws x token rest);
    auto.
Qed.

(** X14.  Array types are told by their printed form: a type printed with
    one pair of brackets at its end gets [[]], a type printed as an
    array of arrays does not. *)
Theorem array_by_printed_form :
  forall (signature : Signature.t) (parameter : Symbol.t) (elem : string),
    paramExample (docOf parameter) = None ->
    NamedObjectType ts (typeOf parameter) ->
    every (fun c => negb (Ascii.eqb c "[")) elem = true ->
    (typeToString typeChecker (typeOf parameter) = elem ++ "[]" ->
     render signature parameter = Normal (Some "[]"))
    /\ (typeToString typeChecker (typeOf parameter) = elem ++ "[][]" ->
        ~ has (Type_.flags (typeOf parameter)) (ObjectFlags_Tuple ts) ->
        render signature parameter = Normal (Some (placeholder (Symbol.name parameter)))).
Proof.
  intros signature parameter elem Hdoc HT Helem.
  rewrite (render_named _ _ Hdoc HT). cbv zeta. split.
  - intros ->. unfold indexOf.
    change (elem ++ "[]") with (elem ++ "[]" ++ "").
    rewrite (indexOfFrom_bracket elem "" 0 Helem).
    assert (Hlen : len (elem ++ "[]" ++ "") = (len elem + 2)%Z)
      by (unfold len; rewrite length_append; simpl; lia).
    rewrite Hlen.
    assert (H1 : (0 + len elem =? -1)%Z = false) by (apply Z.eqb_neq; unfold len; lia).
    assert (H2 : (0 + len elem =? len elem + 2 - 2)%Z = true) by (apply Z.eqb_eq; lia).
    rewrite H1, H2. now rewrite orb_true_r.
  - intros -> Htuple. unfold indexOf.
    change (elem ++ "[][]") with (elem ++ "[]" ++ "[]").
    rewrite (indexOfFrom_bracket elem "[]" 0 Helem).
    assert (Hlen : len (elem ++ "[]" ++ "[]") = (len elem + 4)%Z)
      by (unfold len; rewrite length_append; simpl; lia).
    rewrite Hlen, (not_has_truthy _ _ Htuple).
    assert (H2 : (0 + len elem =? len elem + 4 - 2)%Z = false) by (apply Z.eqb_neq; lia).
    rewrite H2. now rewrite andb_false_r.
Qed.

(** X15.  The tuple test reads the flags of the type against a constant of
    the object flags: without brackets in the printed form, it alone
    decides, and the object flags of the type play no part. *)
Theorem tuple_test_reads_type_flags :
  forall (signature : Signature.t) (parameter : Symbol.t),
    paramExample (docOf parameter) = None ->
    NamedObjectType ts (typeOf parameter) ->
    contains "[]" (typeToString typeChecker (typeOf parameter)) = false ->
    (has (Type_.flags (typeOf parameter)) (ObjectFlags_Tuple ts) ->
     render signature parameter = Normal (Some "[]"))
    /\ (~ has (Type_.flags (typeOf parameter)) (ObjectFlags_Tuple ts) ->
        render signature parameter = Normal (Some (placeholder (Symbol.name parameter)))).
Proof.
  intros signature parameter Hdoc HT Hprinted.
  rewrite (render_named _ _ Hdoc HT). cbv zeta.
  unfold indexOf. rewrite (indexOfFrom_absent _ _ 0 Hprinted). cbn [Z.eqb negb andb].
  split; intros H.
  - now rewrite (has_truthy _ _ H).
  - now rewrite (not_has_truthy _ _ H).
Qed.

(** X16.  Where no rule applies the placeholder of the parameter's name is
    emitted: flags that are zero, a type outside every class, and a
    primitive whose intrinsic name is none of number, boolean and
    string, as that of void. *)
Theorem placeholder_fallback :
  forall (signature : Signature.t) (parameter : Symbol.t),
    paramExample (docOf parameter) = None ->
    (Type_.flags (typeOf parameter) = 0%Z ->
     render signature parameter = Normal (Some (placeholder (Symbol.name parameter))))
    /\ (UnclassifiedType ts (typeOf parameter) ->
        render signature parameter = Normal (Some (placeholder (Symbol.name parameter))))
    /\ (forall name : string,
           PrimitiveType ts (typeOf parameter) name ->
           name <> "number" -> name <> "boolean" -> name <> "string" ->
           render signature parameter
           = Normal (Some (placeholder (Symbol.name parameter)))).
Proof.
  intros signature parameter Hdoc. split; [|split].
  - intros H0. unfold renderParameter. fold typeChecker.
    change (displayPartsToString _) with (docOf parameter). rewrite Hdoc.
    change (getTypeOfSymbolAtLocation typeChecker parameter _) with (typeOf parameter).
    now rewrite H0.
  - intros (He & Ho & Hs & Hn & Hb & Hv). unfold renderParameter. fold typeChecker.
    change (displayPartsToString _) with (docOf parameter). rewrite Hdoc.
    change (getTypeOfSymbolAtLocation typeChecker parameter _) with (typeOf parameter).
    rewrite (not_has_truthy _ _ He), (not_has_truthy _ _ Ho), (not_has_truthy _ _ Hs),
      (not_has_truthy _ _ Hn), (not_has_truthy _ _ Hb), (not_has_truthy _ _ Hv).
    destruct (truthy _); reflexivity.
  - intros name HT H1 H2 H3. rewrite (render_primitive _ _ _ _ _ Hdoc HT).
    apply String.eqb_neq in H1, H2, H3. unfold renderDefaultVal.
    repeat match goal with
           | |- context [match ?s with EmptyString => _ | String _ _ => _ end] =>
               is_var s; destruct s as [|? s]; try reflexivity
           | |- context [match ?c with Ascii _ _ _ _ _ _ _ _ => _ end] =>
               is_var c; destruct c as [[] [] [] [] [] [] [] []]; try reflexivity
           end; simpl in *; congruence.
Qed.

End MoreRender.


Abbreviation printedRender printed :=
  (renderParameter Sample.ts2 (MoreSamples.printingService printed) Sample.moveSignature).
Abbreviation oddRender printed :=
  (renderParameter Sample.ts2 (MoreSamples.oddService printed) Sample.moveSignature).

Ltac named_object :=
  unfold NamedObjectType; split; [flag_clear | split; [flag_set | flag_clear]].

(** A documented example shields the parameter whose enum type has no
    declarations. *)
Lemma example_overrides_type_witness :
  renderParameter Sample.ts2 Sample.sampleService Sample.moveSignature
                  (Sample.parameter "broken" "how, eg: 5")
  = Normal (Some "5").
Proof.
  apply (example_overrides_type Sample.ts2 Sample.sampleService Sample.moveSignature
           (Sample.parameter "broken" "how, eg: 5") "how, " "eg:" " " "5"%char "" "");
    try reflexivity.
  exists "e"%char, "g"%char, "". auto.
Defined.

Lemma array_by_printed_form_witness :
  printedRender "number[]" (Sample.parameter "list" "") = Normal (Some "[]")
  /\ printedRender "number[][]" (Sample.parameter "list" "")
     = Normal (Some (placeholder "list")).
Proof.
  split.
  - apply (proj1 (array_by_printed_form Sample.ts2 (MoreSamples.printingService "number[]")
                    Sample.moveSignature (Sample.parameter "list" "") "number"
                    eq_refl ltac:(named_object) eq_refl)).
    reflexivity.
  - apply (proj2 (array_by_printed_form Sample.ts2
                    (MoreSamples.printingService "number[][]")
                    Sample.moveSignature (Sample.parameter "list" "") "number"
                    eq_refl ltac:(named_object) eq_refl)).
    + reflexivity.
    + flag_clear.
Defined.

(** A tuple type, with the tuple bit in its object flags, gets the
    placeholder; a type with that bit in its type flags gets [[]]. *)
Lemma tuple_test_reads_type_flags_witness :
  has (Type_.objectFlags (MoreSamples.collectionTypes "pair"))
      (ObjectFlags_Tuple Sample.ts2)
  /\ printedRender "[number, string]" (Sample.parameter "pair" "")
     = Normal (Some (placeholder "pair"))
  /\ oddRender "odd" (Sample.parameter "odd" "") = Normal (Some "[]").
Proof.
  split; [flag_set|]. split.
  - apply (proj2 (tuple_test_reads_type_flags Sample.ts2
                    (MoreSamples.printingService "[number, string]")
                    Sample.moveSignature (Sample.parameter "pair" "")
                    eq_refl ltac:(named_object) eq_refl)).
    flag_clear.
  - apply (proj1 (tuple_test_reads_type_flags Sample.ts2 (MoreSamples.oddService "odd")
                    Sample.moveSignature (Sample.parameter "odd" "")
                    eq_refl ltac:(named_object) eq_refl)).
    flag_set.
Defined.

Lemma placeholder_fallback_witness :
  oddRender "" (Sample.parameter "blank" "") = Normal (Some (placeholder "blank"))
  /\ oddRender "" (Sample.parameter "anything" "") = Normal (Some (placeholder "anything"))
  /\ printedRender "void" (Sample.parameter "nothing" "")
     = Normal (Some (placeholder "nothing")).
Proof.
  split; [|split].
  - apply (proj1 (placeholder_fallback Sample.ts2 (MoreSamples.oddService "")
                    Sample.moveSignature (Sample.parameter "blank" "") eq_refl)).
    reflexivity.
  - apply (proj1 (proj2 (placeholder_fallback Sample.ts2 (MoreSamples.oddService "")
                           Sample.moveSignature (Sample.parameter "anything" "")
                           eq_refl))).
    unfold UnclassifiedType. repeat split; flag_clear.
  - apply (proj2 (proj2 (placeholder_fallback Sample.ts2
                           (MoreSamples.printingService "void")
                           Sample.moveSignature (Sample.parameter "nothing" "")
                           eq_refl)) "void"); try discriminate.
    primitive.
Defined.

Lemma throws_iff_no_declarations_witness :
  paramExample (Spec.docOf (Sample.parameter "broken" "")) = None
  /\ EnumLiteralType Sample.ts2 (sampleTypeOf (Sample.parameter "broken" ""))
  /\ exists symbol : Symbol.t,
       Type_.symbol (sampleTypeOf (Sample.parameter "broken" "")) = Some symbol
       /\ Symbol.getDeclarations symbol = None.
Proof.
  exact (proj1 (throws_iff_no_declarations Sample.ts2 Sample.sampleService
                  Sample.moveSignature (Sample.parameter "broken" "")) eq_refl).
Defined.

End MoreRenderFacts.

(** *** More of the driver *)

Module DriverFacts.

Import Js Ts Worker Spec SnippetFacts.

Lemma forEachPush_throws {A B : Type} (f : A -> outcome B) (l : list A) :
  forEachPush f l = Throw TypeError <-> exists a, In a l /\ f a = Throw TypeError.
Proof.
  induction l as [|a l IH]; simpl.
  - split; [discriminate | intros (a & [] & _)].
  - destruct (f a) as [b|[]] eqn:Ea; simpl.
    + destruct (forEachPush f l) as [bs|[]] eqn:El; simpl.
      * split; [discriminate|]. intros (a' & [<-|Hin] & Ha'); [congruence|].
        assert (Habs : Normal bs = Throw TypeError) by (apply IH; eauto).
        discriminate Habs.
      * split; [|reflexivity]. intros _.
        destruct (proj1 IH eq_refl) as (a' & Hin & Ha'). eauto.
    + split; [|reflexivity]. intros _. exists a. auto.
Qed.

Section Driver.

Variable ts : TsConstants.
Variable languageService : LanguageService.

Let typeChecker : TypeChecker := getTypeChecker languageService.

Abbreviation method := (getCompletionEntryDetailsAndSnippet ts languageService).
Abbreviation resolve := (completionSymbol languageService).

(** X18.  Every snippet is the label, either as it is or followed by a
    parenthesised list. *)
Theorem snippet_extends_label :
  forall (fileName : string) (position : Z) (entry label : string)
         (parent : option string) (details : CompletionEntryDetails) (snippet : string),
    method fileName position entry label parent = Normal (Some (details, snippet)) ->
    snippet = label
    \/ exists inside : string, snippet = label ++ "(" ++ inside ++ ")".
Proof.
  intros fileName position entry label parent details snippet H.
  unfold getCompletionEntryDetailsAndSnippet in H.
  destruct (completionSymbol _ _ _ _ _) as [[symbol|]|]; cbn [bind] in H;
    try discriminate.
  destruct (codeSnippetOf ts languageService label symbol) as [s|] eqn:Es;
    cbn [bind] in H; [|discriminate].
  injection H as _ <-. unfold codeSnippetOf in Es.
  destruct (Symbol.valueDeclaration symbol) as [d|]; [|injection Es as <-; now left].
  destruct (truthy (Declaration.kind d)); [|injection Es as <-; now left].
  destruct (Type_.getCallSignatures _) as [|signature others];
    [injection Es as <-; now left|].
  destruct (forEachPush _ _) as [arguments|]; cbn [bind] in Es; [|discriminate].
  right. destruct (0 <? _)%Z; injection Es as <-.
  - now exists (join ", " arguments).
  - now exists "".
Qed.

(** X19.  How the symbol is found: the entry's own symbol wins and the
    parent is not looked at; otherwise the entry is looked up among the
    members of the parent's symbol, which throws when that symbol has
    no members; without a usable parent nothing is returned. *)
Theorem symbol_resolution :
  forall (fileName : string) (position : Z) (entry label : string),
    (forall (symbol : Symbol.t) (parent parent' : option string),
        getCompletionEntrySymbol languageService fileName position entry = Some symbol ->
        method fileName position entry label parent
        = method fileName position entry label parent')
    /\ (forall (parent : string) (symbol : Symbol.t) (members : list (string * Symbol.t)),
           getCompletionEntrySymbol languageService fileName position entry = None ->
           parent <> "" ->
           getCompletionEntrySymbol languageService fileName position parent
           = Some symbol ->
           Symbol.members symbol = Some members ->
           resolve fileName position entry (Some parent)
           = Normal (Symbol.lookup members entry))
    /\ (forall (parent : string) (symbol : Symbol.t),
           getCompletionEntrySymbol languageService fileName position entry = None ->
           parent <> "" ->
           getCompletionEntrySymbol languageService fileName position parent
           = Some symbol ->
           Symbol.members symbol = None ->
           method fileName position entry label (Some parent) = Throw TypeError)
    /\ (forall parent : option string,
           getCompletionEntrySymbol languageService fileName position entry = None ->
           (parent = None \/ parent = Some ""
            \/ exists name, parent = Some name
                            /\ getCompletionEntrySymbol languageService fileName position
                                                        name = None) ->
           method fileName position entry label parent = Normal None).
Proof.
  intros fileName position entry label. split; [|split; [|split]].
  - intros symbol parent parent' H.
    unfold getCompletionEntryDetailsAndSnippet, completionSymbol. now rewrite H.
  - intros parent symbol members Hentry Hparent Hsym Hmembers.
    assert (Ht : truthyStr (Some parent) = true)
      by (simpl; apply negb_true_iff; now apply String.eqb_neq).
    unfold completionSymbol.
    rewrite Hentry, Ht. cbn [joinText]. now rewrite Hsym, Hmembers.
  - intros parent symbol Hentry Hparent Hsym Hmembers.
    assert (Ht : truthyStr (Some parent) = true)
      by (simpl; apply negb_true_iff; now apply String.eqb_neq).
    unfold getCompletionEntryDetailsAndSnippet, completionSymbol.
    rewrite Hentry, Ht. cbn [joinText]. now rewrite Hsym, Hmembers.
  - intros parent Hentry Hparent.
    unfold getCompletionEntryDetailsAndSnippet, completionSymbol. rewrite Hentry.
    destruct Hparent as [-> | [-> | (name & -> & Hname)]]; try reflexivity.
    destruct (truthyStr (Some name)); [|reflexivity].
    cbn [joinText]. now rewrite Hname.
Qed.

(** X20.  When the method throws: the parent's symbol has no members, or a
    required parameter of the first signature makes synthesis throw. *)
Theorem method_throws :
  forall (fileName : string) (position : Z) (entry label : string)
         (parent : option string),
    method fileName position entry label parent = Throw TypeError
    <-> resolve fileName position entry parent = Throw TypeError
        \/ exists (symbol : Symbol.t) (declaration : Declaration.t)
                  (signature : Signature.t) (others : list Signature.t)
                  (parameter : Symbol.t),
            resolve fileName position entry parent = Normal (Some symbol)
            /\ Symbol.valueDeclaration symbol = Some declaration
            /\ Declaration.kind declaration <> 0%Z
            /\ Type_.getCallSignatures
                 (getTypeOfSymbolAtLocation typeChecker symbol (Some declaration))
               = signature :: others
            /\ In parameter (slice0 (Signature.parameters signature)
                                    (Signature.minArgumentCount signature))
            /\ renderParameter ts languageService signature parameter = Throw TypeError.
Proof.
  intros fileName position entry label parent.
  unfold getCompletionEntryDetailsAndSnippet.
  destruct (completionSymbol languageService fileName position entry parent)
    as [[symbol|]|[]] eqn:Er; cbn [bind].
  - unfold codeSnippetOf. fold typeChecker.
    destruct (Symbol.valueDeclaration symbol) as [d|] eqn:Ed.
    2:{ split; [discriminate|]. intros [H|(s & d & sg & o & p & H & H' & _)];
        [discriminate | injection H as <-; congruence]. }
    destruct (truthy (Declaration.kind d)) eqn:Ek.
    2:{ split; [discriminate|]. intros [H|(s & d' & sg & o & p & H & H' & Hk & _)];
        [discriminate|]. injection H as <-. rewrite Ed in H'. injection H' as <-.
        apply RenderFacts.truthy_true in Hk. congruence. }
    destruct (Type_.getCallSignatures _) as [|signature others] eqn:Es.
    { split; [discriminate|]. intros [H|(s & d' & sg & o & p & H & H' & _ & Hs & _)];
        [discriminate|]. injection H as <-. rewrite Ed in H'. injection H' as <-.
        congruence. }
    destruct (forEachPush _ _) as [arguments|[]] eqn:Ef; cbn [bind].
    + split.
      * destruct (0 <? _)%Z; discriminate.
      * intros [H|(s & d' & sg & o & p & H & H' & _ & Hs & Hin & Hp)]; [discriminate|].
        injection H as <-. rewrite Ed in H'. injection H' as <-.
        rewrite Es in Hs. injection Hs as <- <-.
        assert (Hthrow : forEachPush (renderParameter ts languageService signature)
                           (slice0 (Signature.parameters signature)
                                   (Signature.minArgumentCount signature))
                         = Throw TypeError)
          by (apply forEachPush_throws; eauto).
        congruence.
    + split; [|reflexivity]. intros _. right.
      apply forEachPush_throws in Ef as (p & Hin & Hp).
      exists symbol, d, signature, others, p.
      repeat split; try assumption. now apply RenderFacts.truthy_true.
  - split; [discriminate|]. intros [H|(s & _ & _ & _ & _ & H & _)]; discriminate.
  - split; [now left | reflexivity].
Qed.

End Driver.


Abbreviation sampleMethod :=
  (getCompletionEntryDetailsAndSnippet Sample.ts2 Sample.sampleService "main.ts" 0).
Abbreviation memberMethod :=
  (getCompletionEntryDetailsAndSnippet Sample.ts2 MoreSamples.memberService "main.ts" 0).

Lemma snippet_extends_label_witness :
  "go(0, Direction.Forward)" = "go"
  \/ exists inside : string, "go(0, Direction.Forward)" = "go" ++ "(" ++ inside ++ ")".
Proof.
  exact (snippet_extends_label Sample.ts2 Sample.sampleService "main.ts" 0 "move" "go" None
           _ "go(0, Direction.Forward)" eq_refl).
Defined.

(** [plot] is found among the members of [led]; [move] has no
    members; without parent nothing is found. *)
Lemma symbol_resolution_witness :
  sampleMethod "move" "move" (Some "led") = sampleMethod "move" "move" None
  /\ completionSymbol MoreSamples.memberService "main.ts" 0 "plot" (Some "led")
     = Normal (Some (Sample.function "stop"))
  /\ memberMethod "plot" "plot" (Some "move") = Throw TypeError
  /\ memberMethod "plot" "plot" None = Normal None.
Proof.
  split; [|split; [|split]].
  - apply (proj1 (symbol_resolution Sample.ts2 Sample.sampleService "main.ts" 0
                    "move" "move") (Sample.function "move")).
    reflexivity.
  - apply (proj1 (proj2 (symbol_resolution Sample.ts2 MoreSamples.memberService
                           "main.ts" 0 "plot" "plot"))
             "led" MoreSamples.led [("plot", Sample.function "stop")]);
      try reflexivity.
    discriminate.
  - apply (proj1 (proj2 (proj2 (symbol_resolution Sample.ts2 MoreSamples.memberService
                                  "main.ts" 0 "plot" "plot")))
             "move" (Sample.function "move")); try reflexivity.
    discriminate.
  - apply (proj2 (proj2 (proj2 (symbol_resolution Sample.ts2 MoreSamples.memberService
                                  "main.ts" 0 "plot" "plot")))).
    + reflexivity.
    + now left.
Defined.

Lemma method_throws_witness :
  getCompletionEntryDetailsAndSnippet Sample.ts2 MoreSamples.faultyService "main.ts" 0
                                      "flash" "flash" None
  = Throw TypeError.
Proof.
  apply (proj2 (method_throws Sample.ts2 MoreSamples.faultyService "main.ts" 0
                  "flash" "flash" None)).
  right.
  exists (Sample.function "flash"), (Sample.node Sample.FunctionDeclarationKind),
    MoreSamples.flashSignature, [], (Sample.parameter "broken" "").
  split; [reflexivity|]. split; [reflexivity|]. split; [discriminate|].
  split; [reflexivity|]. split; [now left | reflexivity].
Defined.

End DriverFacts.

(** *** The earlier revision *)

Module LegacyFacts.

Import Js Ts Regex Spec MoreSpec LegacySpec RegexFacts ExampleFacts ShapeFacts RenderFacts.

(** The loop of a quantified class gives characters back until the
    continuation accepts. *)
Lemma iterate_class_shallow (p : ascii -> bool) (k : continuation) :
  forall (fuel : nat) (prev : option ascii) (b : string) (c : captures),
    (forall b1 b2, b = b1 ++ b2 -> b1 <> "" -> every p b1 = true ->
                   k (lastOr prev b1) b2 c = None) ->
    iterate (matcher true (Class p)) k fuel prev b c = k prev b c.
Proof.
  induction fuel as [|fuel IH]; intros prev b c Hfail; cbn [iterate]; [reflexivity|].
  destruct b as [|x b]; [reflexivity|]. rewrite matcher_Class.
  destruct (p x) eqn:Ex; [|reflexivity].
  assert (Hlt : (String.length b <? String.length (String x b))%nat = true)
    by (apply Nat.ltb_lt; simpl; lia).
  rewrite Hlt, IH.
  - assert (H0 : k (lastOr prev (String x "")) b c = None).
    { apply Hfail; [reflexivity | discriminate |]. simpl. now rewrite Ex. }
    cbn in H0. now rewrite H0.
  - intros b1 b2 -> Hb1 Hevery. apply (Hfail (String x b1) b2); [reflexivity | discriminate |].
    simpl. now rewrite Ex.
Qed.

Lemma iterate_class_back (p : ascii -> bool) (k : continuation) (m : string * captures) :
  forall (a b : string) (fuel : nat) (prev : option ascii) (c : captures),
    every p a = true ->
    (String.length a <= fuel)%nat ->
    k (lastOr prev a) b c = Some m ->
    (forall b1 b2, b = b1 ++ b2 -> b1 <> "" -> every p b1 = true ->
                   k (lastOr prev (a ++ b1)) b2 c = None) ->
    iterate (matcher true (Class p)) k fuel prev (a ++ b) c = Some m.
Proof.
  induction a as [|x a IH]; intros b fuel prev c Ha Hfuel Hk Hfail.
  - cbn [append]. rewrite iterate_class_shallow; [exact Hk | exact Hfail].
  - simpl in Ha. apply andb_prop in Ha as [Hx Ha].
    destruct fuel as [|fuel]; [simpl in Hfuel; lia|].
    cbn [append iterate]. rewrite matcher_Class, Hx.
    assert (Hlt : (String.length (a ++ b) <? String.length (String x (a ++ b)))%nat = true)
      by (apply Nat.ltb_lt; simpl; lia).
    rewrite Hlt, (IH b fuel (Some x) c); [reflexivity | assumption | simpl in Hfuel; lia
                                          | exact Hk | exact Hfail].
Qed.

Lemma e_only (x : ascii) : charMatches true "e" x = true -> x = "e"%char \/ x = "E"%char.
Proof.
  destruct x as [[] [] [] [] [] [] [] []]; vm_compute; intros H;
    first [now left | now right | discriminate H].
Qed.

Lemma g_only (x : ascii) : charMatches true "g" x = true -> x = "g"%char \/ x = "G"%char.
Proof.
  destruct x as [[] [] [] [] [] [] [] []]; vm_compute; intros H;
    first [now left | now right | discriminate H].
Qed.

Lemma afterRun_fails (prev : option ascii) (s : string) (c : captures) (k : continuation) :
  legacyMarkerAt s = false -> matcher true afterRun prev s c k = None.
Proof.
  intros H. unfold afterRun. rewrite matcher_Seq.
  destruct s as [|a s]; [reflexivity|]. rewrite matcher_Char.
  destruct (charMatches true "e" a) eqn:Ea; [|reflexivity].
  rewrite matcher_Seq. destruct s as [|b s]; [reflexivity|]. rewrite matcher_Char.
  destruct (charMatches true "g" b) eqn:Eb; [|reflexivity].
  rewrite matcher_Seq. destruct s as [|x s]; [reflexivity|]. rewrite matcher_Char.
  destruct (charMatches true ":" x) eqn:Ex; [|reflexivity].
  apply colon_only in Ex. subst x. unfold legacyMarkerAt in H.
  rewrite Ea, Eb in H. discriminate H.
Qed.

Lemma afterRun_line (prev : option ascii) (marker after tail : string) (c : captures) :
  LegacyMarker marker ->
  every notLineTerminator after = true ->
  startsWith notLineTerminator tail = false ->
  matcher true afterRun prev (marker ++ after ++ tail) c accept
  = Some (tail, (1%nat, after) :: c).
Proof.
  intros (e & g & He & Hg & ->) Hafter Htail. unfold afterRun.
  cbn [append]. rewrite matcher_Seq, matcher_Char.
  assert (He' : charMatches true "e" e = true) by (destruct He as [-> | ->]; reflexivity).
  assert (Hg' : charMatches true "g" g = true) by (destruct Hg as [-> | ->]; reflexivity).
  rewrite He', matcher_Seq, matcher_Char, Hg', matcher_Seq, matcher_Char.
  change (charMatches true ":" ":") with true. cbv iota.
  rewrite matcher_Group, matcher_Star.
  destruct (takeWhile_run notLineTerminator after tail Hafter Htail) as [Htake Hdrop].
  apply iterate_class; fold notLineTerminator; rewrite Htake.
  - rewrite length_append. lia.
  - rewrite Hdrop. unfold accept. now rewrite take_append.
Qed.

Lemma legacyMarkerAt_line (s : string) :
  legacyMarkerAt s = true -> every notColon (takeWhile notLineTerminator s) = false.
Proof.
  destruct s as [|a [|b [|x t]]]; try discriminate. unfold legacyMarkerAt.
  intros H. apply andb_prop in H as [H Hx]. apply andb_prop in H as [Ha Hb].
  apply Ascii.eqb_eq in Hx. subst x.
  apply e_only in Ha. apply g_only in Hb.
  destruct Ha as [-> | ->], Hb as [-> | ->]; reflexivity.
Qed.

Lemma every_append (p : ascii -> bool) (a b : string) :
  every p (a ++ b) = every p a && every p b.
Proof.
  induction a as [|x a IH]; simpl; [reflexivity|]. now rewrite IH, andb_assoc.
Qed.

Lemma every_weaken (p q : ascii -> bool) (s : string) :
  (forall c, p c = true -> q c = true) -> every p s = true -> every q s = true.
Proof.
  intros Hpq. induction s as [|x s IH]; simpl; [reflexivity|].
  intros H. apply andb_prop in H as [Hx Hs]. now rewrite (Hpq _ Hx), IH.
Qed.

(** [exec] of the earlier marker pattern: the last marker of the first
    line that has one is found, and group 1 is the rest of that line. *)
Lemma legacy_exec (before marker after tail : string) :
  every notLineTerminator before = true ->
  LegacyMarker marker ->
  every plainInLine after = true ->
  startsWith notLineTerminator tail = false ->
  exists whole,
    exec true Legacy.paramExamplesRegExp (before ++ marker ++ after ++ tail)
    = Some (whole, [(1%nat, after)]).
Proof.
  intros Hbefore Hmarker Hafter Htail.
  assert (HafterLT : every notLineTerminator after = true).
  { apply (every_weaken plainInLine); [|exact Hafter].
    intros c H. now apply andb_prop in H as [H _]. }
  assert (HafterC : every notColon after = true).
  { apply (every_weaken plainInLine); [|exact Hafter].
    intros c H. now apply andb_prop in H as [_ H]. }
  assert (Hm : matcher true Legacy.paramExamplesRegExp None
                 (before ++ marker ++ after ++ tail) [] accept
               = Some (tail, [(1%nat, after)])).
  { unfold Legacy.paramExamplesRegExp. fold afterRun.
    rewrite matcher_Seq, matcher_Star.
    apply iterate_class_back.
    - exact Hbefore.
    - rewrite length_append. lia.
    - now apply afterRun_line.
    - intros b1 b2 Hsplit Hb1 Hevery. apply afterRun_fails.
      destruct Hmarker as (e & g & He & Hg & ->).
      destruct b1 as [|y1 b1]; [congruence|].
      cbn [append] in Hsplit. injection Hsplit as <- Hsplit.
      destruct b1 as [|y2 b1].
      { cbn [append] in Hsplit. subst b2. unfold legacyMarkerAt.
        destruct Hg as [-> | ->]; destruct (after ++ tail) as [|? [|? ?]]; reflexivity. }
      cbn [append] in Hsplit. injection Hsplit as <- Hsplit.
      destruct b1 as [|y3 b1].
      { cbn [append] in Hsplit. subst b2. unfold legacyMarkerAt.
        destruct (after ++ tail) as [|? [|? ?]]; reflexivity. }
      cbn [append] in Hsplit. injection Hsplit as <- Hsplit.
      destruct (legacyMarkerAt b2) eqn:E; [|reflexivity].
      apply legacyMarkerAt_line in E.
      cbn [every] in Hevery. apply andb_prop in Hevery as [_ Hevery].
      apply andb_prop in Hevery as [_ Hevery]. apply andb_prop in Hevery as [_ Hevery].
      change (every notLineTerminator b1 = true) in Hevery.
      destruct (takeWhile_run notLineTerminator after tail HafterLT Htail) as [Htake _].
      rewrite Hsplit, (takeWhile_append _ _ _ Hevery) in Htake.
      rewrite <- Htake, every_append, E, andb_false_r in HafterC. discriminate HafterC. }
  unfold exec. destruct (before ++ marker ++ after ++ tail) as [|x s] eqn:Es.
  - cbn [search]. rewrite Hm. eauto.
  - cbn [search]. rewrite Hm. eauto.
Qed.

Lemma reg_unfold :
  Legacy.reg
  = Group 1 (Seq (Group 2 (Seq (Class notCommaOrSpace) (Star (Class notCommaOrSpace))))
               (Star (Class isCommaOrSpace))).
Proof. reflexivity. Qed.

(** The candidate pattern needs a character other than comma and
    space where it starts. *)
Lemma reg_fails (prev : option ascii) (s : string) (c : captures) (k : continuation) :
  startsWith notCommaOrSpace s = false -> matcher true Legacy.reg prev s c k = None.
Proof.
  intros H. rewrite reg_unfold, matcher_Group, matcher_Seq, matcher_Group, matcher_Seq.
  destruct s as [|x s]; [reflexivity|]. rewrite matcher_Class.
  simpl in H. now rewrite H.
Qed.

(** Where it starts on such a character, group 2 is the whole run of
    them. *)
Lemma reg_token (prev : option ascii) (x : ascii) (token rest : string) :
  notCommaOrSpace x = true ->
  every notCommaOrSpace token = true ->
  startsWith notCommaOrSpace rest = false ->
  exists (rest' : string) (g1 : string),
    matcher true Legacy.reg prev (String x token ++ rest) [] accept
    = Some (rest', [(1%nat, g1); (2%nat, String x token)]).
Proof.
  intros Hx Htoken Hrest.
  rewrite reg_unfold, matcher_Group, matcher_Seq, matcher_Group, matcher_Seq.
  cbn [append]. rewrite matcher_Class, Hx, matcher_Star.
  destruct (takeWhile_run notCommaOrSpace token rest Htoken Hrest) as [Htake Hdrop].
  do 2 eexists. apply iterate_class; rewrite Htake.
  - rewrite length_append. lia.
  - rewrite Hdrop. cbv beta.
    change (String x (token ++ rest)) with (String x token ++ rest).
    rewrite take_append, matcher_Star.
    apply iterate_class; [rewrite (take_drop_while isCommaOrSpace rest) at 2;
                          rewrite length_append; lia|].
    unfold accept. reflexivity.
Qed.

Lemma searchRest_skip (r : regex) (seps s : string) :
  (forall prev x t, startsWith notCommaOrSpace (String x t) = false ->
                    matcher true r prev (String x t) [] accept = None) ->
  every isCommaOrSpace seps = true ->
  forall prev,
    Legacy.searchRest true r prev (seps ++ s)
    = Legacy.searchRest true r (lastOr prev seps) s.
Proof.
  intros Hr. induction seps as [|x seps IH]; intros Hseps prev; [reflexivity|].
  simpl in Hseps. apply andb_prop in Hseps as [Hx Hseps].
  cbn [append Legacy.searchRest lastOr]. rewrite Hr.
  - now apply IH.
  - simpl. unfold notCommaOrSpace. now rewrite Hx.
Qed.

Lemma legacy_examples (seps : string) (x : ascii) (token rest : string) (fuel : nat) :
  every isCommaOrSpace seps = true ->
  notCommaOrSpace x = true ->
  every notCommaOrSpace token = true ->
  startsWith notCommaOrSpace rest = false ->
  exists more,
    Legacy.examplesOf (S fuel) None (seps ++ String x token ++ rest)
    = Some (String x token) :: more.
Proof.
  intros Hseps Hx Htoken Hrest.
  destruct (reg_token (lastOr None seps) x token rest Hx Htoken Hrest) as (rest' & g1 & Hm).
  cbn [Legacy.examplesOf].
  rewrite (searchRest_skip Legacy.reg seps _ (fun prev y t H => reg_fails prev _ _ _ H) Hseps).
  assert (Hs : Legacy.searchRest true Legacy.reg (lastOr None seps) (String x token ++ rest)
               = Some (rest', [(1%nat, g1); (2%nat, String x token)])).
  { cbn [append Legacy.searchRest]. cbn [append] in Hm. now rewrite Hm. }
  rewrite Hs. cbn [capture Nat.eqb]. eauto.
Qed.

(** X21.  The extractor of the earlier revision, on documentation whose
    first line holds the letters e and g, in either case, and a colon
    after them.  The last such marker of the line counts, whether or
    not it continues a word; the example is the first run of characters
    other than comma and space after it, taken as it is: quotes are
    kept, and a quoted text ends at its first comma or space. *)
Theorem legacy_example_candidate :
  forall (before marker seps : string) (x : ascii) (token rest tail : string),
    every notLineTerminator before = true ->
    LegacyMarker marker ->
    every isCommaOrSpace seps = true ->
    notCommaOrSpace x = true ->
    every notCommaOrSpace token = true ->
    startsWith notCommaOrSpace rest = false ->
    every plainInLine (seps ++ String x token ++ rest) = true ->
    startsWith notLineTerminator tail = false ->
    Legacy.paramExample (before ++ marker ++ (seps ++ String x token ++ rest) ++ tail)
    = Some (Some (String x token)).
Proof.
  intros before marker seps x token rest tail Hbefore Hmarker Hseps Hx Htoken Hrest
         Hplain Htail.
  destruct (legacy_exec before marker _ tail Hbefore Hmarker Hplain Htail) as (whole & He).
  unfold Legacy.paramExample. rewrite He.
  cbn [group snd capture Nat.eqb joinText].
  destruct (legacy_examples seps x token rest
              (String.length (seps ++ String x token ++ rest)) Hseps Hx Htoken Hrest)
    as (more & ->).
  reflexivity.
Qed.

Lemma legacy_example_candidate_witness :
  Legacy.paramExample ("a leg: 5" ++ String LF "eg: 7") = Some (Some "5")
  /\ Legacy.paramExample ("speed eg: 1 eg:  ,'a b', c") = Some (Some "'a").
Proof.
  split.
  - apply (legacy_example_candidate "a l" "eg:" " " "5" "" "" (String LF "eg: 7"));
      try reflexivity.
    exists "e"%char, "g"%char. auto.
  - apply (legacy_example_candidate "speed eg: 1 " "eg:" "  ," "'" "a" " b', c" "");
      try reflexivity.
    exists "e"%char, "g"%char. auto.
Defined.

Lemma legacyMarkerAt_colon (s : string) :
  legacyMarkerAt s = true -> every notColon s = false.
Proof.
  destruct s as [|a [|b [|x t]]]; try discriminate. unfold legacyMarkerAt.
  intros H. apply andb_prop in H as [_ Hx]. apply Ascii.eqb_eq in Hx. subst x.
  cbn [every]. change (notColon ":") with false.
  now rewrite andb_false_l, !andb_false_r.
Qed.

Lemma legacy_pattern_needs_colon (prev : option ascii) (s : string) (c : captures)
      (k : continuation) :
  every notColon s = true -> matcher true Legacy.paramExamplesRegExp prev s c k = None.
Proof.
  intros Hs. unfold Legacy.paramExamplesRegExp. fold afterRun.
  rewrite matcher_Seq, matcher_Star.
  destruct (iterate _ _ _ _ _ _) as [m|] eqn:E; [|reflexivity]. exfalso.
  apply iterate_class_taken in E as (run & rest & -> & _ & E).
  rewrite afterRun_fails in E; [discriminate|].
  destruct (legacyMarkerAt rest) eqn:Em; [|reflexivity].
  apply legacyMarkerAt_colon in Em.
  rewrite every_append, Em, andb_false_r in Hs. discriminate Hs.
Qed.

(** X22.  In the earlier revision too, documentation without a colon holds
    no example. *)
Theorem legacy_marker_requires_colon :
  forall parameterDoc : string,
    every notColon parameterDoc = true ->
    Legacy.paramExample parameterDoc = None.
Proof.
  intros parameterDoc H. unfold Legacy.paramExample, exec.
  rewrite ExampleFacts.search_none; [reflexivity | | exact H].
  intros prev' s' c k Hs'. now apply legacy_pattern_needs_colon.
Qed.

Lemma legacy_marker_requires_colon_witness :
  every notColon "the speed, eg 5" = true
  /\ Legacy.paramExample "the speed, eg 5" = None.
Proof.
  split; [reflexivity|]. apply legacy_marker_requires_colon. reflexivity.
Defined.

Lemma searchRest_separators (seps : string) :
  every isCommaOrSpace seps = true ->
  forall prev, Legacy.searchRest true Legacy.reg prev seps = None.
Proof.
  induction seps as [|x seps IH]; intros Hseps prev.
  - cbn [Legacy.searchRest]. now rewrite reg_fails.
  - simpl in Hseps. apply andb_prop in Hseps as [Hx Hseps].
    cbn [Legacy.searchRest]. rewrite reg_fails.
    + now apply IH.
    + simpl. unfold notCommaOrSpace. now rewrite Hx.
Qed.

(** X23.  In the earlier revision, a marker followed by commas and spaces
    alone up to the end of its line gives no example, also when a
    later line holds one: synthesis goes on by the type. *)
Theorem legacy_marker_without_candidate :
  forall (before marker seps tail : string),
    every notLineTerminator before = true ->
    LegacyMarker marker ->
    every isCommaOrSpace seps = true ->
    startsWith notLineTerminator tail = false ->
    Legacy.paramExample (before ++ marker ++ seps ++ tail) = None.
Proof.
  intros before marker seps tail Hbefore Hmarker Hseps Htail.
  assert (Hplain : every plainInLine seps = true).
  { apply (every_weaken isCommaOrSpace); [|exact Hseps].
    intros c H. unfold isCommaOrSpace in H. apply orb_prop in H as [H|H];
      apply Ascii.eqb_eq in H; subst c; reflexivity. }
  destruct (legacy_exec before marker seps tail Hbefore Hmarker Hplain Htail) as (whole & He).
  unfold Legacy.paramExample. rewrite He.
  cbn [group snd capture Nat.eqb joinText Legacy.examplesOf].
  now rewrite searchRest_separators.
Qed.

Lemma legacy_marker_without_candidate_witness :
  Legacy.paramExample ("speed, eg: ,, " ++ String LF "eg: 7") = None.
Proof.
  apply (legacy_marker_without_candidate "speed, " "eg:" " ,, " (String LF "eg: 7"));
    try reflexivity.
  exists "e"%char, "g"%char. auto.
Defined.

Lemma searchRest_result (r : regex) (s : string) :
  forall prev m,
    Legacy.searchRest true r prev s = Some m ->
    exists prev' s', matcher true r prev' s' [] accept = Some m.
Proof.
  induction s as [|a s IH]; intros prev m H; cbn [Legacy.searchRest] in H.
  - destruct (matcher true r prev "" [] accept) as [m'|] eqn:E; [|discriminate].
    injection H as <-. eauto.
  - destruct (matcher true r prev (String a s) [] accept) as [m'|] eqn:E.
    + injection H as <-. eauto.
    + eapply IH, H.
Qed.

Lemma reg_groups_legacy (prev : option ascii) (s rest : string) (c : captures) :
  matcher true Legacy.reg prev s [] accept = Some (rest, c) ->
  exists (x : ascii) (token : string),
    capture 2 c = Some (String x token)
    /\ every notCommaOrSpace (String x token) = true.
Proof.
  rewrite reg_unfold, matcher_Group, matcher_Seq, matcher_Group, matcher_Seq.
  destruct s as [|x s]; [discriminate|]. rewrite matcher_Class.
  destruct (notCommaOrSpace x) eqn:Ex; [|discriminate].
  rewrite matcher_Star. intros H.
  apply iterate_class_taken in H as (run & rest1 & -> & Hrun & H).
  cbv beta in H. change (String x (run ++ rest1)) with (String x run ++ rest1) in H.
  rewrite take_append, matcher_Star in H.
  apply iterate_class_taken in H as (run2 & rest2 & -> & _ & H).
  unfold accept in H. injection H as <- <-.
  exists x, run. split; [reflexivity|]. cbn [every]. now rewrite Ex, Hrun.
Qed.

(** X24.  Whatever the documentation, an example of the earlier revision is
    never [undefined] and never empty, and it holds neither comma nor
    space. *)
Theorem legacy_example_shape :
  forall (parameterDoc : string) (example : option string),
    Legacy.paramExample parameterDoc = Some example ->
    exists (x : ascii) (token : string),
      example = Some (String x token)
      /\ every notCommaOrSpace (String x token) = true.
Proof.
  intros parameterDoc example. unfold Legacy.paramExample.
  destruct (exec true Legacy.paramExamplesRegExp parameterDoc) as [m|]; [|discriminate].
  cbn [Legacy.examplesOf].
  destruct (Legacy.searchRest true Legacy.reg None (joinText (group m 1)))
    as [[rest c]|] eqn:E; [|discriminate].
  intros H. injection H as <-.
  apply searchRest_result in E as (prev' & s' & E).
  apply reg_groups_legacy in E as (x & token & -> & Hevery). eauto.
Qed.

Lemma legacy_example_shape_witness :
  exists (x : ascii) (token : string),
    Some (String dquote "a") = Some (String x token)
    /\ every notCommaOrSpace (String x token) = true.
Proof.
  apply (legacy_example_shape ("eg:" ++ String dquote ("a, b" ++ String dquote ""))).
  reflexivity.
Defined.

Section LegacyRender.

Variable ts : TsConstants.
Variable TypeFlags_Enum : Z.
Variable memberTypes : Type_.t -> option (Z -> option Type_.t).
Variable languageService : LanguageService.

Let typeChecker : TypeChecker := getTypeChecker languageService.

Abbreviation legacyRender :=
  (Legacy.renderParameter ts TypeFlags_Enum memberTypes languageService).
Abbreviation typeOf := (Spec.typeOf typeChecker).

(** How the earlier synthesis starts on an enum type without an
    example. *)
Lemma legacy_render_enum (signature : Signature.t) (parameter : Symbol.t) :
  Legacy.paramExample (docOf parameter) = None ->
  LegacyEnumType TypeFlags_Enum (typeOf parameter) ->
  legacyRender signature parameter =
    (enumValue <- Legacy.enumValueOf memberTypes (typeOf parameter) ;;
     if truthyStr enumValue
     then match Type_.symbol (typeOf parameter) with
          | Some symbol => Normal (Some (Symbol.name symbol ++ "." ++ joinText enumValue))
          | None => Throw TypeError
          end
     else Normal (Some (Legacy.placeholder (Symbol.name parameter)))).
Proof.
  intros Hdoc Henum. unfold Legacy.renderParameter.
  fold typeChecker. change (displayPartsToString _) with (docOf parameter).
  rewrite Hdoc.
  change (getTypeOfSymbolAtLocation typeChecker parameter _) with (typeOf parameter).
  rewrite (has_nonzero _ _ Henum), (has_truthy _ _ Henum). reflexivity.
Qed.

Lemma legacy_render_anonymous (signature : Signature.t) (parameter : Symbol.t) :
  Legacy.paramExample (docOf parameter) = None ->
  LegacyAnonymousType ts TypeFlags_Enum (typeOf parameter) ->
  legacyRender signature parameter =
    Normal (Some (Legacy.renderFunction ts languageService (typeOf parameter))).
Proof.
  intros Hdoc (Henum & Hobj & Hanon). unfold Legacy.renderParameter.
  fold typeChecker. change (displayPartsToString _) with (docOf parameter).
  rewrite Hdoc.
  change (getTypeOfSymbolAtLocation typeChecker parameter _) with (typeOf parameter).
  rewrite (has_nonzero _ _ Hobj), (not_has_truthy _ _ Henum),
    (has_truthy _ _ Hobj), (has_truthy _ _ Hanon). reflexivity.
Qed.

(** X25.  The earlier revision, on a type with the enum flag and no
    example: the member is read from the table of member types at
    index 1, not from the declarations; the name of its symbol is
    emitted after the name of the type's symbol and a dot, and without
    a table, or without an entry at index 1, the placeholder of the
    parameter's name in double braces. *)
Theorem legacy_enum_member_one :
  forall (signature : Signature.t) (parameter : Symbol.t),
    Legacy.paramExample (docOf parameter) = None ->
    LegacyEnumType TypeFlags_Enum (typeOf parameter) ->
    (forall (table : Z -> option Type_.t) (member : Type_.t) (symbol named : Symbol.t),
        memberTypes (typeOf parameter) = Some table ->
        table 1%Z = Some member ->
        Type_.symbol member = Some named ->
        Symbol.name named <> "" ->
        Type_.symbol (typeOf parameter) = Some symbol ->
        legacyRender signature parameter
        = Normal (Some (Symbol.name symbol ++ "." ++ Symbol.name named)))
    /\ (memberTypes (typeOf parameter) = None ->
        legacyRender signature parameter
        = Normal (Some ("{{" ++ Symbol.name parameter ++ "}}")))
    /\ (forall table : Z -> option Type_.t,
           memberTypes (typeOf parameter) = Some table ->
           table 1%Z = None ->
           legacyRender signature parameter
           = Normal (Some ("{{" ++ Symbol.name parameter ++ "}}"))).
Proof.
  intros signature parameter Hdoc HT.
  rewrite (legacy_render_enum _ _ Hdoc HT). unfold Legacy.enumValueOf.
  split; [|split].
  - intros table member symbol named Htable Hmember Hnamed Hname Hsym.
    rewrite Htable, Hmember, Hnamed, Hsym. cbn [bind].
    rewrite (truthyStr_nonempty _ Hname). reflexivity.
  - intros Htable. rewrite Htable. reflexivity.
  - intros table Htable Hmember. rewrite Htable, Hmember. reflexivity.
Qed.

(** X26.  The earlier revision, on an anonymous object type and no example:
    an arrow function whose parameter list is the printed first call
    signature up to its last colon, and whose body is the return
    statement of the return type between double braces, after four
    spaces; without a call signature both are empty. *)
Theorem legacy_function_literal :
  forall (signature : Signature.t) (parameter : Symbol.t),
    Legacy.paramExample (docOf parameter) = None ->
    LegacyAnonymousType ts TypeFlags_Enum (typeOf parameter) ->
    (Type_.getCallSignatures (typeOf parameter) = [] ->
     legacyRender signature parameter
     = Normal (Some (" => {" ++ String LF ("    {{}}" ++ String LF "}"))))
    /\ (forall (signature0 : Signature.t) (rest : list Signature.t),
           Type_.getCallSignatures (typeOf parameter) = signature0 :: rest ->
           let returned := Type_.flags (getReturnTypeOfSignature typeChecker signature0) in
           let printed :=
             displayPartsToString (buildSignatureDisplay typeChecker signature0) in
           exists body : string,
             legacyRender signature parameter
             = Normal (Some (substr0 printed (lastIndexOf printed ":") ++ " => {"
                             ++ String LF ("    {{" ++ body ++ "}}") ++ String LF "}"))
             /\ (has returned (TypeFlags_NumberLike ts) -> body = "return 0;")
             /\ (~ has returned (TypeFlags_NumberLike ts) ->
                 has returned (TypeFlags_StringLike ts) ->
                 body = "return " ++ String dquote (String dquote ";"))
             /\ (~ has returned (TypeFlags_NumberLike ts) ->
                 ~ has returned (TypeFlags_StringLike ts) ->
                 has returned (TypeFlags_BooleanLike ts) ->
                 body = "return false;")
             /\ (~ has returned (TypeFlags_NumberLike ts) ->
                 ~ has returned (TypeFlags_StringLike ts) ->
                 ~ has returned (TypeFlags_BooleanLike ts) ->
                 body = "")).
Proof.
  intros signature parameter Hdoc HT.
  rewrite (legacy_render_anonymous _ _ Hdoc HT). split.
  - intros Hsig. unfold Legacy.renderFunction. rewrite Hsig. reflexivity.
  - intros signature0 rest Hsig returned printed.
    unfold Legacy.renderFunction. rewrite Hsig.
    fold typeChecker. fold returned. fold printed.
    destruct (truthy (bitand returned (TypeFlags_NumberLike ts))) eqn:En;
      [|destruct (truthy (bitand returned (TypeFlags_StringLike ts))) eqn:Es;
        [|destruct (truthy (bitand returned (TypeFlags_BooleanLike ts))) eqn:Eb]].
    + exists "return 0;". split; [reflexivity|].
      apply truthy_true in En. unfold has.
      repeat split; intros; try reflexivity; contradiction.
    + exists ("return " ++ String dquote (String dquote ";")). split; [reflexivity|].
      apply truthy_true in Es. unfold has.
      repeat split; intros; try reflexivity; try contradiction.
      rewrite has_truthy in En; [discriminate | assumption].
    + exists "return false;". split; [reflexivity|].
      apply truthy_true in Eb. unfold has.
      repeat split; intros; try reflexivity; try contradiction.
      * rewrite has_truthy in En; [discriminate | assumption].
      * rewrite has_truthy in Es; [discriminate | assumption].
    + exists "". split; [reflexivity|].
      repeat split; intros; try reflexivity.
      * rewrite has_truthy in En; [discriminate | assumption].
      * rewrite has_truthy in Es; [discriminate | assumption].
      * rewrite has_truthy in Eb; [discriminate | assumption].
Qed.

(** X27.  The earlier synthesis throws in two cases only, both on a type
    with the enum flag reached without an example: the member type at
    index 1 has no symbol, or it has one with a name and the type
    itself has no symbol. *)
Theorem legacy_throws_iff :
  forall (signature : Signature.t) (parameter : Symbol.t),
    legacyRender signature parameter = Throw TypeError
    <-> Legacy.paramExample (docOf parameter) = None
        /\ LegacyEnumType TypeFlags_Enum (typeOf parameter)
        /\ exists (table : Z -> option Type_.t) (member : Type_.t),
             memberTypes (typeOf parameter) = Some table
             /\ table 1%Z = Some member
             /\ (Type_.symbol member = None
                 \/ exists named : Symbol.t,
                      Type_.symbol member = Some named
                      /\ Symbol.name named <> ""
                      /\ Type_.symbol (typeOf parameter) = None).
Proof.
  intros signature parameter. split.
  - unfold Legacy.renderParameter. fold typeChecker.
    change (displayPartsToString _) with (docOf parameter).
    change (getTypeOfSymbolAtLocation typeChecker parameter _) with (typeOf parameter).
    destruct (Legacy.paramExample (docOf parameter)); [discriminate|].
    destruct (truthy (Type_.flags (typeOf parameter))); [|discriminate].
    destruct (truthy (bitand (Type_.flags (typeOf parameter)) TypeFlags_Enum)) eqn:Eenum.
    + intros H. split; [reflexivity|]. split; [now apply truthy_true|].
      unfold Legacy.enumValueOf in H.
      destruct (memberTypes (typeOf parameter)) as [table|]; [|discriminate].
      destruct (table 1%Z) as [member|] eqn:Emember; [|discriminate].
      exists table, member. split; [reflexivity|]. split; [exact Emember|].
      destruct (Type_.symbol member) as [named|]; [|now left]. right.
      exists named. split; [reflexivity|]. cbn [bind] in H.
      destruct (truthyStr (Some (Symbol.name named))) eqn:Et; [|discriminate].
      split.
      * intros Hname. rewrite Hname in Et. discriminate Et.
      * destruct (Type_.symbol (typeOf parameter)); [discriminate | reflexivity].
    + destruct (truthy (bitand (Type_.flags (typeOf parameter)) (TypeFlags_Object ts))).
      * destruct (truthy (bitand (Type_.objectFlags (typeOf parameter))
                                 (ObjectFlags_Anonymous ts))); [discriminate|].
        destruct (_ || _); discriminate.
      * destruct (_ || _); discriminate.
  - intros (Hdoc & Henum & table & member & Htable & Hmember & Hcase).
    rewrite (legacy_render_enum _ _ Hdoc Henum). unfold Legacy.enumValueOf.
    rewrite Htable, Hmember.
    destruct Hcase as [Hnone | (named & Hnamed & Hname & Hsym)].
    + now rewrite Hnone.
    + rewrite Hnamed. cbn [bind]. rewrite (truthyStr_nonempty _ Hname), Hsym. reflexivity.
Qed.

Lemma forEachPush_ext {A B : Type} (f g : A -> outcome B) (l : list A) :
  (forall a, In a l -> f a = g a) -> forEachPush f l = forEachPush g l.
Proof.
  induction l as [|a l IH]; intros H; simpl; [reflexivity|].
  rewrite (H a (or_introl eq_refl)), IH; [reflexivity|].
  intros a' Ha'. apply H. now right.
Qed.

(** X28.  The two revisions of the method differ in the synthesis of the
    arguments only: where both synthesise the same text for every
    required parameter of the first call signature of the symbol, they
    return the same snippet and the same details, or throw alike.  The
    details are compared on the five properties both revisions write;
    the later one adds [tags], always [undefined]. *)
Theorem revisions_agree :
  forall (fileName : string) (position : Z) (entry label : string)
         (parent : option string),
    (forall (symbol : Symbol.t) (signature : Signature.t) (others : list Signature.t)
            (parameter : Symbol.t),
        Worker.completionSymbol languageService fileName position entry parent
        = Normal (Some symbol) ->
        Type_.getCallSignatures (typeOf symbol) = signature :: others ->
        In parameter (slice0 (Signature.parameters signature)
                             (Signature.minArgumentCount signature)) ->
        legacyRender signature parameter
        = Worker.renderParameter ts languageService signature parameter) ->
    Legacy.getCompletionEntryDetailsAndSnippet ts TypeFlags_Enum memberTypes languageService
                                               fileName position entry label parent
    = Worker.getCompletionEntryDetailsAndSnippet ts languageService
                                                 fileName position entry label parent.
Proof.
  intros fileName position entry label parent Hsame.
  unfold Legacy.getCompletionEntryDetailsAndSnippet,
    Worker.getCompletionEntryDetailsAndSnippet.
  destruct (Worker.completionSymbol languageService fileName position entry parent)
    as [[symbol|]|[]] eqn:Esym; try reflexivity.
  cbn [bind].
  assert (Hsnip : Legacy.codeSnippetOf ts TypeFlags_Enum memberTypes languageService
                                       label symbol
                  = Worker.codeSnippetOf ts languageService label symbol).
  { unfold Legacy.codeSnippetOf, Worker.codeSnippetOf. fold typeChecker.
    specialize (Hsame symbol). unfold Spec.typeOf in Hsame.
    destruct (Symbol.valueDeclaration symbol) as [declaration|]; [|reflexivity].
    destruct (truthy (Declaration.kind declaration)); [|reflexivity].
    destruct (Type_.getCallSignatures _) as [|signature others]; [reflexivity|].
    rewrite (forEachPush_ext _ (Worker.renderParameter ts languageService signature));
      [reflexivity|].
    intros parameter Hin. now apply (Hsame signature others). }
  now rewrite Hsnip.
Qed.

End LegacyRender.

Lemma legacy_enum_member_one_witness :
  Legacy.renderParameter Sample.ts2 LegacySamples.EnumFlag LegacySamples.sampleMemberTypes
                         LegacySamples.legacyService Sample.moveSignature
                         (Sample.parameter "dir" "")
  = Normal (Some "Direction.Back")
  /\ Legacy.renderParameter Sample.ts2 LegacySamples.EnumFlag LegacySamples.sampleMemberTypes
                            LegacySamples.legacyService Sample.moveSignature
                            (Sample.parameter "hollow" "")
     = Normal (Some "{{hollow}}")
  /\ Legacy.renderParameter Sample.ts2 LegacySamples.EnumFlag LegacySamples.sampleMemberTypes
                            LegacySamples.legacyService Sample.moveSignature
                            (Sample.parameter "single" "")
     = Normal (Some "{{single}}").
Proof.
  split; [|split].
  - assert (Hone : Some (LegacySamples.memberType "Back") = Some (LegacySamples.memberType "Back"))
      by reflexivity.
    refine (proj1 (legacy_enum_member_one Sample.ts2 LegacySamples.EnumFlag
                     LegacySamples.sampleMemberTypes LegacySamples.legacyService
                     Sample.moveSignature (Sample.parameter "dir" "") _ _)
                  _ (LegacySamples.memberType "Back") Sample.Direction
                  (Symbol.Build "Back" None None [] None) eq_refl Hone eq_refl _ eq_refl).
    + reflexivity.
    + unfold LegacyEnumType, has. vm_compute. discriminate.
    + discriminate.
  - refine (proj1 (proj2 (legacy_enum_member_one Sample.ts2 LegacySamples.EnumFlag
                            LegacySamples.sampleMemberTypes LegacySamples.legacyService
                            Sample.moveSignature (Sample.parameter "hollow" "") _ _))
                  eq_refl).
    + reflexivity.
    + unfold LegacyEnumType, has. vm_compute. discriminate.
  - refine (proj2 (proj2 (legacy_enum_member_one Sample.ts2 LegacySamples.EnumFlag
                            LegacySamples.sampleMemberTypes LegacySamples.legacyService
                            Sample.moveSignature (Sample.parameter "single" "") _ _))
                  _ eq_refl eq_refl).
    + reflexivity.
    + unfold LegacyEnumType, has. vm_compute. discriminate.
Defined.

Lemma legacy_function_literal_witness :
  Legacy.renderParameter Sample.ts2 LegacySamples.EnumFlag LegacySamples.sampleMemberTypes
                         LegacySamples.legacyService Sample.moveSignature
                         (Sample.parameter "opts" "")
  = Normal (Some (" => {" ++ String LF ("    {{}}" ++ String LF "}")))
  /\ exists body : string,
       Legacy.renderParameter Sample.ts2 LegacySamples.EnumFlag
                              LegacySamples.sampleMemberTypes
                              LegacySamples.legacyService Sample.moveSignature
                              (Sample.parameter "handler" "")
       = Normal (Some ("()" ++ " => {" ++ String LF ("    {{" ++ body ++ "}}")
                       ++ String LF "}"))
       /\ body = "return 0;".
Proof.
  assert (HT : forall name,
             name = "opts" \/ name = "handler" ->
             LegacyAnonymousType Sample.ts2 LegacySamples.EnumFlag
               (Spec.typeOf (getTypeChecker LegacySamples.legacyService)
                            (Sample.parameter name ""))).
  { intros name [-> | ->]; unfold LegacyAnonymousType, has; vm_compute;
      (split; [|split]); congruence. }
  split.
  - apply (proj1 (legacy_function_literal Sample.ts2 LegacySamples.EnumFlag
                    LegacySamples.sampleMemberTypes LegacySamples.legacyService
                    Sample.moveSignature (Sample.parameter "opts" "") eq_refl
                    (HT "opts" (or_introl eq_refl)))).
    reflexivity.
  - destruct (proj2 (legacy_function_literal Sample.ts2 LegacySamples.EnumFlag
                       LegacySamples.sampleMemberTypes LegacySamples.legacyService
                       Sample.moveSignature (Sample.parameter "handler" "") eq_refl
                       (HT "handler" (or_intror eq_refl)))
                    (Sample.signature [] 0) [] eq_refl)
      as (body & Hrender & Hnumber & _).
    exists body. split; [exact Hrender|]. apply Hnumber.
    unfold has. vm_compute. discriminate.
Defined.

Lemma legacy_throws_iff_witness :
  Legacy.renderParameter Sample.ts2 LegacySamples.EnumFlag LegacySamples.sampleMemberTypes
                         LegacySamples.legacyService Sample.moveSignature
                         (Sample.parameter "stray" "")
  = Throw TypeError.
Proof.
  apply legacy_throws_iff. split; [reflexivity|]. split.
  - unfold LegacyEnumType, has. vm_compute. discriminate.
  - eexists. exists LegacySamples.strayMember. split; [reflexivity|].
    split; [reflexivity|]. now left.
Defined.

Lemma revisions_agree_witness :
  Legacy.getCompletionEntryDetailsAndSnippet
    Sample.ts2 LegacySamples.EnumFlag LegacySamples.sampleMemberTypes
    LegacySamples.legacyService "main.ts" 0 "turn" "turn" None
  = Worker.getCompletionEntryDetailsAndSnippet
      Sample.ts2 LegacySamples.legacyService "main.ts" 0 "turn" "turn" None.
Proof.
  apply revisions_agree.
  intros symbol signature others parameter Hsym Hsigs Hin.
  injection Hsym as <-. injection Hsigs as <- <-.
  destruct Hin as [<- | [<- | []]]; reflexivity.
Defined.

End LegacyFacts.
